(** * Order lifecycle of the order service: orders, stock and transactions

    A shallow embedding of [src/services/order.service.ts], of the order and
    product repositories it drives, of [ProductService], of the error classes
    and the error handler of [middleware/error.middleware.ts], of
    [middleware/auth.middleware.ts] and of the gates of the product routes,
    followed by the properties of the order lifecycle, of the listings and of
    the gates.

    Modelling conventions.
    - Quantities, prices, stock and totals are JavaScript numbers holding
      integers (the request schema asks for [int()] quantities and prices are
      kept in cents); they are modelled as [Z].
    - An identity is an ObjectId, a number of twelve bytes.  The services
      hold identities as strings: [new mongoose.Types.ObjectId(s)] and the
      casts of the queries by identity read 24 hexadecimal digits of either
      case and throw on any other string, and [toString()] writes the digits
      in lower case.  Strings are compared as strings, as [===], [includes]
      and the keys of a [Map] compare them.
    - [populate] replaces the identity of the owner and of the product of
      each line by the document it names, or by [null].  [toString()] of a
      document is the text [util.inspect] prints for it.  That text, and the
      messages of the errors the libraries raise, are not in the sources:
      they are fields of a [Library], over which every property is
      quantified.
    - User documents are not part of the store: nothing in the sources
      deletes one, so the owner of a stored order is taken to have one.
    - A collection is a finite map from [_id] to document, which is what makes
      [_id] unique.
    - An [async] function is a function from the world to an outcome, a
      value or a thrown error, and a new world.  The calls of one request run
      to completion before the next request starts.
    - One client session is open at a time.  Its transaction reads the data
      it started from with its own writes applied; committing applies those
      writes to the committed data, aborting drops them, and neither fails.
    - A query without [sort] returns the documents in an order the store
      chooses; that order is a parameter of the query.
    - Timestamps and log lines are not part of the state. *)

From stdpp Require Import base gmap strings list fin_maps pretty sorting.
From Stdlib Require Import ZArith Lia Ascii.

Local Open Scope Z_scope.
Local Open Scope string_scope.


(** ** Errors: [middleware/error.middleware.ts] *)

(** The classes a thrown value can belong to.  The first six are the classes
    of [error.middleware.ts]; [TypeError] is the runtime's,
    [MongooseValidationError] and [CastError] are the object mapper's and
    [BSONError] is the driver's. *)
Inductive ErrorClass : Type :=
  | ApiError
  | NotFoundError
  | ValidationError
  | UnauthorizedError
  | ForbiddenError
  | ConflictError
  | TypeError
  | MongooseValidationError
  | CastError
  | BSONError.

Record Error : Type := mkError {
  cls : ErrorClass;
  message : string;
  statusCode : option Z
}.

Global Instance ErrorClass_eq_dec : EqDecision ErrorClass.
Proof. solve_decision. Defined.

Global Instance Error_eq_dec : EqDecision Error.
Proof. solve_decision. Defined.

(** [new ApiError(message, statusCode = 500)] *)
Definition new_ApiError (msg : string) (code : Z) : Error :=
  mkError ApiError msg (Some code).
(** [new NotFoundError(message)]: [super(message, 404)] *)
Definition new_NotFoundError (msg : string) : Error :=
  mkError NotFoundError msg (Some 404).
(** [new ValidationError(message)]: [super(message, 400)] *)
Definition new_ValidationError (msg : string) : Error :=
  mkError ValidationError msg (Some 400).
(** [new ConflictError(message)]: [super(message, 409)] *)
Definition new_ConflictError (msg : string) : Error :=
  mkError ConflictError msg (Some 409).
(** [new ForbiddenError(message)]: [super(message, 403)] *)
Definition new_ForbiddenError (msg : string) : Error :=
  mkError ForbiddenError msg (Some 403).

(** ** Identities: [mongoose.Types.ObjectId] *)

(** An identity is a number of twelve bytes.  The sources hold identities as
    strings and hand them to [new mongoose.Types.ObjectId(s)], to
    [findById] or to [findByIdAndUpdate], which read 24 hexadecimal digits
    of either case and throw on any other string; [toString()] writes the 24
    digits in lower case. *)
Definition ObjectId : Type := N.

(** The value of a hexadecimal digit, of either case. *)
Definition hex_value (c : ascii) : option N :=
  let n := N_of_ascii c in
  if (48 <=? n)%N && (n <=? 57)%N then Some (n - 48)%N
  else if (97 <=? n)%N && (n <=? 102)%N then Some (n - 87)%N
  else if (65 <=? n)%N && (n <=? 70)%N then Some (n - 55)%N
  else None.

(** The lower-case digit of a value below sixteen. *)
Definition hex_digit (d : N) : ascii :=
  ascii_of_N (if (d <? 10)%N then 48 + d else 87 + d)%N.

Fixpoint parse_hex (acc : N) (s : string) : option N :=
  match s with
  | EmptyString => Some acc
  | String c s' =>
      match hex_value c with
      | Some d => parse_hex (16 * acc + d)%N s'
      | None => None
      end
  end.

Fixpoint to_hex (digits : nat) (n : N) : string :=
  match digits with
  | O => EmptyString
  | S k => String (hex_digit ((n / 16 ^ N.of_nat k) mod 16)%N) (to_hex k n)
  end.

(** [new mongoose.Types.ObjectId(s)], and the cast of [findById] and
    [findByIdAndUpdate]: [None] stands for the exception. *)
Definition new_ObjectId (s : string) : option ObjectId :=
  if bool_decide (String.length s = 24%nat) then parse_hex 0 s else None.

(** [objectId.toString()], which is also the [id] of a document. *)
Definition toString (id : ObjectId) : string := to_hex 24 id.

(** [document.toString()] of a document of the object mapper is what
    [util.inspect] prints for it: an opening brace and then the fields, as
    the library lays them out. *)
Definition Document_toString (fields : string) : string := String "{" fields.

(** ** Documents: [models/Order.ts], [models/Product.ts] *)

Inductive OrderStatus : Type := created | paid | cancelled.

Global Instance OrderStatus_eq_dec : EqDecision OrderStatus.
Proof. solve_decision. Defined.

(** The string a status is in the source. *)
Definition status_text (s : OrderStatus) : string :=
  match s with
  | created => "created"
  | paid => "paid"
  | cancelled => "cancelled"
  end.

(** [IOrderItem] *)
Module IOrderItem.
Record t : Type := mk {
  productId : ObjectId;
  quantity : Z;
  unitPrice : Z
}.
End IOrderItem.

(** The fields of [IOrder]; the [_id] is the key of the collection. *)
Module IOrder.
Record t : Type := mk {
  userId : ObjectId;
  items : list IOrderItem.t;
  total : Z;
  status : OrderStatus
}.
End IOrder.

(** The fields of [IProduct]. *)
Module IProduct.
Record t : Type := mk {
  name : string;
  price : Z;
  stock : Z
}.
End IProduct.

Global Instance IOrderItem_eq_dec : EqDecision IOrderItem.t.
Proof. solve_decision. Defined.

Global Instance IOrder_eq_dec : EqDecision IOrder.t.
Proof. solve_decision. Defined.

Global Instance IProduct_eq_dec : EqDecision IProduct.t.
Proof. solve_decision. Defined.

(** A document as a query returns it: its [_id] and its fields. *)
Definition Doc (A : Type) : Type := ObjectId * A.

(** An order as a query with [.populate('items.productId')] and
    [.populate('userId', '-passwordHash')] returns it: [userId] holds the
    user document of the owner, and the [productId] of each line holds the
    product document, or [null] when the catalogue has no such product.
    User documents are not part of the store modelled here, and nothing in
    the sources deletes one: the document of the owner is named by its
    identity. *)
Module Populated.
Record t : Type := mk {
  id : ObjectId;
  userId : ObjectId;
  items : list (IOrderItem.t * option IProduct.t);
  total : Z;
  status : OrderStatus
}.
End Populated.

(** [CreateOrderItemDto] of the order repository. *)
Module CreateOrderItemDto.
Record t : Type := mk {
  productId : string;
  quantity : Z;
  unitPrice : Z
}.
End CreateOrderItemDto.

(** [CreateOrderDto] of the order repository. *)
Module CreateOrderDto.
Record t : Type := mk {
  userId : string;
  items : list CreateOrderItemDto.t
}.
End CreateOrderDto.

(** One line of [CreateOrderDto['items']] of the order service. *)
Module Item.
Record t : Type := mk {
  productId : string;
  quantity : Z
}.
End Item.

(** What the declared type [IOrder] holds in a result: the document
    [create] has saved, or a populated document of [findById] and
    [updateStatus]. *)
Inductive Returned : Type :=
  | Saved (order : Doc IOrder.t)
  | Found (order : Populated.t).

(** [OrderResult].  [order] is declared [IOrder]; the service fills it with
    [updatedOrder!], which is [null] when the update found no document. *)
Module OrderResult.
Record t : Type := mk {
  order : option Returned;
  message : string
}.
End OrderResult.

(** ** What the libraries print *)

(** The failures of the libraries that the sources can run into: a string
    that is not an ObjectId, given to [new ObjectId] or to a query by
    identity of the named model; an order that [save] finds invalid; a
    method called on [null] or [undefined]. *)
Inductive Failure : Type :=
  | NotObjectId (value : string)
  | CastFailed (model : string) (value : string)
  | InvalidOrder (order : IOrder.t)
  | NoSuchProperty (property : string).

(** The text of a populated document and the message of a library's error
    are the libraries' own; nothing in the sources fixes them.  They are
    parameters of the functions that meet them. *)
Record Library : Type := mkLibrary {
  inspect_user : ObjectId -> string;
  inspect_product : Doc IProduct.t -> string;
  failure_message : Failure -> string
}.

Definition new_BSONError (lib : Library) (value : string) : Error :=
  mkError BSONError (failure_message lib (NotObjectId value)) None.

Definition new_CastError (lib : Library) (model value : string) : Error :=
  mkError CastError (failure_message lib (CastFailed model value)) None.

Definition new_MongooseValidationError (lib : Library) (order : IOrder.t)
    : Error :=
  mkError MongooseValidationError (failure_message lib (InvalidOrder order))
          None.

Definition new_TypeError (lib : Library) (property : string) : Error :=
  mkError TypeError (failure_message lib (NoSuchProperty property)) None.

(** ** The store, sessions and the monad of the [async] functions *)

(** The two collections. *)
Record Db : Type := mkDb {
  products : gmap ObjectId IProduct.t;
  orders : gmap ObjectId IOrder.t
}.

(** A transaction that is open on the client session: [initial] is the
    committed data it started from, and [current] is what the calls that
    carry the session read, the initial data with the writes of the
    transaction so far. *)
Record Transaction : Type := mkTransaction {
  initial : Db;
  current : Db
}.

(** [db] is the committed data, which the calls without a session read and
    write; [txn] is the transaction that is open on the client session, if
    one is. *)
Record World : Type := mkWorld {
  db : Db;
  txn : option Transaction
}.

Inductive ClientSession : Type := Session.

Inductive Outcome (A : Type) : Type :=
  | Ok (a : A)
  | Throw (e : Error).
Arguments Ok {A} a.
Arguments Throw {A} e.

Definition M (A : Type) : Type := World -> Outcome A * World.

Definition ret {A} (a : A) : M A := fun w => (Ok a, w).
Definition throw {A} (e : Error) : M A := fun w => (Throw e, w).
Definition bind {A B} (m : M A) (k : A -> M B) : M B :=
  fun w => match m w with
           | (Ok a, w') => k a w'
           | (Throw e, w') => (Throw e, w')
           end.

Declare Scope async_scope.
Delimit Scope async_scope with async.
Notation "x <- m ;; k" := (bind m (fun x => k))
  (at level 100, m at next level, right associativity) : async_scope.
Notation "m ;;; k" := (bind m (fun _ => k))
  (at level 100, right associativity) : async_scope.
Local Open Scope async_scope.

(** [try { body } catch (error) { handler error }] *)
Definition try_catch {A} (body : M A) (handler : Error -> M A) : M A :=
  fun w => match body w with
           | (Ok a, w') => (Ok a, w')
           | (Throw e, w') => handler e w'
           end.

(** [try { body } finally { fin }]: [fin] runs on both exits; an exception
    of [fin] replaces the outcome of [body]. *)
Definition try_finally {A} (body : M A) (fin : M unit) : M A :=
  fun w => match body w with
           | (r, w') =>
               match fin w' with
               | (Ok _, w'') => (r, w'')
               | (Throw e, w'') => (Throw e, w'')
               end
           end.

(** [for (const x of l) { await f x }] *)
Fixpoint for_of {A} (l : list A) (f : A -> M unit) : M unit :=
  match l with
  | [] => ret tt
  | x :: l' => f x ;;; for_of l' f
  end.

(** [l.map(f)] for an [f] that may throw. *)
Fixpoint map_of {A B} (l : list A) (f : A -> M B) : M (list B) :=
  match l with
  | [] => ret []
  | x :: l' => y <- f x ;; ys <- map_of l' f ;; ret (y :: ys)
  end.

(** The data a call reads and writes: the view of the open transaction when
    the call carries the session, the committed data otherwise. *)
Definition view (session : option ClientSession) (w : World) : Db :=
  match session, txn w with
  | Some _, Some t => current t
  | _, _ => db w
  end.

Definition write (session : option ClientSession) (d : Db) (w : World) : World :=
  match session, txn w with
  | Some _, Some t => mkWorld (db w) (Some (mkTransaction (initial t) d))
  | _, _ => mkWorld d (txn w)
  end.

(** The writes of a transaction to one collection: the documents that
    differ between its initial data and what it reads now, with what they are
    now, [None] for a document it deleted. *)
Definition written {V} `{EqDecision V} (before after : gmap ObjectId V)
    : gmap ObjectId (option V) :=
  merge (fun x y => if decide (x = y) then None else Some y) before after.

(** A collection with the writes of a transaction applied to it; the
    documents the transaction did not write stay as they are. *)
Definition apply_writes {V} (writes : gmap ObjectId (option V))
    (committed : gmap ObjectId V) : gmap ObjectId V :=
  merge (fun x change => match change with Some y => y | None => x end)
        committed writes.

Definition publish (t : Transaction) (d : Db) : Db :=
  mkDb (apply_writes (written (products (initial t)) (products (current t)))
                     (products d))
       (apply_writes (written (orders (initial t)) (orders (current t)))
                     (orders d)).

(** The committed data once the open transaction, if there is one, has
    committed. *)
Definition committed (w : World) : Db :=
  match txn w with
  | Some t => publish t (db w)
  | None => db w
  end.

(** [mongoose.startSession()] and the four methods of the session that
    [withTransaction] calls.  Committing applies the writes of the
    transaction to the committed data, whatever was written there without
    the session in the meantime. *)
Definition startSession : M ClientSession := ret Session.
Definition startTransaction (_ : ClientSession) : M unit :=
  fun w => (Ok tt, mkWorld (db w) (Some (mkTransaction (db w) (db w)))).
Definition commitTransaction (_ : ClientSession) : M unit :=
  fun w => (Ok tt, mkWorld (committed w) None).
Definition abortTransaction (_ : ClientSession) : M unit :=
  fun w => (Ok tt, mkWorld (db w) None).
Definition endSession (_ : ClientSession) : M unit :=
  fun w => (Ok tt, mkWorld (db w) None).

(** [new mongoose.Types.ObjectId(value)], where it may throw. *)
Definition ObjectId_of (lib : Library) (value : string) : M ObjectId :=
  match new_ObjectId value with
  | Some objectId => ret objectId
  | None => throw (new_BSONError lib value)
  end.

(** ** Listings

    Page numbers, page sizes and counts are natural numbers: the request
    schemas admit positive integers only. *)

(** [x || d] for an optional number: [undefined] and [0] give the default. *)
Definition or_default (x : option nat) (d : nat) : nat :=
  match x with
  | Some (S n) => S n
  | _ => d
  end.

(** [Math.ceil(total / limit)] *)
Definition ceil_div (total limit : nat) : nat :=
  if (total mod limit =? 0)%nat then (total / limit)%nat
  else S (total / limit).

(** The result of a listing: the documents of the page, the number of
    documents that match, the page and the number of pages. *)
Module Paginated.
Record t (A : Type) : Type := mk {
  docs : list A;
  total : nat;
  page : nat;
  totalPages : nat
}.
Arguments mk {A} docs total page totalPages.
Arguments docs {A} t.
Arguments total {A} t.
Arguments page {A} t.
Arguments totalPages {A} t.
End Paginated.

(** The options of [ProductRepository.findAll] ([ProductFilters]). *)
Module ProductFilters.
Record t : Type := mk {
  page : option nat;
  limit : option nat;
  minPrice : option Z;
  maxPrice : option Z;
  inStock : option bool
}.
End ProductFilters.

(** [OrderFilters], the options of [findByUserId] and [getUserOrders]. *)
Module OrderFilters.
Record t : Type := mk {
  page : option nat;
  limit : option nat;
  status : option OrderStatus
}.
End OrderFilters.

(** The options of [OrderRepository.findAll]. *)
Module OrderOptions.
Record t : Type := mk {
  page : option nat;
  limit : option nat;
  status : option OrderStatus;
  userId : option string
}.
End OrderOptions.

(** ** [repositories/product.repository.ts] *)

Module productRepository.

(** [ids.map(id => new mongoose.Types.ObjectId(id))], which throws at the
    first string that is not an ObjectId, and then
    [Product.find({ _id: { $in: objectIds } })]: the documents whose
    identity is among [objectIds], each once. *)
Definition findByIds (lib : Library) (ids : list string)
    : M (list (Doc IProduct.t)) :=
  objectIds <- map_of ids (ObjectId_of lib) ;;
  fun w =>
    (Ok (map_to_list
           (filter (fun kv : ObjectId * IProduct.t => kv.1 ∈ objectIds)
                   (products (db w)))), w).

(** [Product.findByIdAndUpdate(productId, { $inc: { stock: quantityChange } },
    { new: true, session, runValidators: true })].  The query casts
    [productId] to an ObjectId and throws a [CastError] when it is none.
    Update validators do not apply to [$inc], so the schema's [min: 0] does
    not guard the result; the updated document is returned, or [null] when
    there is none. *)
Definition updateStock (lib : Library) (productId : string)
    (quantityChange : Z) (session : option ClientSession)
    : M (option (Doc IProduct.t)) :=
  fun w =>
    match new_ObjectId productId with
    | None => (Throw (new_CastError lib "Product" productId), w)
    | Some id =>
        let d := view session w in
        match products d !! id with
        | None => (Ok None, w)
        | Some p =>
            let p' := IProduct.mk (IProduct.name p) (IProduct.price p)
                                  (IProduct.stock p + quantityChange) in
            (Ok (Some (id, p')),
             write session (mkDb (<[id := p']> (products d)) (orders d)) w)
        end
    end.

(** The query [findAll] builds: [price: { $gte, $lte }] for the bounds that
    are given, [stock: { $gt: 0 }] or [stock: { $eq: 0 }] for [inStock]. *)
Definition query (options : option ProductFilters.t) (p : IProduct.t) : bool :=
  match options ≫= ProductFilters.minPrice with
  | Some v => (v <=? IProduct.price p)%Z
  | None => true
  end
  && match options ≫= ProductFilters.maxPrice with
     | Some v => (IProduct.price p <=? v)%Z
     | None => true
     end
  && match options ≫= ProductFilters.inStock with
     | Some true => (0 <? IProduct.stock p)%Z
     | Some false => (IProduct.stock p =? 0)%Z
     | None => true
     end.

(** The order in which the store hands out the documents of a query that
    has no [sort].  The sources do not fix it and it may differ from one
    query to the next, so it is a parameter of the call: [position] ranks
    the documents, and every order of a collection is the order of some
    ranking. *)
Definition store_order (position : ObjectId -> Z) (a b : Doc IProduct.t)
    : Prop :=
  position a.1 <= position b.1.

Global Instance store_order_dec position a b :
  Decision (store_order position a b).
Proof. unfold store_order. apply _. Defined.

(** [Product.find(query).skip(skip).limit(limit)] and
    [Product.countDocuments(query)]. *)
Definition findAll (position : ObjectId -> Z)
    (options : option ProductFilters.t)
    : M (Paginated.t (Doc IProduct.t)) :=
  fun w =>
    let page := or_default (options ≫= ProductFilters.page) 1 in
    let limit := or_default (options ≫= ProductFilters.limit) 20 in
    let skip := ((page - 1) * limit)%nat in
    let matching :=
      map_to_list (filter (fun kv : ObjectId * IProduct.t => query options kv.2)
                          (products (db w))) in
    (Ok (Paginated.mk
           (take limit (drop skip (merge_sort (store_order position) matching)))
           (length matching) page
           (ceil_div (length matching) limit)), w).

(** [Product.findById(id)], which casts [id] as the other queries by
    identity do. *)
Definition findById (lib : Library) (id : string)
    : M (option (Doc IProduct.t)) :=
  fun w =>
    match new_ObjectId id with
    | None => (Throw (new_CastError lib "Product" id), w)
    | Some objectId =>
        (Ok ((fun p => (objectId, p)) <$> products (db w) !! objectId), w)
    end.


End productRepository.

(** ** [services/product.service.ts] *)

Module productService.

Definition getProductsByIds (lib : Library) (ids : list string)
    : M (list (Doc IProduct.t)) :=
  productRepository.findByIds lib ids.

Definition updateProductStock (lib : Library) (productId : string)
    (quantityChange : Z) (session : option ClientSession)
    : M (option (Doc IProduct.t)) :=
  product <- productRepository.updateStock lib productId quantityChange
                                           session ;;
  ret product.

Definition getAllProducts (position : ObjectId -> Z)
    (filters : option ProductFilters.t)
    : M (Paginated.t (Doc IProduct.t)) :=
  productRepository.findAll position filters.



End productService.

(** ** [repositories/order.repository.ts] *)

Module orderRepository.

(** The validators of [orderSchema] and [orderItemSchema] that [save]
    runs: a non-empty [items], [quantity >= 1], [unitPrice >= 0],
    [total >= 0]. *)
Definition valid (o : IOrder.t) : bool :=
  negb (bool_decide (IOrder.items o = []))
  && forallb (fun i => (1 <=? IOrderItem.quantity i)%Z
                       && (0 <=? IOrderItem.unitPrice i)%Z) (IOrder.items o)
  && (0 <=? IOrder.total o)%Z.

(** [data.items.reduce((sum, item) => sum + item.quantity * item.unitPrice, 0)] *)
Definition order_total (items : list CreateOrderItemDto.t) : Z :=
  fold_left (fun sum item =>
               sum + CreateOrderItemDto.quantity item
                     * CreateOrderItemDto.unitPrice item)
            items 0.

(** [new Order({...})] casts the owner and then the product of each line,
    and draws a new [_id]; all that is kept of the generator is that the
    identity is not in use.  [order.save({ session })] runs the validators
    and writes. *)
Definition create (lib : Library) (data : CreateOrderDto.t)
    (session : option ClientSession) : M (Doc IOrder.t) :=
  userId <- ObjectId_of lib (CreateOrderDto.userId data) ;;
  items <- map_of (CreateOrderDto.items data) (fun item =>
    productId <- ObjectId_of lib (CreateOrderItemDto.productId item) ;;
    ret (IOrderItem.mk productId (CreateOrderItemDto.quantity item)
                       (CreateOrderItemDto.unitPrice item))) ;;
  fun w =>
    let d := view session w in
    let order :=
      IOrder.mk userId items (order_total (CreateOrderDto.items data))
                created in
    if valid order then
      let id : ObjectId := fresh (dom (orders d)) in
      (Ok (id, order),
       write session (mkDb (products d) (<[id := order]> (orders d))) w)
    else (Throw (new_MongooseValidationError lib order), w).

(** [.populate('items.productId').populate('userId', '-passwordHash')], on
    the data the query reads. *)
Definition populate (d : Db) (order : Doc IOrder.t) : Populated.t :=
  Populated.mk order.1 (IOrder.userId order.2)
               (map (fun item =>
                       (item, products d !! IOrderItem.productId item))
                    (IOrder.items order.2))
               (IOrder.total order.2) (IOrder.status order.2).

(** [Order.findById(id).populate(...).populate(...)]: no session, so the
    committed data.  The query casts [id]. *)
Definition findById (lib : Library) (id : string) : M (option Populated.t) :=
  fun w =>
    match new_ObjectId id with
    | None => (Throw (new_CastError lib "Order" id), w)
    | Some objectId =>
        (Ok (populate (db w) <$>
               ((fun o => (objectId, o)) <$> orders (db w) !! objectId)), w)
    end.

(** [Order.findByIdAndUpdate(id, { $set: { status } }, { new: true, session,
    runValidators: true }).populate(...).populate(...)] *)
Definition updateStatus (lib : Library) (id : string) (status : OrderStatus)
    (session : option ClientSession) : M (option Populated.t) :=
  fun w =>
    match new_ObjectId id with
    | None => (Throw (new_CastError lib "Order" id), w)
    | Some objectId =>
        let d := view session w in
        match orders d !! objectId with
        | None => (Ok None, w)
        | Some o =>
            let o' := IOrder.mk (IOrder.userId o) (IOrder.items o)
                                (IOrder.total o) status in
            (Ok (Some (populate d (objectId, o'))),
             write session
                   (mkDb (products d) (<[objectId := o']> (orders d))) w)
        end
    end.

Definition withTransaction {T} (callback : ClientSession -> M T) : M T :=
  session <- startSession ;;
  startTransaction session ;;;
  try_finally
    (try_catch
       (result <- callback session ;;
        commitTransaction session ;;;
        ret result)
       (fun error => abortTransaction session ;;; throw error))
    (endSession session).

(** The listings sort by [createdAt], newest first.  Timestamps are not part
    of the stored fields here, so the creation time of each order is a
    parameter of the listings. *)
Section listings.
Variable createdAt : ObjectId -> Z.

(** [.sort({ createdAt: -1 })] *)
Definition newest_first (a b : Doc IOrder.t) : Prop :=
  createdAt b.1 <= createdAt a.1.

Global Instance newest_first_dec a b : Decision (newest_first a b).
Proof. unfold newest_first. apply _. Defined.

Definition by_status (status : option OrderStatus) (o : IOrder.t) : bool :=
  match status with
  | Some s => bool_decide (IOrder.status o = s)
  | None => true
  end.

(** The listings return the stored fields of the orders of the page;
    [populate] decorates them and selects none. *)
Definition findByUserId (lib : Library) (userId : string)
    (options : option OrderFilters.t) : M (Paginated.t (Doc IOrder.t)) :=
  owner <- ObjectId_of lib userId ;;
  fun w =>
    let query := fun o : IOrder.t =>
      bool_decide (IOrder.userId o = owner)
      && by_status (options ≫= OrderFilters.status) o in
    let page := or_default (options ≫= OrderFilters.page) 1 in
    let limit := or_default (options ≫= OrderFilters.limit) 20 in
    let skip := ((page - 1) * limit)%nat in
    let matching :=
      map_to_list (filter (fun kv : ObjectId * IOrder.t => query kv.2)
                          (orders (db w))) in
    (Ok (Paginated.mk (take limit (drop skip (merge_sort newest_first matching)))
                      (length matching) page
                      (ceil_div (length matching) limit)), w).

(** [if (options?.userId) query.userId = new ObjectId(options.userId)]:
    the empty string is as good as none. *)
Definition owner_of (lib : Library) (userId : option string)
    : M (option ObjectId) :=
  match userId with
  | None | Some EmptyString => ret None
  | Some userId => owner <- ObjectId_of lib userId ;; ret (Some owner)
  end.

Definition findAll (lib : Library) (options : option OrderOptions.t)
    : M (Paginated.t (Doc IOrder.t)) :=
  owner <- owner_of lib (options ≫= OrderOptions.userId) ;;
  fun w =>
    let query := fun o : IOrder.t =>
      by_status (options ≫= OrderOptions.status) o
      && match owner with
         | Some u => bool_decide (IOrder.userId o = u)
         | None => true
         end in
    let page := or_default (options ≫= OrderOptions.page) 1 in
    let limit := or_default (options ≫= OrderOptions.limit) 20 in
    let skip := ((page - 1) * limit)%nat in
    let matching :=
      map_to_list (filter (fun kv : ObjectId * IOrder.t => query kv.2)
                          (orders (db w))) in
    (Ok (Paginated.mk (take limit (drop skip (merge_sort newest_first matching)))
                      (length matching) page
                      (ceil_div (length matching) limit)), w).

End listings.

End orderRepository.

(** ** [services/order.service.ts] *)

(** [new Map(entries)]: a later entry replaces an earlier one with the same
    key. *)
Definition new_Map {V} (entries : list (string * V)) : gmap string V :=
  foldl (fun m kv => <[kv.1 := kv.2]> m) ∅ entries.

(** The character that opens and closes a quoted name in a message. *)
Definition dq : string := String "034"%char EmptyString.

(** An optional boolean argument used as a condition. *)
Definition truthy (b : option bool) : bool := default false b.

(** [productService.updateProductStock], as the order service calls it.  The
    module imports the [productService] object and the unit tests put a
    mock in its place; the functions that write stock take the method as a
    parameter, and the module binds it to the product service's own. *)
Definition UpdateProductStock : Type :=
  string -> Z -> option ClientSession -> M (option (Doc IProduct.t)).

Module orderService.

Definition insufficient_stock (product : IProduct.t) (item : Item.t) : string :=
  "Insufficient stock for product " +:+ dq +:+ IProduct.name product +:+ dq
  +:+ ". Available: " +:+ pretty (IProduct.stock product)
  +:+ ", Requested: " +:+ pretty (Item.quantity item).

(** The callback [createOrder] hands to [withTransaction]. *)
Definition createOrder_work (lib : Library)
    (updateProductStock : UpdateProductStock) (userId : string)
    (items : list Item.t) (orderItems : list CreateOrderItemDto.t)
    (session : ClientSession) : M OrderResult.t :=
  order <- orderRepository.create lib (CreateOrderDto.mk userId orderItems)
                                  (Some session) ;;
  for_of items (fun item =>
    updateProductStock (Item.productId item) (- Item.quantity item)
                       (Some session) ;;;
    ret tt) ;;;
  ret (OrderResult.mk (Some (Saved order)) "Order created successfully").

(** [createOrder], for the [updateProductStock] it is given.  [productMap]
    is keyed by [p.id.toString()] and read with the string of the
    request. *)
Definition createOrder_with (lib : Library)
    (updateProductStock : UpdateProductStock) (userId : string)
    (items : list Item.t) : M OrderResult.t :=
  if bool_decide (items = []) then
    throw (new_ValidationError "Order must contain at least one item")
  else
  for_of items (fun item =>
    if bool_decide (Item.quantity item <= 0)
    then throw (new_ValidationError "Quantity must be greater than 0")
    else ret tt) ;;;
  let productIds := map Item.productId items in
  products <- productService.getProductsByIds lib productIds ;;
  if bool_decide (length products ≠ length productIds) then
    let foundIds := map (fun p : Doc IProduct.t => toString p.1) products in
    let missingIds := filter (fun id => id ∉ foundIds) productIds in
    throw (new_ValidationError
             ("Products not found: " +:+ String.concat ", " missingIds))
  else
  let productMap :=
    new_Map (map (fun p : Doc IProduct.t => (toString p.1, p.2)) products) in
  for_of items (fun item =>
    match productMap !! Item.productId item with
    | None => throw (new_TypeError lib "stock")
    | Some product =>
        if bool_decide (IProduct.stock product < Item.quantity item)
        then throw (new_ValidationError (insufficient_stock product item))
        else ret tt
    end) ;;;
  orderItems <- map_of items (fun item =>
    match productMap !! Item.productId item with
    | None => throw (new_TypeError lib "price")
    | Some product =>
        ret (CreateOrderItemDto.mk (Item.productId item) (Item.quantity item)
                                   (IProduct.price product))
    end) ;;
  orderRepository.withTransaction
    (createOrder_work lib updateProductStock userId items orderItems).

(** [createOrder] of the module, whose [productService] is the product
    service. *)
Definition createOrder (lib : Library) (userId : string)
    (items : list Item.t) : M OrderResult.t :=
  createOrder_with lib (productService.updateProductStock lib) userId items.

(** [!isAdmin && order.userId.toString() !== userId], for an order that
    [findById] has populated: [order.userId] is the user document of the
    owner, and its [toString()] the text of that document. *)
Definition access_denied (lib : Library) (order : Populated.t)
    (userId : option string) (isAdmin : option bool) : bool :=
  negb (truthy isAdmin)
  && bool_decide (Some (Document_toString
                          (inspect_user lib (Populated.userId order)))
                  ≠ userId).

Definition payOrder (lib : Library) (orderId : string)
    (userId : option string) (isAdmin : option bool) : M OrderResult.t :=
  order <- orderRepository.findById lib orderId ;;
  match order with
  | None => throw (new_ApiError "Order not found" 404)
  | Some order =>
      if access_denied lib order userId isAdmin then
        throw (new_ApiError "Access denied" 403)
      else if bool_decide (Populated.status order = paid) then
        ret (OrderResult.mk (Some (Found order)) "Order is already paid")
      else if bool_decide (Populated.status order = cancelled) then
        throw (new_ConflictError "Cannot pay for a cancelled order")
      else if bool_decide (Populated.status order ≠ created) then
        throw (new_ApiError ("Cannot pay order with status: "
                             +:+ status_text (Populated.status order)) 400)
      else
        updatedOrder <- orderRepository.updateStatus lib orderId paid None ;;
        ret (OrderResult.mk (Found <$> updatedOrder) "Payment successful")
  end.

(** The callback [cancelOrder] hands to [withTransaction].  [order] is the
    populated document: [item.productId] is the product document of the
    line, or [null], and [item.productId.toString()] the text of that
    document. *)
Definition cancelOrder_work (lib : Library) (orderId : string)
    (order : Populated.t) (session : ClientSession) : M OrderResult.t :=
  updatedOrder <- orderRepository.updateStatus lib orderId cancelled
                                               (Some session) ;;
  for_of (Populated.items order) (fun item =>
    match item.2 with
    | None => throw (new_TypeError lib "toString")
    | Some product =>
        productService.updateProductStock lib
          (Document_toString
             (inspect_product lib (IOrderItem.productId item.1, product)))
          (IOrderItem.quantity item.1) (Some session) ;;;
        ret tt
    end) ;;;
  ret (OrderResult.mk (Found <$> updatedOrder) "Order cancelled successfully").

Definition cancelOrder (lib : Library) (orderId : string)
    (userId : option string) (isAdmin : option bool) : M OrderResult.t :=
  order <- orderRepository.findById lib orderId ;;
  match order with
  | None => throw (new_ApiError "Order not found" 404)
  | Some order =>
      if access_denied lib order userId isAdmin then
        throw (new_ApiError "Access denied" 403)
      else if bool_decide (Populated.status order = cancelled) then
        ret (OrderResult.mk (Some (Found order)) "Order is already cancelled")
      else if bool_decide (Populated.status order ≠ created)
              && bool_decide (Populated.status order ≠ paid) then
        throw (new_ApiError ("Cannot cancel order with status: "
                             +:+ status_text (Populated.status order)) 400)
      else
        orderRepository.withTransaction (cancelOrder_work lib orderId order)
  end.

Definition getOrderById (lib : Library) (orderId : string)
    (userId : option string) (isAdmin : option bool)
    : M (option Populated.t) :=
  order <- orderRepository.findById lib orderId ;;
  match order with
  | None => ret None
  | Some order =>
      if access_denied lib order userId isAdmin then
        throw (new_ApiError "Access denied" 403)
      else ret (Some order)
  end.

(** [getUserOrders]: an administrator lists the orders of everyone, with the
    filters as the options of [findAll]; anyone else lists their own. *)
Definition getUserOrders (createdAt : ObjectId -> Z) (lib : Library)
    (userId : string) (filters : option OrderFilters.t)
    (isAdmin : option bool) : M (Paginated.t (Doc IOrder.t)) :=
  if truthy isAdmin then
    orderRepository.findAll createdAt lib
      ((fun f => OrderOptions.mk (OrderFilters.page f) (OrderFilters.limit f)
                                 (OrderFilters.status f) None) <$> filters)
  else orderRepository.findByUserId createdAt lib userId filters.

End orderService.
(** ** The error handler and the gates of the routes:
    [middleware/error.middleware.ts], [middleware/auth.middleware.ts],
    [routes/product.routes.ts] *)

(** [new UnauthorizedError(message)]: [super(message, 401)] *)
Definition new_UnauthorizedError (msg : string) : Error :=
  mkError UnauthorizedError msg (Some 401).

(** The body of the response of the error handler:
    [{ success: false, error: { message, stack? } }]. *)
Inductive Body : Type :=
  | Failed (message : string) (stack : option string).

Module Response.
Record t : Type := mk {
  status : Z;
  body : Body
}.
End Response.

(** [x || d] for an optional string: [undefined] and the empty string give
    the default. *)
Definition nonempty_or (x : option string) (d : option string) : option string :=
  match x with
  | Some EmptyString | None => d
  | Some s => Some s
  end.

(** [errorHandler(err, req, res, next)], as the response it sends.  [stack]
    is [err.stack] and [nodeEnv] is [process.env.NODE_ENV]. *)
Definition errorHandler (nodeEnv : option string) (err : Error)
    (stack : option string) : Response.t :=
  let statusCode :=
    match statusCode err with
    | Some 0 | None => 500
    | Some c => c
    end in
  let message :=
    if bool_decide (message err = EmptyString) then "Internal Server Error"
    else message err in
  let responseMessage :=
    if (500 <=? statusCode)%Z && bool_decide (nodeEnv = Some "production")
    then "Internal Server Error" else message in
  let responseStack :=
    if (500 <=? statusCode)%Z && bool_decide (nodeEnv ≠ Some "production")
    then stack else None in
  Response.mk statusCode (Failed responseMessage (nonempty_or responseStack None)).

(** [req.user] *)
Inductive Role : Type := admin | customer.

Global Instance Role_eq_dec : EqDecision Role.
Proof. solve_decision. Defined.

Definition role_text (r : Role) : string :=
  match r with
  | admin => "admin"
  | customer => "customer"
  end.

Module User.
Record t : Type := mk {
  id : ObjectId;
  email : string;
  role : Role
}.
End User.

(** What a middleware of [auth.middleware.ts] does with a request: it calls
    [next()], with [req.user] as it then is, or hands an error on. *)
Inductive Gate : Type :=
  | Through (user : option User.t)
  | Refused (e : Error).

(** [s.split(sep)] for a separator of one character. *)
Fixpoint js_split (sep : ascii) (s : string) : list string :=
  match s with
  | EmptyString => [EmptyString]
  | String c s' =>
      if bool_decide (c = sep) then EmptyString :: js_split sep s'
      else match js_split sep s' with
           | part :: parts => String c part :: parts
           | [] => [String c EmptyString]
           end
  end.

(** What [jwt.verify] does with a token: it returns the decoded user or
    throws a [TokenExpiredError], another [JsonWebTokenError], or something
    else. *)
Inductive Verified : Type :=
  | Decoded (user : User.t)
  | TokenExpiredError
  | JsonWebTokenError
  | OtherFailure.

Module authMiddleware.

(** [authenticate], for the [Authorization] header of the request;
    [verify token] is [jwt.verify(token, config.jwtSecret)]. *)
Definition authenticate (verify : string -> Verified)
    (authHeader : option string) : Gate :=
  match nonempty_or authHeader None with
  | None => Refused (new_UnauthorizedError "No authorization header provided")
  | Some authHeader =>
      let parts := js_split " " authHeader in
      if bool_decide (length parts ≠ 2%nat)
         || bool_decide (parts !! 0%nat ≠ Some "Bearer")
      then Refused (new_UnauthorizedError "Invalid authorization header format")
      else
        match parts !! 1%nat with
        | None => Refused (new_UnauthorizedError "Invalid token")
        | Some token =>
            match verify token with
            | Decoded user => Through (Some user)
            | TokenExpiredError =>
                Refused (new_UnauthorizedError "Token has expired")
            | JsonWebTokenError => Refused (new_UnauthorizedError "Invalid token")
            | OtherFailure => Refused (new_UnauthorizedError "Authentication failed")
            end
        end
  end.

(** [authorize(...roles)], for [req.user]. *)
Definition authorize (roles : list Role) (user : option User.t) : Gate :=
  match user with
  | None => Refused (new_UnauthorizedError "User not authenticated")
  | Some u =>
      if bool_decide (User.role u ∉ roles) then
        Refused (new_ApiError ("Role '" +:+ role_text (User.role u)
                            +:+ "' is not authorized to access this resource")
                           403)
      else Through user
  end.

End authMiddleware.

(** [routes/product.routes.ts]: the routes that change the catalogue run
    [authenticate] and then [authorize('admin')] before their controller. *)
Module productRoutes.

Definition admin_only (verify : string -> Verified)
    (authHeader : option string) : Gate :=
  match authMiddleware.authenticate verify authHeader with
  | Through user => authMiddleware.authorize [admin] user
  | Refused e => Refused e
  end.

End productRoutes.

(** ** Scenarios *)

Definition userA : ObjectId := 0x64b000000000000000000001%N.
Definition userB : ObjectId := 0x64b000000000000000000002%N.
Definition itemA : ObjectId := 0x64c00000000000000000000a%N.
Definition itemB : ObjectId := 0x64c00000000000000000000b%N.
Definition itemZ : ObjectId := 0x64c0000000000000000000ff%N.

(** The request strings of the scenarios: identities in the canonical
    spelling, one in upper case, and a string that is no ObjectId. *)
Definition userA_id : string := "64b000000000000000000001".
Definition userB_id : string := "64b000000000000000000002".
Definition itemA_id : string := "64c00000000000000000000a".
Definition itemB_id : string := "64c00000000000000000000b".
Definition itemZ_id : string := "64c0000000000000000000ff".
Definition itemA_upper : string := "64C00000000000000000000A".
Definition not_an_id : string := "not-an-id".

(** One way for the libraries to print. *)
Definition lib0 : Library :=
  mkLibrary
    (fun id => " _id: new ObjectId('" +:+ toString id +:+ "') }")
    (fun p => " _id: new ObjectId('" +:+ toString p.1 +:+ "'), name: '"
              +:+ IProduct.name p.2 +:+ "' }")
    (fun f => match f with
              | NotObjectId _ => "input must be a 24 character hex string"
              | CastFailed model _ => "Cast to ObjectId failed for model " +:+ model
              | InvalidOrder _ => "Order validation failed"
              | NoSuchProperty property =>
                  "Cannot read properties of undefined (reading '"
                  +:+ property +:+ "')"
              end).

Definition catalog : gmap ObjectId IProduct.t :=
  <[itemA := IProduct.mk "A" 500 10]>
    (<[itemB := IProduct.mk "B" 1000 2]> ∅).

Definition world0 : World := mkWorld (mkDb catalog ∅) None.

Definition stock_of (w : World) (id : ObjectId) : option Z :=
  IProduct.stock <$> products (db w) !! id.

Definition status_of (w : World) (id : ObjectId) : option OrderStatus :=
  IOrder.status <$> orders (db w) !! id.

(** ** Quantities used to state the properties *)


(** A line whose string is an ObjectId. *)
Definition castable (item : Item.t) : Prop :=
  is_Some (new_ObjectId (Item.productId item)).

(** The lines of a request, for the strings that are ObjectIds, and of a
    stored order, as (identity, quantity). *)
Definition request_lines (items : list Item.t) : list (ObjectId * Z) :=
  omap (fun item => (fun id => (id, Item.quantity item))
                      <$> new_ObjectId (Item.productId item)) items.

Definition order_lines (items : list IOrderItem.t) : list (ObjectId * Z) :=
  map (fun item => (IOrderItem.productId item, IOrderItem.quantity item)) items.

(** The total quantity the lines name for one identity. *)
Fixpoint quantity_for (id : ObjectId) (lines : list (ObjectId * Z)) : Z :=
  match lines with
  | [] => 0
  | (id', q) :: lines' =>
      (if bool_decide (id' = id) then q else 0) + quantity_for id lines'
  end.

(** The sum over the lines of quantity times unit price. *)
Fixpoint sum_lines (items : list IOrderItem.t) : Z :=
  match items with
  | [] => 0
  | item :: items' =>
      IOrderItem.quantity item * IOrderItem.unitPrice item + sum_lines items'
  end.

Definition add_stock (q : Z) (p : IProduct.t) : IProduct.t :=
  IProduct.mk (IProduct.name p) (IProduct.price p) (IProduct.stock p + q).

Definition set_status (s : OrderStatus) (o : IOrder.t) : IOrder.t :=
  IOrder.mk (IOrder.userId o) (IOrder.items o) (IOrder.total o) s.

(** The request's line with the catalogue price of its product. *)
Definition snapshot (catalogue : gmap ObjectId IProduct.t) (item : Item.t)
    (line : IOrderItem.t) : Prop :=
  new_ObjectId (Item.productId item) = Some (IOrderItem.productId line)
  /\ IOrderItem.quantity line = Item.quantity item
  /\ IProduct.price <$> catalogue !! IOrderItem.productId line
     = Some (IOrderItem.unitPrice line).

(** The causes for which [createOrder] is to reject a request: no line, a
    line with a non-positive quantity, a line naming an unknown product, or a
    line asking for more than the stock. *)
Definition rejected (catalogue : gmap ObjectId IProduct.t)
    (items : list Item.t) : Prop :=
  items = []
  \/ Exists (fun item => Item.quantity item <= 0) items
  \/ Exists (fun item => exists id, new_ObjectId (Item.productId item) = Some id
                                    /\ catalogue !! id = None) items
  \/ Exists (fun item => exists id p,
                           new_ObjectId (Item.productId item) = Some id
                           /\ catalogue !! id = Some p
                           /\ IProduct.stock p < Item.quantity item)
            items.

(** The first exception of a sequence of checks. *)
Fixpoint first_throw {A} (check : A -> Outcome unit) (l : list A) : Outcome unit :=
  match l with
  | [] => Ok tt
  | x :: l' => match check x with
               | Ok _ => first_throw check l'
               | Throw e => Throw e
               end
  end.

(** The checks of [createOrder] that come before its transaction, line by
    line: the quantity, the identity, and the stock of the product that
    [productMap] holds under the string of the line. *)
Definition check_quantity (item : Item.t) : Outcome unit :=
  if bool_decide (Item.quantity item <= 0)
  then Throw (new_ValidationError "Quantity must be greater than 0")
  else Ok tt.

Definition check_identity (lib : Library) (item : Item.t) : Outcome unit :=
  match new_ObjectId (Item.productId item) with
  | Some _ => Ok tt
  | None => Throw (new_BSONError lib (Item.productId item))
  end.

Definition check_stock (lib : Library) (catalogue : gmap ObjectId IProduct.t)
    (item : Item.t) : Outcome unit :=
  match new_ObjectId (Item.productId item) with
  | Some id =>
      if bool_decide (toString id = Item.productId item) then
        match catalogue !! id with
        | Some product =>
            if bool_decide (IProduct.stock product < Item.quantity item)
            then Throw (new_ValidationError
                          (orderService.insufficient_stock product item))
            else Ok tt
        | None => Throw (new_TypeError lib "stock")
        end
      else Throw (new_TypeError lib "stock")
  | None => Throw (new_TypeError lib "stock")
  end.

(** The products [getProductsByIds] finds for the lines of a request. *)
Definition found_products (catalogue : gmap ObjectId IProduct.t)
    (items : list Item.t) : list (Doc IProduct.t) :=
  map_to_list
    (filter (fun kv : ObjectId * IProduct.t =>
               kv.1 ∈ (request_lines items).*1) catalogue).

(** The outcome of the checks of [createOrder], in the order in which it
    runs them. *)
Definition precheck (lib : Library) (catalogue : gmap ObjectId IProduct.t)
    (items : list Item.t) : Outcome unit :=
  if bool_decide (items = []) then
    Throw (new_ValidationError "Order must contain at least one item")
  else
    match first_throw check_quantity items with
    | Throw e => Throw e
    | Ok _ =>
        match first_throw (check_identity lib) items with
        | Throw e => Throw e
        | Ok _ =>
            let products := found_products catalogue items in
            let productIds := map Item.productId items in
            if bool_decide (length products ≠ length productIds) then
              let foundIds :=
                map (fun p : Doc IProduct.t => toString p.1) products in
              let missingIds := filter (fun id => id ∉ foundIds) productIds in
              Throw (new_ValidationError
                       ("Products not found: "
                        +:+ String.concat ", " missingIds))
            else first_throw (check_stock lib catalogue) items
        end
    end.

(** The store invariants of the product schema that the properties rely
    on. *)
Definition stock_nonneg (d : Db) : Prop :=
  map_Forall (fun _ p => 0 <= IProduct.stock p) (products d).


(** What lets a request through the checks of [createOrder]: at least one
    line, positive quantities, pairwise distinct identities, each in the
    canonical spelling and naming a product, and enough stock for every
    line. *)
Definition accepted (catalogue : gmap ObjectId IProduct.t)
    (items : list Item.t) : Prop :=
  items <> []
  /\ Forall (fun item => 0 < Item.quantity item) items
  /\ NoDup (map Item.productId items)
  /\ Forall (fun item => exists id p,
                           new_ObjectId (Item.productId item) = Some id
                           /\ toString id = Item.productId item
                           /\ catalogue !! id = Some p
                           /\ Item.quantity item <= IProduct.stock p)
            items.

(** The price the catalogue has for the product a string names. *)
Definition price_of (catalogue : gmap ObjectId IProduct.t) (productId : string)
    : Z :=
  from_option IProduct.price 0 (new_ObjectId productId ≫= (catalogue !!.)).

(** The lines [createOrder] hands to the repository for an accepted request,
    and the lines of the order the repository stores for them. *)
Definition priced (catalogue : gmap ObjectId IProduct.t)
    (items : list Item.t) : list CreateOrderItemDto.t :=
  map (fun item =>
         CreateOrderItemDto.mk (Item.productId item) (Item.quantity item)
                               (price_of catalogue (Item.productId item)))
      items.

Definition stored_lines (catalogue : gmap ObjectId IProduct.t)
    (items : list Item.t) : list IOrderItem.t :=
  omap (fun item =>
          (fun id => IOrderItem.mk id (Item.quantity item)
                                   (price_of catalogue (Item.productId item)))
            <$> new_ObjectId (Item.productId item))
       items.

(** The order [createOrder] stores for an accepted request of the owner
    [userId]. *)
Definition order_of (catalogue : gmap ObjectId IProduct.t) (userId : ObjectId)
    (items : list Item.t) : IOrder.t :=
  IOrder.mk userId (stored_lines catalogue items)
            (sum_lines (stored_lines catalogue items)) created.

(** The document [new Order({...})] builds in [create]: the owner is cast
    first and then the product of each line, in order; the first string that
    is not an ObjectId throws. *)
Fixpoint cast_lines (lib : Library) (items : list CreateOrderItemDto.t)
    : Outcome (list IOrderItem.t) :=
  match items with
  | [] => Ok []
  | item :: items' =>
      match new_ObjectId (CreateOrderItemDto.productId item) with
      | None => Throw (new_BSONError lib (CreateOrderItemDto.productId item))
      | Some productId =>
          match cast_lines lib items' with
          | Ok lines =>
              Ok (IOrderItem.mk productId (CreateOrderItemDto.quantity item)
                                (CreateOrderItemDto.unitPrice item) :: lines)
          | Throw e => Throw e
          end
      end
  end.

Definition new_Order (lib : Library) (data : CreateOrderDto.t)
    : Outcome IOrder.t :=
  match new_ObjectId (CreateOrderDto.userId data) with
  | None => Throw (new_BSONError lib (CreateOrderDto.userId data))
  | Some userId =>
      match cast_lines lib (CreateOrderDto.items data) with
      | Ok lines =>
          Ok (IOrder.mk userId lines
                        (orderRepository.order_total (CreateOrderDto.items data))
                        created)
      | Throw e => Throw e
      end
  end.

(** A request to the order lifecycle, and a sequence of them run one after
    the other. *)
Inductive Request : Type :=
  | Create (userId : string) (items : list Item.t)
  | Pay (orderId : string) (userId : option string) (isAdmin : option bool)
  | Cancel (orderId : string) (userId : option string) (isAdmin : option bool).

Definition serve (lib : Library) (r : Request) : M OrderResult.t :=
  match r with
  | Create userId items => orderService.createOrder lib userId items
  | Pay orderId userId isAdmin =>
      orderService.payOrder lib orderId userId isAdmin
  | Cancel orderId userId isAdmin =>
      orderService.cancelOrder lib orderId userId isAdmin
  end.

Definition serve_all (lib : Library) (rs : list Request) (w : World) : World :=
  foldl (fun w r => (serve lib r w).2) w rs.

(** The stock after a list of [$inc] updates. *)
Definition adjust_stock (changes : list (ObjectId * Z))
    (m : gmap ObjectId IProduct.t) : gmap ObjectId IProduct.t :=
  foldl (fun m c => alter (add_stock c.2) c.1 m) m changes.

(** The [$inc] updates of [createOrder]: each line's quantity, taken off. *)
Definition taken (items : list Item.t) : list (ObjectId * Z) :=
  map (fun line : ObjectId * Z => (line.1, - line.2)) (request_lines items).

(** What a successful [createOrder] leaves behind: one new order, in status
    [created], owned by the caller, whose lines are the request's lines with
    the catalogue prices, whose total is the sum over those lines; every
    product's stock lowered by the quantity requested for it; and no
    transaction left open. *)
Definition create_post (userId : string) (items : list Item.t)
    (w : World) (r : OrderResult.t) (w' : World) : Prop :=
  exists (id : ObjectId) (order : IOrder.t),
    r = OrderResult.mk (Some (Saved (id, order))) "Order created successfully"
    /\ orders (db w) !! id = None
    /\ orders (db w') = <[id := order]> (orders (db w))
    /\ new_ObjectId userId = Some (IOrder.userId order)
    /\ IOrder.status order = created
    /\ Forall2 (snapshot (products (db w))) items (IOrder.items order)
    /\ IOrder.total order = sum_lines (IOrder.items order)
    /\ (forall p, products (db w') !! p
                  = add_stock (- quantity_for p (request_lines items))
                    <$> products (db w) !! p)
    /\ txn w' = None.

(** What the first stock update of [cancelOrder] throws, for the first line
    of the order: the [TypeError] of [null.toString()] when the catalogue has
    no product for the line, and otherwise the [CastError] of the query that
    is given the text of the product document for an identity. *)
Definition cancel_failure (lib : Library) (d : Db) (item : IOrderItem.t)
    : Error :=
  match products d !! IOrderItem.productId item with
  | None => new_TypeError lib "toString"
  | Some product =>
      new_CastError lib "Product"
        (Document_toString
           (inspect_product lib (IOrderItem.productId item, product)))
  end.

(** A step writes within the scope of the transaction when, run with the
    transaction open, it leaves the committed data alone and the transaction
    open; a callback writes within its scope when, run with its transaction
    open, it leaves the committed data alone. *)
Definition keeps_scope {A} (step : M A) : Prop :=
  forall d0 d1 d, exists d',
    (step (mkWorld d0 (Some (mkTransaction d1 d)))).2
    = mkWorld d0 (Some (mkTransaction d1 d')).

Definition scoped {T} (work : ClientSession -> M T) : Prop :=
  forall d0 d1 d,
    db (work Session (mkWorld d0 (Some (mkTransaction d1 d)))).2 = d0.

(** An [updateProductStock] that may do anything to the view of the
    transaction it is called in, and may fail, but touches nothing else. *)
Definition stock_in_scope (updateProductStock : UpdateProductStock) : Prop :=
  forall productId quantityChange,
    keeps_scope (updateProductStock productId quantityChange (Some Session)).

(** A world with one order of [userA] for three of [itemA], in the given
    status. *)
Definition order1 : ObjectId := 0x64d000000000000000000001%N.
Definition order1_id : string := "64d000000000000000000001".
Definition order1_upper : string := "64D000000000000000000001".

(** The identity the first order stored in [world0] gets. *)
Definition order0 : ObjectId := 0%N.
Definition order0_id : string := "000000000000000000000000".

Definition world_with (s : OrderStatus) : World :=
  mkWorld (mkDb catalog
                (<[order1 := IOrder.mk userA [IOrderItem.mk itemA 3 500] 1500 s]> ∅))
          None.

(** Calling [payOrder] again and again, keeping the world of each call. *)
Definition retry_pay (lib : Library) (orderId : string)
    (userId : option string) (isAdmin : option bool) (n : nat) (w : World)
    : World :=
  Nat.iter n (fun w => (orderService.payOrder lib orderId userId isAdmin w).2) w.

(** A callback that writes an order, takes three of [itemA] from the stock
    and then fails. *)
Definition out_of_order : Error := new_ApiError "Out of order" 500.

Definition failing_work (session : ClientSession) : M OrderResult.t :=
  order <- orderRepository.create lib0
             (CreateOrderDto.mk userA_id [CreateOrderItemDto.mk itemA_id 3 500])
             (Some session) ;;
  productService.updateProductStock lib0 itemA_id (-3) (Some session) ;;;
  throw out_of_order.

(** A product service whose stock update fails for [itemB], after the
    update of any other product has gone through. *)
Definition failing_for_itemB : UpdateProductStock :=
  fun productId quantityChange session =>
    if bool_decide (productId = itemB_id) then throw out_of_order
    else productService.updateProductStock lib0 productId quantityChange
                                           session.

(** ** Quantities of the lifecycle as a whole *)

(** The place of a status in the lifecycle. *)
Definition status_rank (s : OrderStatus) : nat :=
  match s with
  | created => 0
  | paid => 1
  | cancelled => 2
  end.

(** The quantity of a product that an order holds: that of its lines, until
    the order is cancelled. *)
Definition held (p : ObjectId) (o : IOrder.t) : Z :=
  if bool_decide (IOrder.status o = cancelled) then 0
  else quantity_for p (order_lines (IOrder.items o)).

(** The quantity of a product held by all the stored orders together. *)
Definition reserved (p : ObjectId) (d : Db) : Z :=
  map_fold (fun _ o acc => acc + held p o) 0 (orders d).

(** What the catalogue says of a product apart from its stock. *)
Definition listing (p : IProduct.t) : string * Z :=
  (IProduct.name p, IProduct.price p).

(** ** Reading listings *)

(** The documents on the page of a listing. *)
Definition listed {A} (out : Outcome (Paginated.t A) * World) : list A :=
  match out.1 with
  | Ok r => Paginated.docs r
  | Throw _ => []
  end.

(** The same product filters, with [inStock] as given and no paging. *)
Definition product_stock_filter (inStock : option bool)
    (options : option ProductFilters.t) : option ProductFilters.t :=
  Some (ProductFilters.mk None None
                          (options ≫= ProductFilters.minPrice)
                          (options ≫= ProductFilters.maxPrice)
                          inStock).

(** A verifier that knows two tokens, one of an administrator and one of a
    customer, and a listing of the catalogue one product to the page. *)
Definition root : User.t := User.mk userA "root@example.com" admin.
Definition buyer : User.t := User.mk userB "buyer@example.com" customer.

Definition verify0 (token : string) : Verified :=
  if bool_decide (token = "root-token") then Decoded root
  else if bool_decide (token = "buyer-token") then Decoded buyer
  else if bool_decide (token = "old-token") then TokenExpiredError
  else JsonWebTokenError.

(** Whether a character occurs in a string. *)
Fixpoint contains (c : ascii) (s : string) : bool :=
  match s with
  | EmptyString => false
  | String c' s' => bool_decide (c' = c) || contains c s'
  end.

(** * Properties *)

(** ** The monad *)

Lemma bind_ok {A B} (m : M A) (k : A -> M B) w a w' :
  m w = (Ok a, w') -> bind m k w = k a w'.
Proof. unfold bind. intros ->. reflexivity. Qed.

Lemma bind_throw {A B} (m : M A) (k : A -> M B) w e w' :
  m w = (Throw e, w') -> bind m k w = (Throw e, w').
Proof. unfold bind. intros ->. reflexivity. Qed.

Lemma for_of_checks {A} (f : A -> M unit) (check : A -> Outcome unit) l w :
  (forall x, x ∈ l -> f x w = (check x, w)) ->
  for_of l f w = (first_throw check l, w).
Proof.
  induction l as [|x l IH]; intros Hf; simpl; [reflexivity|].
  unfold bind. rewrite Hf by left.
  destruct (check x) as [[]|e]; [|reflexivity].
  apply IH. intros y Hy. apply Hf. by right.
Qed.

Lemma map_of_pure {A B} (f : A -> M B) (g : A -> B) l w :
  (forall x, x ∈ l -> f x w = (Ok (g x), w)) ->
  map_of l f w = (Ok (map g l), w).
Proof.
  induction l as [|x l IH]; intros Hf; simpl; [reflexivity|].
  unfold bind. rewrite Hf by left. rewrite IH; [reflexivity|].
  intros y Hy. apply Hf. by right.
Qed.

Lemma first_throw_ok {A} (check : A -> Outcome unit) l :
  first_throw check l = Ok tt <-> Forall (fun x => check x = Ok tt) l.
Proof.
  induction l as [|x l IH]; simpl.
  - split; [constructor|reflexivity].
  - destruct (check x) as [[]|e] eqn:E.
    + rewrite IH. split; [by constructor|by inversion 1].
    + split; [discriminate|]. inversion 1; congruence.
Qed.


(** A step that keeps to the scope of the transaction, repeated. *)
Lemma for_of_keeps_scope {A} (l : list A) (f : A -> M unit) :
  (forall x, keeps_scope (f x)) -> keeps_scope (for_of l f).
Proof.
  intros Hf. induction l as [|x l IH]; intros d0 d1 d; simpl.
  - by exists d.
  - unfold bind. destruct (Hf x d0 d1 d) as [d2 H2].
    destruct (f x (mkWorld d0 (Some (mkTransaction d1 d)))) as [[[]|e] w1];
      simpl in H2; subst w1.
    + apply IH.
    + by exists d2.
Qed.

(** ** Identities *)

Lemma hex_value_digit d : (d < 16)%N -> hex_value (hex_digit d) = Some d.
Proof.
  intros Hd. unfold hex_value, hex_digit.
  destruct (N.ltb_spec d 10).
  - rewrite N_ascii_embedding by lia.
    replace ((48 <=? 48 + d)%N) with true by (symmetry; apply N.leb_le; lia).
    replace ((48 + d <=? 57)%N) with true by (symmetry; apply N.leb_le; lia).
    simpl. f_equal. lia.
  - rewrite N_ascii_embedding by lia.
    replace ((87 + d <=? 57)%N) with false by (symmetry; apply N.leb_gt; lia).
    rewrite andb_false_r.
    replace ((97 <=? 87 + d)%N) with true by (symmetry; apply N.leb_le; lia).
    replace ((87 + d <=? 102)%N) with true by (symmetry; apply N.leb_le; lia).
    simpl. f_equal. lia.
Qed.

Lemma hex_value_lt c d : hex_value c = Some d -> (d < 16)%N.
Proof.
  unfold hex_value.
  repeat match goal with
         | |- context [(?a <=? ?b)%N] => destruct (N.leb_spec a b)
         end; simpl; intros; simplify_eq; lia.
Qed.

Lemma length_to_hex k n : String.length (to_hex k n) = k.
Proof. induction k as [|k IH]; simpl; [reflexivity | by rewrite IH]. Qed.

Lemma parse_to_hex k n acc :
  parse_hex acc (to_hex k n)
  = Some (acc * 16 ^ N.of_nat k + n mod 16 ^ N.of_nat k)%N.
Proof.
  revert acc. induction k as [|k IH]; intros acc.
  - simpl. f_equal. rewrite N.mod_1_r. lia.
  - cbn [to_hex parse_hex].
    rewrite hex_value_digit by (apply N.mod_lt; lia).
    rewrite IH. f_equal.
    rewrite Nat2N.inj_succ, N.pow_succ_r'.
    rewrite (N.mul_comm 16 (16 ^ N.of_nat k)).
    rewrite (N.Div0.mod_mul_r n (16 ^ N.of_nat k) 16). lia.
Qed.

Lemma parse_hex_lt s acc n :
  parse_hex acc s = Some n ->
  (n < (acc + 1) * 16 ^ N.of_nat (String.length s))%N.
Proof.
  revert acc. induction s as [|c s IH]; intros acc; simpl String.length.
  - simpl. intros [= <-]. lia.
  - cbn [parse_hex]. destruct (hex_value c) as [d|] eqn:Hc; [|done].
    intros H. apply IH in H. apply hex_value_lt in Hc.
    rewrite Nat2N.inj_succ, N.pow_succ_r'. nia.
Qed.

(** An identity read from a string is one of twelve bytes. *)
Lemma new_ObjectId_lt s id : new_ObjectId s = Some id -> (id < 16 ^ 24)%N.
Proof.
  unfold new_ObjectId. case_bool_decide as Hl; [|done].
  intros H. apply parse_hex_lt in H. rewrite Hl in H. lia.
Qed.

Lemma new_ObjectId_toString_lt id :
  (id < 16 ^ 24)%N -> new_ObjectId (toString id) = Some id.
Proof.
  intros Hid. unfold new_ObjectId, toString.
  rewrite length_to_hex, bool_decide_true by done.
  rewrite parse_to_hex. f_equal. rewrite N.mod_small by exact Hid. lia.
Qed.

(** The canonical spelling of an identity reads back as that identity. *)
Lemma new_ObjectId_toString s id :
  new_ObjectId s = Some id -> new_ObjectId (toString id) = Some id.
Proof. intros H. apply new_ObjectId_toString_lt, (new_ObjectId_lt s), H. Qed.

(** The text of a document is not an ObjectId, and is not the canonical
    spelling of any identity. *)
Lemma new_ObjectId_Document_toString fields :
  new_ObjectId (Document_toString fields) = None.
Proof. unfold new_ObjectId. case_bool_decide; reflexivity. Qed.

Lemma toString_not_Document id fields :
  toString id <> Document_toString fields.
Proof.
  unfold toString, Document_toString. cbn [to_hex]. intros [= H _].
  assert (Hv : hex_value (hex_digit ((id / 16 ^ N.of_nat 23) mod 16)%N) = None)
    by (rewrite H; reflexivity).
  rewrite hex_value_digit in Hv by (apply N.mod_lt; lia). done.
Qed.


Lemma ObjectId_of_run lib s w :
  ObjectId_of lib s w
  = match new_ObjectId s with
    | Some id => (Ok id, w)
    | None => (Throw (new_BSONError lib s), w)
    end.
Proof. unfold ObjectId_of. by destruct (new_ObjectId s). Qed.

(** ** The lines of a request *)

Lemma check_identity_ok lib items :
  first_throw (check_identity lib) items = Ok tt <-> Forall castable items.
Proof.
  rewrite first_throw_ok. apply Forall_iff. intros x.
  unfold check_identity, castable.
  destruct (new_ObjectId (Item.productId x)); split; eauto; try done.
Qed.

Lemma request_lines_cons x l id :
  new_ObjectId (Item.productId x) = Some id ->
  request_lines (x :: l) = (id, Item.quantity x) :: request_lines l.
Proof. intros H. unfold request_lines. cbn [omap list_omap]. by rewrite H. Qed.

Lemma length_request_lines items :
  Forall castable items -> length (request_lines items) = length items.
Proof.
  induction 1 as [|x l [id Hid] _ IH]; [done|].
  rewrite (request_lines_cons _ _ _ Hid). simpl. by rewrite IH.
Qed.

Lemma elem_of_request_lines items id q :
  (id, q) ∈ request_lines items <->
  exists item, item ∈ items /\ new_ObjectId (Item.productId item) = Some id
               /\ Item.quantity item = q.
Proof.
  unfold request_lines. rewrite list_elem_of_omap. split.
  - intros (x & Hx & Hc). exists x. split; [done|].
    destruct (new_ObjectId (Item.productId x)); simplify_eq/=. done.
  - intros (x & Hx & Hc & <-). exists x. split; [done|]. by rewrite Hc.
Qed.

Lemma elem_of_request_ids items id :
  id ∈ (request_lines items).*1 <->
  exists item, item ∈ items /\ new_ObjectId (Item.productId item) = Some id.
Proof.
  rewrite list_elem_of_fmap. split.
  - intros ([k q] & -> & H). apply elem_of_request_lines in H as (x & ? & ? & _).
    eauto.
  - intros (x & Hx & Hc). exists (id, Item.quantity x). split; [done|].
    apply elem_of_request_lines. eauto.
Qed.

(** The identities of the lines, read off the strings. *)
Lemma request_ids_fmap items :
  Forall castable items ->
  (request_lines items).*1
  = (fun s => default 0%N (new_ObjectId s)) <$> map Item.productId items.
Proof.
  induction 1 as [|x l [id Hid] _ IH]; [done|].
  rewrite (request_lines_cons _ _ _ Hid). cbn [map]. rewrite !fmap_cons, Hid.
  by rewrite IH.
Qed.

Lemma map_of_ObjectId_of lib items w :
  map_of (map Item.productId items) (ObjectId_of lib) w
  = match first_throw (check_identity lib) items with
    | Ok _ => (Ok (request_lines items).*1, w)
    | Throw e => (Throw e, w)
    end.
Proof.
  induction items as [|x l IH]; [reflexivity|].
  cbn [map map_of first_throw].
  unfold bind at 1. rewrite ObjectId_of_run. unfold check_identity at 1.
  destruct (new_ObjectId (Item.productId x)) as [id|] eqn:Hid; [|reflexivity].
  rewrite (request_lines_cons _ _ _ Hid).
  unfold bind at 1. rewrite IH.
  destruct (first_throw (check_identity lib) l) as [[]|e]; reflexivity.
Qed.

(** ** The catalogue lookup *)

Section catalogue.
Context {V : Type}.
Implicit Types (m : gmap ObjectId V) (ids : list ObjectId).

Lemma found_keys m ids id :
  id ∈ (map_to_list (filter (fun kv : ObjectId * V => kv.1 ∈ ids) m)).*1 <->
  id ∈ ids /\ is_Some (m !! id).
Proof.
  rewrite list_elem_of_fmap. split.
  - intros ([k v] & -> & Hkv). apply elem_of_map_to_list in Hkv.
    apply map_lookup_filter_Some in Hkv as [Hm Hin]. eauto.
  - intros [Hin [v Hv]]. exists (id, v). split; [done|].
    apply elem_of_map_to_list, map_lookup_filter_Some. done.
Qed.

(** As many documents as identities asked for: the identities are pairwise
    distinct and each has its document. *)
Lemma found_all m ids :
  length (map_to_list (filter (fun kv : ObjectId * V => kv.1 ∈ ids) m)) = length ids ->
  NoDup ids /\ forall id, id ∈ ids -> is_Some (m !! id).
Proof.
  intros Hlen.
  set (ks := (map_to_list (filter (fun kv : ObjectId * V => kv.1 ∈ ids) m)).*1).
  assert (Hnd : NoDup ks) by apply NoDup_fst_map_to_list.
  assert (Hsub : ks ⊆+ ids).
  { apply NoDup_submseteq; [done|]. intros k Hk.
    by apply found_keys in Hk as [? _]. }
  assert (Hperm : ks ≡ₚ ids).
  { apply submseteq_length_Permutation; [done|].
    unfold ks. rewrite length_fmap. lia. }
  split.
  - by rewrite <- Hperm.
  - intros id Hid. rewrite <- Hperm in Hid.
    by apply found_keys in Hid as [_ ?].
Qed.

Lemma found_all_length m ids :
  NoDup ids -> (forall id, id ∈ ids -> is_Some (m !! id)) ->
  length (map_to_list (filter (fun kv : ObjectId * V => kv.1 ∈ ids) m))
  = length ids.
Proof.
  intros Hnd Hall.
  rewrite <- (length_fmap fst (map_to_list _)).
  apply Permutation_length, NoDup_Permutation;
    [apply NoDup_fst_map_to_list|done|].
  intros id. rewrite found_keys. split; [by intros [? _]|].
  intros Hin. split; [done|by apply Hall].
Qed.

Lemma new_Map_acc {W} (l : list (string * W)) (acc : gmap string W) :
  foldl (fun (entries : gmap string W) kv => <[kv.1 := kv.2]> entries) acc l
  = list_to_map (reverse l) ∪ acc.
Proof.
  revert acc. induction l as [|[k v] l IH]; intros acc; simpl.
  - by rewrite (left_id_L ∅ (∪)).
  - rewrite IH, reverse_cons, list_to_map_app. simpl.
    rewrite <- (assoc_L (∪)). f_equal.
    by rewrite insert_union_singleton_l, insert_empty.
Qed.

Lemma new_Map_lookup {W} (l : list (string * W)) k v :
  NoDup l.*1 -> new_Map l !! k = Some v <-> (k, v) ∈ l.
Proof.
  intros Hnd. unfold new_Map. rewrite new_Map_acc, (right_id_L ∅ (∪)).
  rewrite <- elem_of_list_to_map.
  - by rewrite elem_of_reverse.
  - by rewrite fmap_reverse, reverse_Permutation.
Qed.

(** [productMap]: the products found, under the canonical spelling of their
    identities. *)
Lemma productMap_lookup m ids s v :
  (forall id, id ∈ ids -> (id < 16 ^ 24)%N) ->
  new_Map (map (fun p : ObjectId * V => (toString p.1, p.2))
               (map_to_list (filter (fun kv : ObjectId * V => kv.1 ∈ ids) m)))
    !! s = Some v
  <-> exists id, toString id = s /\ id ∈ ids /\ m !! id = Some v.
Proof.
  intros Hlt.
  set (found := map_to_list (filter (fun kv : ObjectId * V => kv.1 ∈ ids) m)).
  assert (Hin : forall id v', (id, v') ∈ found <-> id ∈ ids /\ m !! id = Some v').
  { intros id v'. unfold found. rewrite elem_of_map_to_list.
    rewrite map_lookup_filter_Some. simpl. tauto. }
  rewrite new_Map_lookup.
  - rewrite list_elem_of_fmap. split.
    + intros ([id v'] & [= -> ->] & H). apply Hin in H. exists id. tauto.
    + intros (id & <- & Hid & Hv). exists (id, v). split; [done|].
      apply Hin. done.
  - assert (Heq : (map (fun p : ObjectId * V => (toString p.1, p.2)) found).*1
                  = toString <$> found.*1).
    { clear. induction found as [|[k x] l IH]; [done|].
      cbn [map]. rewrite !fmap_cons. by rewrite IH. }
    rewrite Heq. apply NoDup_fmap_2_strong; [|apply NoDup_fst_map_to_list].
    intros a b Ha Hb Hab.
    apply found_keys in Ha as [Ha _]. apply found_keys in Hb as [Hb _].
    pose proof (new_ObjectId_toString_lt a (Hlt a Ha)) as Ea.
    pose proof (new_ObjectId_toString_lt b (Hlt b Hb)) as Eb.
    rewrite Hab in Ea. congruence.
Qed.
End catalogue.

(** What [productMap] holds under the string of a line whose string is an
    ObjectId: the product, when the string is the canonical spelling of its
    identity, and nothing otherwise. *)
Lemma productMap_line (m : gmap ObjectId IProduct.t) items x id :
  x ∈ items ->
  new_ObjectId (Item.productId x) = Some id ->
  new_Map (map (fun p : Doc IProduct.t => (toString p.1, p.2))
               (found_products m items)) !! Item.productId x
  = if bool_decide (toString id = Item.productId x) then m !! id else None.
Proof.
  intros Hx Hid.
  assert (Hlt : forall k, k ∈ (request_lines items).*1 -> (k < 16 ^ 24)%N).
  { intros k Hk. apply elem_of_request_ids in Hk as (y & _ & Hy).
    by apply new_ObjectId_lt in Hy. }
  assert (Hin : id ∈ (request_lines items).*1)
    by (apply elem_of_request_ids; eauto).
  unfold found_products.
  destruct (new_Map _ !! Item.productId x) as [v|] eqn:E.
  - apply (productMap_lookup _ _ _ _ Hlt) in E as (k & Hk & Hkin & Hv).
    pose proof (new_ObjectId_toString_lt k (Hlt k Hkin)) as Ek.
    rewrite Hk, Hid in Ek. injection Ek as ->.
    by rewrite bool_decide_eq_true_2.
  - case_bool_decide as Hc; [|done].
    destruct (m !! id) as [v|] eqn:Hv; [|done].
    assert (Hs : new_Map (map (fun p : Doc IProduct.t => (toString p.1, p.2))
                   (map_to_list (filter (fun kv : ObjectId * IProduct.t =>
                                           kv.1 ∈ (request_lines items).*1) m)))
                   !! Item.productId x = Some v).
    { apply (productMap_lookup _ _ _ _ Hlt). eauto. }
    congruence.
Qed.

(** ** Stock updates *)

Lemma add_stock_0 p : add_stock 0 p = p.
Proof. destruct p. unfold add_stock. simpl. f_equal. lia. Qed.

Lemma add_stock_add a b p : add_stock a (add_stock b p) = add_stock (b + a) p.
Proof. unfold add_stock. simpl. f_equal. lia. Qed.

Lemma insert_add_stock (m : gmap ObjectId IProduct.t) id q p :
  m !! id = Some p -> <[id := add_stock q p]> m = alter (add_stock q) id m.
Proof.
  intros Hp. apply map_eq. intros j.
  rewrite lookup_alter, lookup_insert.
  destruct (decide (id = j)) as [->|]; [by rewrite Hp|done].
Qed.

(** One [$inc] issued with the session of an open transaction: it lands in
    the transaction's view, whether or not the product exists. *)
Lemma updateProductStock_txn lib productId id q s d0 d1 d :
  new_ObjectId productId = Some id ->
  exists r,
    productService.updateProductStock lib productId q (Some s)
      (mkWorld d0 (Some (mkTransaction d1 d)))
    = (Ok r,
       mkWorld d0
         (Some (mkTransaction d1 (mkDb (alter (add_stock q) id (products d))
                                       (orders d))))).
Proof.
  intros Hid.
  unfold productService.updateProductStock, productRepository.updateStock,
    bind, ret, view, write. rewrite Hid. simpl.
  destruct (products d !! id) as [p|] eqn:Hp; simpl.
  - eexists. rewrite <- (insert_add_stock _ _ q _ Hp). reflexivity.
  - eexists. rewrite (alter_id' _ _ _ Hp). by destruct d.
Qed.

(** Whatever its string, a stock update keeps to the scope of the
    transaction. *)
Lemma updateProductStock_keeps_scope lib :
  stock_in_scope (productService.updateProductStock lib).
Proof.
  intros productId q d0 d1 d.
  destruct (new_ObjectId productId) as [id|] eqn:Hid.
  - destruct (updateProductStock_txn lib productId id q Session d0 d1 d Hid)
      as [r ->]. eauto.
  - unfold productService.updateProductStock, productRepository.updateStock,
      bind. rewrite Hid. simpl. eauto.
Qed.

(** The stock updates of [createOrder], for lines whose strings are
    ObjectIds. *)
Lemma taken_txn lib items s d0 d1 d :
  Forall castable items ->
  for_of items (fun item =>
                  productService.updateProductStock lib (Item.productId item)
                    (- Item.quantity item) (Some s) ;;;
                  ret tt)
         (mkWorld d0 (Some (mkTransaction d1 d)))
  = (Ok tt,
     mkWorld d0
       (Some (mkTransaction d1 (mkDb (adjust_stock (taken items) (products d))
                                     (orders d))))).
Proof.
  intros Hcast. revert d.
  induction Hcast as [|x l [id Hid] _ IH]; intros d; simpl.
  - unfold ret. by destruct d.
  - destruct (updateProductStock_txn lib _ id (- Item.quantity x) s d0 d1 d
                Hid)
      as [r Hr].
    unfold bind at 1. unfold bind at 1. rewrite Hr. unfold ret at 1.
    rewrite IH. unfold taken. rewrite (request_lines_cons _ _ _ Hid).
    reflexivity.
Qed.

Lemma adjust_stock_lookup changes (m : gmap ObjectId IProduct.t) id :
  adjust_stock changes m !! id
  = add_stock (quantity_for id changes) <$> m !! id.
Proof.
  revert m. induction changes as [|[k q] cs IH]; intros m; simpl.
  - destruct (m !! id) as [p|]; simpl; [by rewrite add_stock_0|done].
  - unfold adjust_stock in *. simpl. rewrite IH, lookup_alter.
    destruct (decide (k = id)) as [->|Hne].
    + rewrite bool_decide_eq_true_2 by done.
      destruct (m !! id) as [p|]; simpl; [by rewrite add_stock_add|done].
    + rewrite bool_decide_eq_false_2 by done. by rewrite Z.add_0_l.
Qed.

Lemma quantity_for_taken id items :
  quantity_for id (taken items) = - quantity_for id (request_lines items).
Proof.
  unfold taken. induction (request_lines items) as [|[k q] l IH]; simpl; [done|].
  rewrite IH. case_bool_decide; lia.
Qed.

Lemma quantity_for_absent id lines :
  id ∉ lines.*1 -> quantity_for id lines = 0.
Proof.
  induction lines as [|[k q] l IH]; simpl; [done|].
  intros Hn. apply not_elem_of_cons in Hn as [Hne Hn].
  rewrite (IH Hn). case_bool_decide; [congruence|lia].
Qed.

(** With pairwise distinct identities, the quantity named for the identity of
    a line is the quantity of that line. *)
Lemma quantity_for_NoDup id q lines :
  NoDup lines.*1 -> (id, q) ∈ lines -> quantity_for id lines = q.
Proof.
  induction lines as [|[k q'] l IH]; simpl.
  - intros _ H. by apply elem_of_nil in H.
  - intros Hnd Hin. apply NoDup_cons in Hnd as [Hk Hnd].
    apply elem_of_cons in Hin as [[= <- <-]|Hin].
    + rewrite bool_decide_eq_true_2 by done.
      rewrite quantity_for_absent by done. lia.
    + rewrite (IH Hnd Hin). case_bool_decide as E; [|lia].
      subst k. exfalso. apply Hk. apply list_elem_of_fmap.
      exists (id, q). done.
Qed.

Lemma quantity_for_nonneg id lines :
  Forall (fun l => 0 <= l.2) lines -> 0 <= quantity_for id lines.
Proof.
  induction 1 as [|[k q] l Hq _ IH]; simpl in *; [lia|].
  case_bool_decide; lia.
Qed.

(** ** The transaction coordinator *)

Lemma lookup_apply_written {V} `{EqDecision V}
    (before after m : gmap ObjectId V) i :
  apply_writes (written before after) m !! i
  = if decide (before !! i = after !! i) then m !! i else after !! i.
Proof.
  unfold apply_writes, written. rewrite !lookup_merge.
  destruct (before !! i) as [x|], (after !! i) as [y|], (m !! i) as [z|];
    simpl; repeat case_decide; congruence.
Qed.

(** The writes of a transaction, applied to the data it started from, give
    what the transaction reads. *)
Lemma apply_written {V} `{EqDecision V} (before after : gmap ObjectId V) :
  apply_writes (written before after) before = after.
Proof.
  apply map_eq. intros i. rewrite lookup_apply_written.
  by case_decide.
Qed.

Lemma publish_initial d1 d : publish (mkTransaction d1 d) d1 = d.
Proof.
  unfold publish. simpl. rewrite !apply_written. by destruct d.
Qed.

Lemma withTransaction_unfold {T} (work : ClientSession -> M T) w :
  orderRepository.withTransaction work w =
  match work Session (mkWorld (db w) (Some (mkTransaction (db w) (db w)))) with
  | (Ok result, w1) => (Ok result, mkWorld (committed w1) None)
  | (Throw error, w1) => (Throw error, mkWorld (db w1) None)
  end.
Proof.
  unfold orderRepository.withTransaction, bind, startSession, ret,
    startTransaction, try_finally, try_catch, commitTransaction,
    abortTransaction, endSession, throw.
  simpl. destruct (work Session _) as [[result|error] w1]; reflexivity.
Qed.

(** ** The checks of [createOrder] *)

Lemma price_of_found (m : gmap ObjectId IProduct.t) s id p :
  new_ObjectId s = Some id -> m !! id = Some p ->
  price_of m s = IProduct.price p.
Proof. intros Hs Hp. unfold price_of. rewrite Hs. simpl. by rewrite Hp. Qed.

(** [createOrder] is its checks and then its transaction. *)
Lemma createOrder_precheck lib stock userId items w :
  orderService.createOrder_with lib stock userId items w
  = match precheck lib (products (db w)) items with
    | Throw e => (Throw e, w)
    | Ok _ =>
        orderRepository.withTransaction
          (orderService.createOrder_work lib stock userId items
             (priced (products (db w)) items)) w
    end.
Proof.
  unfold orderService.createOrder_with, precheck.
  case_bool_decide as Hnil; [reflexivity|].
  unfold bind at 1.
  rewrite (for_of_checks _ check_quantity)
    by (intros x _; unfold check_quantity; by case_bool_decide).
  destruct (first_throw check_quantity items) as [[]|e] eqn:H1; [|reflexivity].
  unfold bind at 1, productService.getProductsByIds,
    productRepository.findByIds.
  unfold bind at 1. rewrite map_of_ObjectId_of.
  destruct (first_throw (check_identity lib) items) as [[]|e] eqn:H2;
    [|reflexivity].
  apply check_identity_ok in H2.
  fold (found_products (products (db w)) items).
  case_bool_decide as Hlen; [reflexivity|].
  unfold bind at 1.
  rewrite (for_of_checks _ (check_stock lib (products (db w)))).
  2:{ intros x Hx. unfold check_stock.
      rewrite Forall_forall in H2. destruct (H2 x Hx) as [id Hid].
      rewrite (productMap_line _ _ _ _ Hx Hid), Hid.
      case_bool_decide; [|reflexivity].
      destruct (products (db w) !! id); [by case_bool_decide|reflexivity]. }
  destruct (first_throw (check_stock lib (products (db w))) items)
    as [[]|e] eqn:H3; [|reflexivity].
  apply first_throw_ok in H3.
  unfold bind at 1.
  rewrite (map_of_pure _ (fun item =>
             CreateOrderItemDto.mk (Item.productId item) (Item.quantity item)
               (price_of (products (db w)) (Item.productId item)))).
  - reflexivity.
  - intros x Hx. rewrite Forall_forall in H2, H3.
    destruct (H2 x Hx) as [id Hid]. specialize (H3 x Hx).
    unfold check_stock in H3. rewrite Hid in H3.
    rewrite (productMap_line _ _ _ _ Hx Hid).
    case_bool_decide; [|done].
    destruct (products (db w) !! id) as [p|] eqn:Hp; [|done].
    by rewrite (price_of_found _ _ _ _ Hid Hp).
Qed.

(** The checks let a request through exactly when it is accepted. *)
Lemma precheck_accepted lib m items :
  precheck lib m items = Ok tt <-> accepted m items.
Proof.
  unfold precheck. split.
  - case_bool_decide as Hnil; [done|].
    destruct (first_throw check_quantity items) as [[]|e] eqn:H1; [|done].
    destruct (first_throw (check_identity lib) items) as [[]|e] eqn:H2; [|done].
    apply first_throw_ok in H1. apply check_identity_ok in H2.
    case_bool_decide as Hlen; [done|]. intros H3. apply first_throw_ok in H3.
    assert (Hlen' : length (found_products m items)
                    = length (request_lines items).*1).
    { rewrite length_fmap, length_request_lines by done.
      by rewrite length_map in Hlen. }
    apply found_all in Hlen' as [Hnd Hall].
    split; [done|]. split; [|split].
    + eapply Forall_impl; [exact H1|]. intros x Hx. unfold check_quantity in Hx.
      case_bool_decide; [done|lia].
    + rewrite request_ids_fmap in Hnd by done. by apply NoDup_fmap_1 in Hnd.
    + apply Forall_forall. intros x Hx.
      rewrite Forall_forall in H3. specialize (H3 x Hx). unfold check_stock in H3.
      destruct (new_ObjectId (Item.productId x)) as [id|] eqn:Hid; [|done].
      case_bool_decide as Hc; [|done].
      destruct (m !! id) as [p|] eqn:Hp; [|done].
      exists id, p. split; [done|]. split; [done|]. split; [done|].
      case_bool_decide; [done|lia].
  - intros (Hne & Hq & Hnd & Hs).
    rewrite bool_decide_eq_false_2 by done.
    assert (H1 : first_throw check_quantity items = Ok tt).
    { apply first_throw_ok. eapply Forall_impl; [exact Hq|]. intros x Hx.
      simpl in Hx. unfold check_quantity.
      rewrite bool_decide_eq_false_2; [done|lia]. }
    rewrite H1.
    assert (Hcast : Forall castable items).
    { eapply Forall_impl; [exact Hs|]. intros x (id & p & Hid & _).
      by exists id. }
    rewrite (proj2 (check_identity_ok lib items) Hcast).
    assert (Hlen : length (found_products m items)
                   = length (map Item.productId items)).
    { rewrite length_map, <- (length_request_lines items Hcast),
        <- (length_fmap fst (request_lines items)).
      apply found_all_length.
      - rewrite request_ids_fmap by done.
        apply NoDup_fmap_2_strong; [|done].
        intros a b Ha Hb Hab.
        apply list_elem_of_fmap in Ha as (x & -> & Hx).
        apply list_elem_of_fmap in Hb as (y & -> & Hy).
        rewrite Forall_forall in Hs.
        destruct (Hs x Hx) as (i & _ & Hi & Hti & _).
        destruct (Hs y Hy) as (j & _ & Hj & Htj & _).
        rewrite Hi, Hj in Hab. simpl in Hab. congruence.
      - intros id Hid. apply elem_of_request_ids in Hid as (x & Hx & Hc).
        rewrite Forall_forall in Hs.
        destruct (Hs x Hx) as (i & p & Hi & _ & Hp & _). simplify_eq. eauto. }
    rewrite bool_decide_eq_false_2 by (intros H; by apply H).
    apply first_throw_ok. eapply Forall_impl; [exact Hs|].
    intros x (id & p & Hid & Ht & Hp & Hle). unfold check_stock.
    rewrite Hid, bool_decide_eq_true_2, Hp by done.
    rewrite bool_decide_eq_false_2; [done|lia].
Qed.


Lemma accepted_NoDup_ids m items :
  accepted m items -> NoDup (request_lines items).*1.
Proof.
  intros (_ & _ & Hnd & Hs).
  assert (Hcast : Forall castable items).
  { eapply Forall_impl; [exact Hs|]. intros x (id & p & Hid & _). by exists id. }
  rewrite request_ids_fmap by done.
  apply NoDup_fmap_2_strong; [|done].
  intros a b Ha Hb Hab.
  apply list_elem_of_fmap in Ha as (x & -> & Hx).
  apply list_elem_of_fmap in Hb as (y & -> & Hy).
  rewrite Forall_forall in Hs.
  destruct (Hs x Hx) as (i & _ & Hi & Hti & _).
  destruct (Hs y Hy) as (j & _ & Hj & Htj & _).
  rewrite Hi, Hj in Hab. simpl in Hab. congruence.
Qed.

Lemma accepted_castable m items : accepted m items -> Forall castable items.
Proof.
  intros (_ & _ & _ & Hs). eapply Forall_impl; [exact Hs|].
  intros x (id & p & Hid & _). by exists id.
Qed.


(** ** The order [create] stores *)

Lemma order_total_sum lib items lines :
  cast_lines lib items = Ok lines ->
  orderRepository.order_total items = sum_lines lines.
Proof.
  unfold orderRepository.order_total.
  enough (forall a, cast_lines lib items = Ok lines ->
            fold_left (fun sum item =>
              sum + CreateOrderItemDto.quantity item
                    * CreateOrderItemDto.unitPrice item) items a
            = a + sum_lines lines) as H by (intros Hc; rewrite (H 0 Hc); lia).
  revert lines. induction items as [|x l IH]; intros lines a; simpl.
  - intros [= <-]. simpl. lia.
  - destruct (new_ObjectId _) as [id|]; [|done].
    destruct (cast_lines lib l) as [ls|]; [|done].
    intros [= <-]. rewrite (IH ls) by done. simpl. lia.
Qed.

Lemma cast_lines_run lib items w :
  map_of items (fun item =>
    productId <- ObjectId_of lib (CreateOrderItemDto.productId item) ;;
    ret (IOrderItem.mk productId (CreateOrderItemDto.quantity item)
                       (CreateOrderItemDto.unitPrice item))) w
  = (cast_lines lib items, w).
Proof.
  induction items as [|x l IH]; simpl; [reflexivity|].
  unfold bind at 1. unfold bind at 1. rewrite ObjectId_of_run.
  destruct (new_ObjectId _) as [id|]; [|reflexivity].
  unfold ret at 1. unfold bind at 1. rewrite IH.
  destruct (cast_lines lib l); reflexivity.
Qed.

(** [create] in full. *)
Lemma create_run lib data session w :
  orderRepository.create lib data session w
  = match new_Order lib data with
    | Throw e => (Throw e, w)
    | Ok order =>
        if orderRepository.valid order then
          (Ok (fresh (dom (orders (view session w))), order),
           write session
             (mkDb (products (view session w))
                   (<[fresh (dom (orders (view session w))) := order]>
                      (orders (view session w)))) w)
        else (Throw (new_MongooseValidationError lib order), w)
    end.
Proof.
  unfold orderRepository.create, new_Order.
  unfold bind at 1. rewrite ObjectId_of_run.
  destruct (new_ObjectId (CreateOrderDto.userId data)) as [u|]; [|reflexivity].
  unfold bind at 1. rewrite cast_lines_run.
  destruct (cast_lines lib (CreateOrderDto.items data)); reflexivity.
Qed.

Lemma create_keeps_scope lib data :
  keeps_scope (orderRepository.create lib data (Some Session)).
Proof.
  intros d0 d1 d. rewrite create_run.
  destruct (new_Order lib data) as [order|e]; [|by exists d].
  destruct (orderRepository.valid order); [|by exists d].
  unfold write, view. simpl. eauto.
Qed.

Lemma cast_lines_priced lib m items :
  Forall castable items ->
  cast_lines lib (priced m items) = Ok (stored_lines m items).
Proof.
  induction 1 as [|x l [id Hid] _ IH]; [reflexivity|].
  unfold priced, stored_lines in *. cbn [map cast_lines omap list_omap].
  cbn [CreateOrderItemDto.productId CreateOrderItemDto.quantity
       CreateOrderItemDto.unitPrice].
  rewrite Hid, IH. reflexivity.
Qed.

Lemma new_Order_priced lib m userId items :
  Forall castable items ->
  new_Order lib (CreateOrderDto.mk userId (priced m items))
  = match new_ObjectId userId with
    | Some u => Ok (order_of m u items)
    | None => Throw (new_BSONError lib userId)
    end.
Proof.
  intros Hcast. unfold new_Order. simpl.
  destruct (new_ObjectId userId) as [u|]; [|reflexivity].
  rewrite (cast_lines_priced lib m items Hcast).
  rewrite (order_total_sum lib _ _ (cast_lines_priced lib m items Hcast)).
  reflexivity.
Qed.

(** ** The transaction of [createOrder] *)

(** The callback of [createOrder] writes within its scope, whatever stock
    update it is given that does. *)
Lemma createOrder_work_scoped lib stock userId items orderItems :
  stock_in_scope stock ->
  scoped (orderService.createOrder_work lib stock userId items orderItems).
Proof.
  intros Hstock d0 d1 d. unfold orderService.createOrder_work.
  unfold bind at 1.
  destruct (create_keeps_scope lib (CreateOrderDto.mk userId orderItems)
              d0 d1 d) as [d2 H1].
  destruct (orderRepository.create _ _ _ _) as [[order|e] w1];
    simpl in H1; subst w1; [|reflexivity].
  unfold bind at 1.
  assert (Hloop : keeps_scope
            (for_of items (fun item =>
               stock (Item.productId item) (- Item.quantity item)
                     (Some Session) ;;;
               ret tt))).
  { apply for_of_keeps_scope. intros x d0' d1' d'. unfold bind, ret.
    destruct (Hstock (Item.productId x) (- Item.quantity x) d0' d1' d')
      as [d3 H3].
    destruct (stock _ _ _ _) as [[r|e] w2]; simpl in *; subst w2; eauto. }
  destruct (Hloop d0 d1 d2) as [d3 H2].
  destruct (for_of _ _ _) as [[[]|e] w2]; simpl in H2; subst w2; reflexivity.
Qed.

(** A [createOrder] that fails, with whatever stock update that keeps to the
    scope of the transaction, leaves the world as it was. *)
Lemma createOrder_with_rollback lib stock userId items w e w' :
  stock_in_scope stock -> txn w = None ->
  orderService.createOrder_with lib stock userId items w = (Throw e, w') ->
  w' = w.
Proof.
  intros Hstock Htxn. rewrite createOrder_precheck.
  destruct (precheck lib (products (db w)) items) as [[]|e0];
    [|by intros [= _ <-]].
  rewrite withTransaction_unfold.
  pose proof (createOrder_work_scoped lib stock userId items
                (priced (products (db w)) items) Hstock (db w) (db w) (db w))
    as Hs.
  destruct (orderService.createOrder_work _ _ _ _ _ _ _) as [[r|e1] w1];
    [done|].
  intros [= _ <-]. simpl in Hs. rewrite Hs. destruct w. simpl in *. by subst.
Qed.

(** The callback of [createOrder], with the stock update of the product
    service, run on the view of its transaction. *)
Lemma createOrder_work_run lib userId items m d0 d1 d :
  Forall castable items ->
  orderService.createOrder_work lib (productService.updateProductStock lib)
    userId items (priced m items) Session
    (mkWorld d0 (Some (mkTransaction d1 d)))
  = match new_ObjectId userId with
    | None => (Throw (new_BSONError lib userId),
               mkWorld d0 (Some (mkTransaction d1 d)))
    | Some u =>
        if orderRepository.valid (order_of m u items) then
          (Ok (OrderResult.mk
                 (Some (Saved (fresh (dom (orders d)), order_of m u items)))
                 "Order created successfully"),
           mkWorld d0
             (Some (mkTransaction d1
                      (mkDb (adjust_stock (taken items) (products d))
                            (<[fresh (dom (orders d)) := order_of m u items]>
                               (orders d))))))
        else (Throw (new_MongooseValidationError lib (order_of m u items)),
              mkWorld d0 (Some (mkTransaction d1 d)))
    end.
Proof.
  intros Hcast. unfold orderService.createOrder_work.
  unfold bind at 1. rewrite create_run, (new_Order_priced lib m _ _ Hcast).
  destruct (new_ObjectId userId) as [u|]; [|reflexivity].
  destruct (orderRepository.valid _); [|reflexivity].
  unfold view, write. simpl.
  unfold bind at 1. rewrite (taken_txn lib items Session _ _ _ Hcast).
  reflexivity.
Qed.

(** [createOrder] in full: the failure of a check, which leaves the world as
    it is, or the one transaction of an accepted request. *)
Lemma createOrder_run lib userId items w :
  orderService.createOrder lib userId items w
  = match precheck lib (products (db w)) items with
    | Throw e => (Throw e, w)
    | Ok _ =>
        match new_ObjectId userId with
        | None => (Throw (new_BSONError lib userId), mkWorld (db w) None)
        | Some u =>
            let order := order_of (products (db w)) u items in
            let id : ObjectId := fresh (dom (orders (db w))) in
            if orderRepository.valid order then
              (Ok (OrderResult.mk (Some (Saved (id, order)))
                                  "Order created successfully"),
               mkWorld (mkDb (adjust_stock (taken items) (products (db w)))
                             (<[id := order]> (orders (db w))))
                       None)
            else (Throw (new_MongooseValidationError lib order),
                  mkWorld (db w) None)
        end
    end.
Proof.
  unfold orderService.createOrder. rewrite createOrder_precheck.
  destruct (precheck lib (products (db w)) items) as [[]|e] eqn:Hpre;
    [|reflexivity].
  apply precheck_accepted, accepted_castable in Hpre.
  rewrite withTransaction_unfold, (createOrder_work_run _ _ _ _ _ _ _ Hpre).
  destruct (new_ObjectId userId) as [u|]; [|reflexivity].
  simpl. destruct (orderRepository.valid _); [|reflexivity].
  unfold committed. cbn [txn db]. by rewrite publish_initial.
Qed.

Lemma fresh_order_id (m : gmap ObjectId IOrder.t) :
  m !! (fresh (dom m) : ObjectId) = None.
Proof. apply not_elem_of_dom, is_fresh. Qed.

Lemma stored_lines_snapshot m items :
  accepted m items ->
  Forall2 (snapshot m) items (stored_lines m items).
Proof.
  intros (_ & _ & _ & Hs). induction Hs as [|x l (id & p & Hid & _ & Hp & _) _ IH];
    [constructor|].
  unfold stored_lines in *. cbn [omap list_omap]. rewrite Hid.
  cbn [fmap option_fmap option_map]. constructor; [|exact IH].
  unfold snapshot. simpl. split; [done|]. split; [done|].
  by rewrite Hp, (price_of_found _ _ _ _ Hid Hp).
Qed.

(** A successful [createOrder]: the request was accepted, the owner is an
    ObjectId, and the result and the world are those of its transaction. *)
Lemma createOrder_ok lib userId items w r w' :
  orderService.createOrder lib userId items w = (Ok r, w') ->
  exists u,
    let order := order_of (products (db w)) u items in
    let id : ObjectId := fresh (dom (orders (db w))) in
    new_ObjectId userId = Some u
    /\ accepted (products (db w)) items
    /\ orderRepository.valid order = true
    /\ r = OrderResult.mk (Some (Saved (id, order))) "Order created successfully"
    /\ w' = mkWorld (mkDb (adjust_stock (taken items) (products (db w)))
                          (<[id := order]> (orders (db w))))
                    None.
Proof.
  rewrite createOrder_run.
  destruct (precheck lib (products (db w)) items) as [[]|e] eqn:Hpre; [|done].
  apply precheck_accepted in Hpre.
  destruct (new_ObjectId userId) as [u|]; [|done].
  simpl. destruct (orderRepository.valid _) eqn:Hvalid; [|done].
  intros [= <- <-]. exists u. done.
Qed.

(** ** Reading, paying and cancelling an order *)

(** An administrator passes the access check; a caller who is not one does
    not, whatever identity they have, the owner's included: the check
    compares the caller's string with the text of the owner's document. *)
Lemma access_denied_admin lib order userId isAdmin :
  truthy isAdmin = true ->
  orderService.access_denied lib order userId isAdmin = false.
Proof. intros H. unfold orderService.access_denied. by rewrite H. Qed.

Lemma access_denied_caller lib order (userId : option ObjectId) isAdmin :
  truthy isAdmin = false ->
  orderService.access_denied lib order (toString <$> userId) isAdmin = true.
Proof.
  intros H. unfold orderService.access_denied. rewrite H. simpl.
  apply bool_decide_eq_true_2. destruct userId as [u|]; [|done].
  intros Heq.
  assert (Hu : toString u
               = Document_toString (inspect_user lib (Populated.userId order)))
    by (simpl in Heq; congruence).
  by apply toString_not_Document in Hu.
Qed.

(** [getOrderById] in full. *)
Lemma getOrderById_run lib orderId userId isAdmin w :
  orderService.getOrderById lib orderId userId isAdmin w =
  match new_ObjectId orderId with
  | None => (Throw (new_CastError lib "Order" orderId), w)
  | Some id =>
      match orders (db w) !! id with
      | None => (Ok None, w)
      | Some o =>
          if orderService.access_denied lib
               (orderRepository.populate (db w) (id, o)) userId isAdmin
          then (Throw (new_ApiError "Access denied" 403), w)
          else (Ok (Some (orderRepository.populate (db w) (id, o))), w)
      end
  end.
Proof.
  unfold orderService.getOrderById, orderRepository.findById. unfold bind at 1.
  destruct (new_ObjectId orderId) as [id|]; [|reflexivity].
  destruct (orders (db w) !! id) as [o|]; simpl; [|reflexivity].
  by destruct (orderService.access_denied _ _ _ _).
Qed.

(** [payOrder] in full. *)
Lemma payOrder_run lib orderId userId isAdmin w :
  orderService.payOrder lib orderId userId isAdmin w =
  match new_ObjectId orderId with
  | None => (Throw (new_CastError lib "Order" orderId), w)
  | Some id =>
      match orders (db w) !! id with
      | None => (Throw (new_ApiError "Order not found" 404), w)
      | Some o =>
          let order := orderRepository.populate (db w) (id, o) in
          if orderService.access_denied lib order userId isAdmin
          then (Throw (new_ApiError "Access denied" 403), w)
          else match IOrder.status o with
               | paid =>
                   (Ok (OrderResult.mk (Some (Found order))
                                       "Order is already paid"), w)
               | cancelled =>
                   (Throw (new_ConflictError "Cannot pay for a cancelled order"),
                    w)
               | created =>
                   (Ok (OrderResult.mk
                          (Some (Found (orderRepository.populate (db w)
                                          (id, set_status paid o))))
                          "Payment successful"),
                    mkWorld (mkDb (products (db w))
                                  (<[id := set_status paid o]> (orders (db w))))
                            (txn w))
               end
      end
  end.
Proof.
  unfold orderService.payOrder, orderRepository.findById. unfold bind at 1.
  destruct (new_ObjectId orderId) as [id|] eqn:Hid; [|reflexivity].
  destruct (orders (db w) !! id) as [o|] eqn:Ho; simpl; [|reflexivity].
  destruct (orderService.access_denied _ _ _ _); [reflexivity|].
  destruct (IOrder.status o) eqn:Hs; simpl; try reflexivity.
  unfold bind, orderRepository.updateStatus, view, write, ret. simpl.
  rewrite Hid, Ho. reflexivity.
Qed.

(** The stock updates of [cancelOrder]: none for an order without lines; for
    any other order the first one throws, and nothing is written. *)
Lemma cancel_loop_run lib o d0 d1 d :
  for_of (Populated.items (orderRepository.populate d0 o)) (fun item =>
    match item.2 with
    | None => throw (new_TypeError lib "toString")
    | Some product =>
        productService.updateProductStock lib
          (Document_toString
             (inspect_product lib (IOrderItem.productId item.1, product)))
          (IOrderItem.quantity item.1) (Some Session) ;;;
        ret tt
    end) (mkWorld d0 (Some (mkTransaction d1 d)))
  = match IOrder.items o.2 with
    | [] => (Ok tt, mkWorld d0 (Some (mkTransaction d1 d)))
    | item :: _ =>
        (Throw (cancel_failure lib d0 item),
         mkWorld d0 (Some (mkTransaction d1 d)))
    end.
Proof.
  unfold orderRepository.populate. simpl.
  destruct (IOrder.items o.2) as [|item rest]; [reflexivity|].
  cbn [map for_of]. unfold bind at 1. unfold cancel_failure. simpl.
  destruct (products d0 !! IOrderItem.productId item) as [p|]; [|reflexivity].
  unfold bind at 1. unfold productService.updateProductStock, bind,
    productRepository.updateStock.
  by rewrite new_ObjectId_Document_toString.
Qed.

(** [cancelOrder] in full. *)
Lemma cancelOrder_run lib orderId userId isAdmin w :
  orderService.cancelOrder lib orderId userId isAdmin w =
  match new_ObjectId orderId with
  | None => (Throw (new_CastError lib "Order" orderId), w)
  | Some id =>
      match orders (db w) !! id with
      | None => (Throw (new_ApiError "Order not found" 404), w)
      | Some o =>
          let order := orderRepository.populate (db w) (id, o) in
          if orderService.access_denied lib order userId isAdmin
          then (Throw (new_ApiError "Access denied" 403), w)
          else match IOrder.status o with
               | cancelled =>
                   (Ok (OrderResult.mk (Some (Found order))
                                       "Order is already cancelled"), w)
               | _ =>
                   match IOrder.items o with
                   | [] =>
                       (Ok (OrderResult.mk
                              (Some (Found (orderRepository.populate (db w)
                                              (id, set_status cancelled o))))
                              "Order cancelled successfully"),
                        mkWorld (mkDb (products (db w))
                                      (<[id := set_status cancelled o]>
                                         (orders (db w))))
                                None)
                   | item :: _ =>
                       (Throw (cancel_failure lib (db w) item),
                        mkWorld (db w) None)
                   end
               end
      end
  end.
Proof.
  unfold orderService.cancelOrder, orderRepository.findById. unfold bind at 1.
  destruct (new_ObjectId orderId) as [id|] eqn:Hid; [|reflexivity].
  destruct (orders (db w) !! id) as [o|] eqn:Ho; simpl; [|reflexivity].
  destruct (orderService.access_denied _ _ _ _); [reflexivity|].
  assert (Hwork :
    orderRepository.withTransaction
      (orderService.cancelOrder_work lib orderId
         (orderRepository.populate (db w) (id, o))) w
    = match IOrder.items o with
      | [] =>
          (Ok (OrderResult.mk
                 (Some (Found (orderRepository.populate (db w)
                                 (id, set_status cancelled o))))
                 "Order cancelled successfully"),
           mkWorld (mkDb (products (db w))
                         (<[id := set_status cancelled o]> (orders (db w))))
                   None)
      | item :: _ =>
          (Throw (cancel_failure lib (db w) item), mkWorld (db w) None)
      end).
  { rewrite withTransaction_unfold. unfold orderService.cancelOrder_work.
    unfold bind at 1. unfold orderRepository.updateStatus. rewrite Hid.
    cbn [view write txn db current initial]. rewrite Ho.
    unfold bind at 1. rewrite cancel_loop_run. cbn [snd].
    destruct o as [owner [|item rest] total status]; [|reflexivity].
    cbn [IOrder.items]. unfold bind, ret, committed. cbn [txn db].
    by rewrite publish_initial. }
  destruct (IOrder.status o) eqn:Hs; simpl; try reflexivity; exact Hwork.
Qed.

(** ** Creating an order *)

Lemma failing_for_itemB_in_scope : stock_in_scope failing_for_itemB.
Proof.
  intros productId q d0 d1 d. unfold failing_for_itemB.
  case_bool_decide; [by exists d|].
  apply updateProductStock_keeps_scope.
Qed.

(** C1. Every successful [createOrder] persists one order whose total is the
    sum over its lines of quantity times the unit price taken from the
    catalogue at that moment, and lowers the stock of every product by
    exactly the quantity requested for it.  The order and the stock updates
    are one transaction: [createOrder] is [createOrder_with] for the stock
    update of the product service, and whatever a stock update does within
    the transaction, and whichever of them fails, a [createOrder] that fails
    leaves neither an order nor a changed stock behind. *)
Theorem createOrder_total_and_stock lib userId items w :
  (forall r w', orderService.createOrder lib userId items w = (Ok r, w') ->
                create_post userId items w r w')
  /\ orderService.createOrder lib userId items
     = orderService.createOrder_with lib (productService.updateProductStock lib)
                                     userId items
  /\ (forall updateProductStock e w',
        stock_in_scope updateProductStock -> txn w = None ->
        orderService.createOrder_with lib updateProductStock userId items w
        = (Throw e, w') ->
        w' = w).
Proof.
  split; [|split; [reflexivity|]].
  - intros r w' Hrun.
    destruct (createOrder_ok _ _ _ _ _ _ Hrun)
      as (u & Hu & Hacc & Hvalid & -> & ->).
    exists (fresh (dom (orders (db w)))), (order_of (products (db w)) u items).
    simpl. split; [done|]. split; [apply fresh_order_id|]. split; [done|].
    split; [done|]. split; [done|].
    split; [by apply stored_lines_snapshot|]. split; [done|].
    split; [|done].
    intros p. by rewrite adjust_stock_lookup, quantity_for_taken.
  - intros stock e w' Hstock Htxn Hrun.
    exact (createOrder_with_rollback _ _ _ _ _ _ _ Hstock Htxn Hrun).
Qed.

Lemma createOrder_total_and_stock_witness :
  (exists r w',
     orderService.createOrder lib0 userA_id [Item.mk itemA_id 3] world0
     = (Ok r, w')
     /\ create_post userA_id [Item.mk itemA_id 3] world0 r w')
  /\ orderService.createOrder_with lib0 failing_for_itemB userA_id
       [Item.mk itemA_id 3; Item.mk itemB_id 1] world0
     = (Throw out_of_order, world0).
Proof.
  split.
  - destruct (orderService.createOrder lib0 userA_id [Item.mk itemA_id 3] world0)
      as [[r|e] w'] eqn:E; [|vm_compute in E; discriminate].
    exists r, w'. split; [reflexivity|].
    exact (proj1 (createOrder_total_and_stock _ _ _ _) _ _ E).
  - destruct (orderService.createOrder_with lib0 failing_for_itemB userA_id
                [Item.mk itemA_id 3; Item.mk itemB_id 1] world0)
      as [[r|e] w'] eqn:E; [vm_compute in E; discriminate|].
    rewrite (proj2 (proj2 (createOrder_total_and_stock lib0 userA_id
                             [Item.mk itemA_id 3; Item.mk itemB_id 1] world0))
               failing_for_itemB e w' failing_for_itemB_in_scope eq_refl E).
    f_equal. vm_compute in E. by injection E as <-.
Defined.

(** ** Rejected requests *)




(** C3, where the code departs from it.  A request for a product that the
    catalogue has, named by a string that is an ObjectId but not in the
    spelling [toString] writes (in upper case, say), fails with the
    [TypeError] of reading the stock of [undefined], whether the stock
    covers the quantity or not: the product is found through the cast, and
    then looked up in [productMap] under the string of the request.  The
    world is left as it was. *)
Theorem createOrder_other_spelling lib userId productId id p quantity w :
  new_ObjectId productId = Some id ->
  toString id <> productId ->
  products (db w) !! id = Some p ->
  0 < quantity ->
  orderService.createOrder lib userId [Item.mk productId quantity] w
  = (Throw (new_TypeError lib "stock"), w)
  /\ cls (new_TypeError lib "stock") <> ValidationError.
Proof.
  intros Hid Hspell Hp Hq. split; [|done].
  rewrite createOrder_run. unfold precheck.
  rewrite bool_decide_eq_false_2 by done. cbn [first_throw].
  unfold check_quantity. cbn [Item.quantity].
  rewrite bool_decide_eq_false_2 by lia.
  unfold check_identity. cbn [Item.productId]. rewrite Hid.
  assert (Hlen : length (found_products (products (db w))
                           [Item.mk productId quantity]) = 1%nat).
  { unfold found_products.
    rewrite (request_lines_cons (Item.mk productId quantity) [] id Hid).
    apply (found_all_length (products (db w)) [id]).
    - apply NoDup_singleton.
    - intros k Hk. apply list_elem_of_singleton in Hk as ->. eauto. }
  rewrite Hlen. cbn [map length].
  rewrite bool_decide_eq_false_2 by (intros H; by apply H).
  unfold check_stock. cbn [Item.productId]. rewrite Hid.
  by rewrite bool_decide_eq_false_2.
Qed.

Lemma createOrder_other_spelling_witness :
  rejected (products (db world0)) [Item.mk itemA_upper 11]
  /\ orderService.createOrder lib0 userA_id [Item.mk itemA_upper 11] world0
     = (Throw (new_TypeError lib0 "stock"), world0)
  /\ orderService.createOrder lib0 userA_id [Item.mk itemA_upper 1] world0
     = (Throw (new_TypeError lib0 "stock"), world0).
Proof.
  split; [|split].
  - right. right. right. apply Exists_cons_hd.
    exists itemA, (IProduct.mk "A" 500 10).
    split; [reflexivity|]. split; [reflexivity|]. simpl. lia.
  - apply (createOrder_other_spelling lib0 userA_id itemA_upper itemA
             (IProduct.mk "A" 500 10) 11 world0);
      [reflexivity|discriminate|reflexivity|lia].
  - apply (createOrder_other_spelling lib0 userA_id itemA_upper itemA
             (IProduct.mk "A" 500 10) 1 world0);
      [reflexivity|discriminate|reflexivity|lia].
Defined.

(** ** The order lifecycle *)

(** C4, where the code departs from it.  Cancelling an order that is
    [created] or [paid] and has a line does not succeed, whoever asks.  A
    caller who is not an administrator is refused, the owner included.  For
    an administrator the status is set within the transaction, and then the
    first stock update throws: [order] is the populated document, so the
    update is given the text of the product document for an identity (or
    [toString] is called on [null], when the product is gone).  The
    transaction is aborted: the order keeps its status and no stock is
    restored. *)
Theorem cancelOrder_never_restores lib orderId id isAdmin w o item rest :
  new_ObjectId orderId = Some id ->
  orders (db w) !! id = Some o ->
  IOrder.status o = created \/ IOrder.status o = paid ->
  IOrder.items o = item :: rest ->
  txn w = None ->
  (truthy isAdmin = true ->
   forall userId,
     orderService.cancelOrder lib orderId userId isAdmin w
     = (Throw (cancel_failure lib (db w) item), w)
     /\ (cls (cancel_failure lib (db w) item) = CastError
         \/ cls (cancel_failure lib (db w) item) = TypeError))
  /\ (truthy isAdmin = false ->
      forall caller : option ObjectId,
        orderService.cancelOrder lib orderId (toString <$> caller) isAdmin w
        = (Throw (new_ApiError "Access denied" 403), w)).
Proof.
  intros Hid Ho Hs Hitems Htxn. split.
  - intros Hadmin userId. split.
    + rewrite cancelOrder_run, Hid, Ho. simpl.
      rewrite (access_denied_admin _ _ _ _ Hadmin), Hitems.
      replace (mkWorld (db w) None) with w
        by (destruct w; simpl in *; by subst).
      destruct Hs as [-> | ->]; reflexivity.
    + unfold cancel_failure. destruct (products (db w) !! _); eauto.
  - intros Hadmin caller. rewrite cancelOrder_run, Hid, Ho. simpl.
    by rewrite (access_denied_caller _ _ _ _ Hadmin).
Qed.

Lemma cancelOrder_never_restores_witness :
  orderService.cancelOrder lib0 order1_id (Some userB_id) (Some true)
                           (world_with paid)
  = (Throw (new_CastError lib0 "Product"
              (Document_toString
                 (inspect_product lib0 (itemA, IProduct.mk "A" 500 10)))),
     world_with paid)
  /\ orderService.cancelOrder lib0 order1_id (Some userA_id) (Some false)
                              (world_with paid)
     = (Throw (new_ApiError "Access denied" 403), world_with paid)
  /\ status_of (world_with paid) order1 = Some paid
  /\ stock_of (world_with paid) itemA = Some 10.
Proof.
  pose proof (cancelOrder_never_restores lib0 order1_id order1 (Some true)
                (world_with paid)
                (IOrder.mk userA [IOrderItem.mk itemA 3 500] 1500 paid)
                (IOrderItem.mk itemA 3 500) []
                eq_refl eq_refl (or_intror eq_refl) eq_refl eq_refl) as [Hadm _].
  pose proof (cancelOrder_never_restores lib0 order1_id order1 (Some false)
                (world_with paid)
                (IOrder.mk userA [IOrderItem.mk itemA 3 500] 1500 paid)
                (IOrderItem.mk itemA 3 500) []
                eq_refl eq_refl (or_intror eq_refl) eq_refl eq_refl) as [_ Hcust].
  split; [exact (proj1 (Hadm eq_refl (Some userB_id)))|].
  split; [exact (Hcust eq_refl (Some userA))|].
  split; reflexivity.
Defined.

(** A caller who is not an administrator is refused by [payOrder], whatever
    identity they have. *)
Lemma payOrder_customer_refused lib orderId id (caller : option ObjectId)
    isAdmin w o :
  new_ObjectId orderId = Some id ->
  orders (db w) !! id = Some o ->
  truthy isAdmin = false ->
  orderService.payOrder lib orderId (toString <$> caller) isAdmin w
  = (Throw (new_ApiError "Access denied" 403), w).
Proof.
  intros Hid Ho Hadmin. rewrite payOrder_run, Hid, Ho. simpl.
  by rewrite (access_denied_caller _ _ _ _ Hadmin).
Qed.

(** C6, where the code departs from it.  The owner of an order that is
    [paid] is not told that it is paid: [payOrder] refuses the owner, who is
    not an administrator, with [Access denied], as it refuses every caller
    who is not an administrator.  The world is left as it was. *)
Theorem payOrder_refuses_owner lib orderId id isAdmin w o :
  new_ObjectId orderId = Some id ->
  orders (db w) !! id = Some o ->
  IOrder.status o = paid ->
  truthy isAdmin = false ->
  orderService.payOrder lib orderId (Some (toString (IOrder.userId o)))
                        isAdmin w
  = (Throw (new_ApiError "Access denied" 403), w).
Proof.
  intros Hid Ho _ Hadmin.
  exact (payOrder_customer_refused lib orderId id (Some (IOrder.userId o))
           isAdmin w o Hid Ho Hadmin).
Qed.

Lemma payOrder_refuses_owner_witness :
  orderService.payOrder lib0 order1_id (Some userA_id) (Some false)
                        (world_with paid)
  = (Throw (new_ApiError "Access denied" 403), world_with paid).
Proof.
  exact (payOrder_refuses_owner lib0 order1_id order1 (Some false)
           (world_with paid)
           (IOrder.mk userA [IOrderItem.mk itemA 3 500] 1500 paid)
           eq_refl eq_refl eq_refl eq_refl).
Defined.

(** C7, where the code departs from it.  The owner of a [cancelled] order
    who tries to pay it is refused with [Access denied], an [ApiError] of
    status 403, and not with the [ConflictError]: the access check comes
    first and refuses the owner.  The world is left as it was. *)
Theorem payOrder_cancelled_owner_refused lib orderId id isAdmin w o :
  new_ObjectId orderId = Some id ->
  orders (db w) !! id = Some o ->
  IOrder.status o = cancelled ->
  truthy isAdmin = false ->
  exists e,
    orderService.payOrder lib orderId (Some (toString (IOrder.userId o)))
                          isAdmin w
    = (Throw e, w)
    /\ cls e = ApiError /\ statusCode e = Some 403
    /\ e <> new_ConflictError "Cannot pay for a cancelled order".
Proof.
  intros Hid Ho _ Hadmin. exists (new_ApiError "Access denied" 403).
  split; [|done].
  exact (payOrder_customer_refused lib orderId id (Some (IOrder.userId o))
           isAdmin w o Hid Ho Hadmin).
Qed.

Lemma payOrder_cancelled_owner_refused_witness :
  exists e,
    orderService.payOrder lib0 order1_id (Some userA_id) None
                          (world_with cancelled)
    = (Throw e, world_with cancelled)
    /\ cls e = ApiError /\ statusCode e = Some 403
    /\ e <> new_ConflictError "Cannot pay for a cancelled order".
Proof.
  exact (payOrder_cancelled_owner_refused lib0 order1_id order1 None
           (world_with cancelled)
           (IOrder.mk userA [IOrderItem.mk itemA 3 500] 1500 cancelled)
           eq_refl eq_refl eq_refl eq_refl).
Defined.



(** ** The stock store *)




(** ** Lines that name the same product *)




(** ** The transaction coordinator, as a whole *)

Lemma failing_work_scoped : scoped failing_work.
Proof.
  intros d0 d1 d. unfold failing_work. unfold bind at 1.
  destruct (create_keeps_scope lib0
              (CreateOrderDto.mk userA_id [CreateOrderItemDto.mk itemA_id 3 500])
              d0 d1 d) as [d2 H1].
  destruct (orderRepository.create _ _ _ _) as [[order|e] w1];
    simpl in H1; subst w1; [|reflexivity].
  unfold bind at 1.
  destruct (updateProductStock_keeps_scope lib0 itemA_id (-3) d0 d1 d2)
    as [d3 H2].
  destruct (productService.updateProductStock _ _ _ _ _) as [[r|e] w2];
    simpl in H2; subst w2; reflexivity.
Qed.

(** The callback of [cancelOrder] writes within its scope: every write it
    issues carries the session. *)
Lemma cancelOrder_work_scoped lib orderId order :
  scoped (orderService.cancelOrder_work lib orderId order).
Proof.
  intros d0 d1 d. unfold orderService.cancelOrder_work. unfold bind at 1.
  assert (H1 : exists d2,
            (orderRepository.updateStatus lib orderId cancelled (Some Session)
               (mkWorld d0 (Some (mkTransaction d1 d)))).2
            = mkWorld d0 (Some (mkTransaction d1 d2))).
  { unfold orderRepository.updateStatus, view, write. simpl.
    destruct (new_ObjectId orderId) as [id|]; [|by exists d].
    destruct (orders d !! id); simpl; eauto. }
  destruct H1 as [d2 H1].
  destruct (orderRepository.updateStatus _ _ _ _ _) as [[r|e] w1];
    simpl in H1; subst w1; [|reflexivity].
  unfold bind at 1.
  assert (Hloop : keeps_scope
    (for_of (Populated.items order) (fun item =>
       match item.2 with
       | None => throw (new_TypeError lib "toString")
       | Some product =>
           productService.updateProductStock lib
             (Document_toString
                (inspect_product lib (IOrderItem.productId item.1, product)))
             (IOrderItem.quantity item.1) (Some Session) ;;;
           ret tt
       end))).
  { apply for_of_keeps_scope. intros [item [product|]] d0' d1' d'; simpl.
    - unfold bind, ret.
      destruct (updateProductStock_keeps_scope lib
                  (Document_toString
                     (inspect_product lib (IOrderItem.productId item, product)))
                  (IOrderItem.quantity item) d0' d1' d') as [d3 H3].
      destruct (productService.updateProductStock _ _ _ _ _) as [[r2|e2] w2];
        simpl in *; subst w2; eauto.
    - by exists d'. }
  destruct (Hloop d0 d1 d2) as [d3 H2].
  destruct (for_of _ _ _) as [[[]|e] w2]; simpl in H2; subst w2; reflexivity.
Qed.

(** C5. [withTransaction] runs the callback on a transaction that starts
    from the committed data.  When the callback returns, its result is
    returned and every write issued in the scope is committed: each document
    the transaction wrote is what the transaction made it, every other
    document is what it was in the committed data, and for a callback that
    wrote within its scope only, the committed data is what the transaction
    read at its end.  When the callback fails, the writes of the transaction
    are dropped and the very error it raised is raised again; for a callback
    that writes within its scope the world is then the one before the
    call. *)
Theorem withTransaction_commit_or_rollback {T}
    (work : ClientSession -> M T) w :
  match work Session (mkWorld (db w) (Some (mkTransaction (db w) (db w)))) with
  | (Ok result, w1) =>
      orderRepository.withTransaction work w
      = (Ok result, mkWorld (committed w1) None)
      /\ (forall t, txn w1 = Some t ->
            (forall id,
               products (committed w1) !! id
               = if decide (products (initial t) !! id
                            = products (current t) !! id)
                 then products (db w1) !! id
                 else products (current t) !! id)
            /\ (forall id,
                  orders (committed w1) !! id
                  = if decide (orders (initial t) !! id
                               = orders (current t) !! id)
                    then orders (db w1) !! id
                    else orders (current t) !! id))
      /\ (forall d, w1 = mkWorld (db w) (Some (mkTransaction (db w) d)) ->
            committed w1 = d)
  | (Throw error, w1) =>
      orderRepository.withTransaction work w
      = (Throw error, mkWorld (db w1) None)
      /\ (scoped work -> txn w = None ->
          orderRepository.withTransaction work w = (Throw error, w))
  end.
Proof.
  pose proof (withTransaction_unfold work w) as Hrun.
  destruct (work Session (mkWorld (db w) (Some (mkTransaction (db w) (db w)))))
    as [[result|error] w1] eqn:Hwork.
  - split; [done|]. split.
    + intros t Ht. unfold committed, publish. rewrite Ht. simpl.
      split; intros id; apply lookup_apply_written.
    + intros d ->. unfold committed. simpl. apply publish_initial.
  - split; [done|]. intros Hscoped Htxn. rewrite Hrun.
    specialize (Hscoped (db w) (db w) (db w)). rewrite Hwork in Hscoped.
    simpl in Hscoped. rewrite Hscoped. destruct w. simpl in *. by subst.
Qed.

Lemma withTransaction_commit_or_rollback_witness :
  (failing_work Session
     (mkWorld (db world0) (Some (mkTransaction (db world0) (db world0))))).1
  = Throw out_of_order
  /\ stock_of world0 itemA = Some 10
  /\ IProduct.stock
       <$> products
             (view (Some Session)
                (failing_work Session
                   (mkWorld (db world0)
                      (Some (mkTransaction (db world0) (db world0))))).2)
           !! itemA = Some 7
  /\ orderRepository.withTransaction failing_work world0
     = (Throw out_of_order, world0).
Proof.
  split; [reflexivity|]. split; [reflexivity|]. split; [reflexivity|].
  pose proof (withTransaction_commit_or_rollback failing_work world0) as H.
  destruct (failing_work Session
              (mkWorld (db world0)
                 (Some (mkTransaction (db world0) (db world0)))))
    as [[result|error] w1] eqn:Hwork.
  - vm_compute in Hwork. discriminate.
  - destruct H as [_ H]. rewrite (H failing_work_scoped eq_refl).
    vm_compute in Hwork. by injection Hwork as <- _.
Defined.

(** A callback that returns: the stock it wrote with the session is
    committed, and so is the stock it wrote without the session. *)
Example withTransaction_commits :
  let work := fun session =>
    (productService.updateProductStock lib0 itemB_id (-1) None ;;;
     productService.updateProductStock lib0 itemA_id (-3) (Some session) ;;;
     ret tt)%async in
  let w' := (orderRepository.withTransaction work world0).2 in
  (orderRepository.withTransaction work world0).1 = Ok tt
  /\ txn w' = None
  /\ stock_of w' itemA = Some 7
  /\ stock_of w' itemB = Some 1.
Proof. vm_compute. done. Qed.

(** ** Stock stays non-negative *)

Lemma accepted_quantity_le catalogue items id p :
  accepted catalogue items ->
  catalogue !! id = Some p ->
  0 <= IProduct.stock p ->
  quantity_for id (request_lines items) <= IProduct.stock p.
Proof.
  intros Hacc Hp Hstock.
  pose proof (accepted_NoDup_ids _ _ Hacc) as Hnd.
  destruct Hacc as (_ & _ & _ & Hs).
  destruct (decide (id ∈ (request_lines items).*1)) as [Hin|Hout].
  - apply list_elem_of_fmap in Hin as ([k q] & -> & Hkq). simpl in *.
    rewrite (quantity_for_NoDup k q) by done.
    apply elem_of_request_lines in Hkq as (x & Hx & Hid & <-).
    rewrite Forall_forall in Hs. destruct (Hs x Hx) as (i & p' & Hi & _ & Hp' & Hle).
    simplify_eq. done.
  - rewrite quantity_for_absent by done. done.
Qed.

Lemma adjust_stock_nonneg changes (m : gmap ObjectId IProduct.t) :
  map_Forall (fun _ p => 0 <= IProduct.stock p) m ->
  (forall id p, m !! id = Some p ->
                0 <= IProduct.stock p + quantity_for id changes) ->
  map_Forall (fun _ p => 0 <= IProduct.stock p) (adjust_stock changes m).
Proof.
  intros Hm Hq id p'. rewrite adjust_stock_lookup.
  destruct (m !! id) as [p|] eqn:Hp; simpl; [|done].
  intros [= <-]. simpl. by apply Hq.
Qed.

(** What one request does to the committed data: nothing; or, for a
    [createOrder] that succeeds, the quantities of an accepted request off
    the stock and one new order; or a new status for one stored order that
    is not cancelled, [paid] for an order that is [created], and [cancelled]
    for an order without lines. *)
Lemma serve_step lib r w :
  db (serve lib r w).2 = db w
  \/ (exists userId items u,
        r = Create userId items
        /\ new_ObjectId userId = Some u
        /\ accepted (products (db w)) items
        /\ db (serve lib r w).2
           = mkDb (adjust_stock (taken items) (products (db w)))
                  (<[fresh (dom (orders (db w)))
                     := order_of (products (db w)) u items]> (orders (db w))))
  \/ (exists id o s,
        orders (db w) !! id = Some o
        /\ IOrder.status o <> cancelled
        /\ (s = paid /\ IOrder.status o = created
            \/ s = cancelled /\ IOrder.items o = [])
        /\ db (serve lib r w).2
           = mkDb (products (db w)) (<[id := set_status s o]> (orders (db w)))).
Proof.
  destruct r as [userId items|orderId userId isAdmin|orderId userId isAdmin];
    simpl.
  - rewrite createOrder_run.
    destruct (precheck lib (products (db w)) items) as [[]|e] eqn:Hpre;
      [|by left].
    apply precheck_accepted in Hpre.
    destruct (new_ObjectId userId) as [u|] eqn:Hu; [|by left].
    simpl. destruct (orderRepository.valid _); [|by left].
    right. left. exists userId, items, u. done.
  - rewrite payOrder_run.
    destruct (new_ObjectId orderId) as [id|]; [|by left].
    destruct (orders (db w) !! id) as [o|] eqn:Ho; [|by left]. simpl.
    destruct (orderService.access_denied _ _ _ _); [by left|].
    destruct (IOrder.status o) eqn:Hs; [|by left|by left].
    right. right. exists id, o, paid. rewrite Hs. split; [done|].
    split; [done|]. split; [by left|done].
  - rewrite cancelOrder_run.
    destruct (new_ObjectId orderId) as [id|]; [|by left].
    destruct (orders (db w) !! id) as [o|] eqn:Ho; [|by left]. simpl.
    destruct (orderService.access_denied _ _ _ _); [by left|].
    destruct (IOrder.status o) eqn:Hs; [| |by left];
      (destruct (IOrder.items o) eqn:Hitems; [|by left]);
      right; right; exists id, o, cancelled; rewrite Hs;
      (split; [done|]); (split; [done|]); (split; [by right|done]).
Qed.

(** One request keeps the stock non-negative. *)
Lemma serve_invariant lib r w :
  stock_nonneg (db w) -> stock_nonneg (db (serve lib r w).2).
Proof.
  intros Hstock. unfold stock_nonneg.
  destruct (serve_step lib r w)
    as [->|[(userId & items & u & _ & _ & Hacc & ->)|(id & o & s & _ & _ & _ & ->)]];
    [done| |done].
  simpl. apply adjust_stock_nonneg; [done|]. intros id p Hp.
  rewrite quantity_for_taken.
  pose proof (accepted_quantity_le _ _ _ _ Hacc Hp (Hstock _ _ Hp)). lia.
Qed.

(** C2. From a store whose stock is non-negative, the stock of every product
    is non-negative after any sequence of [createOrder], [payOrder] and
    [cancelOrder] calls, each run to its end before the next. *)
Theorem stock_never_negative lib rs w :
  stock_nonneg (db w) ->
  forall id p, products (db (serve_all lib rs w)) !! id = Some p ->
               0 <= IProduct.stock p.
Proof.
  revert w. induction rs as [|r rs IH]; intros w Hstock; simpl.
  - exact Hstock.
  - exact (IH _ (serve_invariant lib r w Hstock)).
Qed.

Lemma stock_never_negative_witness :
  stock_nonneg (db world0)
  /\ stock_of (serve_all lib0 [Create userA_id [Item.mk itemA_id 3];
                               Cancel order0_id (Some userB_id) (Some true);
                               Create userB_id [Item.mk itemA_id 7];
                               Create userB_id [Item.mk itemA_id 1]] world0)
              itemA
     = Some 0
  /\ forall id p,
       products (db (serve_all lib0
                       [Create userA_id [Item.mk itemA_id 3];
                        Cancel order0_id (Some userB_id) (Some true);
                        Create userB_id [Item.mk itemA_id 7];
                        Create userB_id [Item.mk itemA_id 1]] world0))
         !! id = Some p ->
       0 <= IProduct.stock p.
Proof.
  assert (Hs : stock_nonneg (db world0)).
  { apply (bool_decide_unpack _). vm_compute. exact I. }
  split; [exact Hs|]. split; [vm_compute; reflexivity|].
  exact (stock_never_negative lib0 _ world0 Hs).
Defined.

(** ** The scenarios of the specification *)

(** Item A has stock 10 and price 500; an order for three of it has total
    1500 and leaves stock 7; an administrator pays it and no stock moves. *)
Example scenario_create :
  IOrder.total
    <$> orders (db (serve_all lib0 [Create userA_id [Item.mk itemA_id 3]] world0))
        !! order0 = Some 1500
  /\ status_of (serve_all lib0 [Create userA_id [Item.mk itemA_id 3]] world0)
               order0
     = Some created
  /\ stock_of (serve_all lib0 [Create userA_id [Item.mk itemA_id 3]] world0)
              itemA
     = Some 7.
Proof. vm_compute. done. Qed.

Example scenario_pay :
  status_of (serve_all lib0 [Create userA_id [Item.mk itemA_id 3];
                             Pay order0_id (Some userB_id) (Some true)] world0)
            order0
  = Some paid
  /\ stock_of (serve_all lib0 [Create userA_id [Item.mk itemA_id 3];
                               Pay order0_id (Some userB_id) (Some true)]
                         world0) itemA
     = Some 7.
Proof. vm_compute. done. Qed.

(** The owner who pays or cancels the order is refused, and an administrator
    who cancels it gets the [CastError] of the stock update: the order stays
    [paid] and the stock stays 7. *)
Example scenario_cancel :
  let w := serve_all lib0 [Create userA_id [Item.mk itemA_id 3];
                           Pay order0_id (Some userB_id) (Some true)] world0 in
  (orderService.payOrder lib0 order0_id (Some userA_id) (Some false) w).1
  = Throw (new_ApiError "Access denied" 403)
  /\ (orderService.cancelOrder lib0 order0_id (Some userA_id) (Some false) w).1
     = Throw (new_ApiError "Access denied" 403)
  /\ cls <$> (match (orderService.cancelOrder lib0 order0_id (Some userB_id)
                       (Some true) w).1 with
              | Throw e => Some e
              | Ok _ => None
              end) = Some CastError
  /\ status_of (serve_all lib0 [Cancel order0_id (Some userB_id) (Some true)] w)
               order0 = Some paid
  /\ stock_of (serve_all lib0 [Cancel order0_id (Some userB_id) (Some true)] w)
              itemA = Some 7.
Proof. vm_compute. done. Qed.

(** Item B has stock 2; an order for five of it is rejected, naming B, 2 and
    5, and the stock stays 2. *)
Example scenario_insufficient :
  orderService.createOrder lib0 userA_id [Item.mk itemB_id 5] world0
  = (Throw (new_ValidationError
              ("Insufficient stock for product " +:+ dq +:+ "B" +:+ dq
               +:+ ". Available: 2, Requested: 5")), world0)
  /\ stock_of world0 itemB = Some 2.
Proof. vm_compute. done. Qed.

(** An order for an unknown identity is rejected, naming it, and no order is
    stored. *)
Example scenario_unknown :
  orderService.createOrder lib0 userA_id [Item.mk itemZ_id 1] world0
  = (Throw (new_ValidationError ("Products not found: " +:+ itemZ_id)), world0)
  /\ orders (db world0) = ∅.
Proof. vm_compute. done. Qed.

(** Two lines for the same product: the lookup finds one document for two
    identities, and the request is rejected with no identity named. *)
Example scenario_duplicate :
  orderService.createOrder lib0 userA_id
    [Item.mk itemA_id 6; Item.mk itemA_id 6] world0
  = (Throw (new_ValidationError "Products not found: "), world0).
Proof. vm_compute. done. Qed.

(** A string that is no ObjectId, as a product and as the owner: the cast
    throws, before the transaction for the product and within it for the
    owner, and the world is as before. *)
Example scenario_not_an_id :
  orderService.createOrder lib0 userA_id [Item.mk not_an_id 1] world0
  = (Throw (new_BSONError lib0 not_an_id), world0)
  /\ orderService.createOrder lib0 not_an_id [Item.mk itemA_id 1] world0
     = (Throw (new_BSONError lib0 not_an_id), world0).
Proof. vm_compute. done. Qed.

(** A product stored with a negative price: the order fails the validators
    of [save] inside the transaction, and the world is as before. *)
Example scenario_save_rejected :
  let w := mkWorld (mkDb (<[itemA := IProduct.mk "A" (-500) 10]> ∅) ∅) None in
  (orderService.createOrder lib0 userA_id [Item.mk itemA_id 3] w).2 = w
  /\ cls <$> (match (orderService.createOrder lib0 userA_id
                       [Item.mk itemA_id 3] w).1 with
              | Throw e => Some e
              | Ok _ => None
              end) = Some MongooseValidationError.
Proof. vm_compute. done. Qed.

(** A status update outside a transaction is written at once; the same update
    with the session of an open transaction stays in its view. *)
Example updateStatus_scope :
  status_of (orderRepository.updateStatus lib0 order1_id paid None
               (world_with created)).2 order1 = Some paid
  /\ status_of (orderRepository.updateStatus lib0 order1_id paid (Some Session)
                  (mkWorld (db (world_with created))
                           (Some (mkTransaction (db (world_with created))
                                                (db (world_with created)))))).2
       order1
     = Some created.
Proof. vm_compute. done. Qed.

(** * Further properties of the order service *)

(** ** Requests in the canonical spelling *)



(** ** Paying, for a caller the access check lets through *)

(** X26. For a caller whom the access check lets through, paying an order
    that is already [paid] returns the order as it is with the message
    [Order is already paid] and leaves the world as it was.  So of two
    payments of a [created] order the first sets it to [paid] and the second
    is such a no-op. *)
Theorem payOrder_paid_is_noop lib orderId id userId isAdmin w o :
  new_ObjectId orderId = Some id ->
  orders (db w) !! id = Some o ->
  orderService.access_denied lib (orderRepository.populate (db w) (id, o))
                             userId isAdmin = false ->
  (IOrder.status o = paid ->
   orderService.payOrder lib orderId userId isAdmin w
   = (Ok (OrderResult.mk (Some (Found (orderRepository.populate (db w) (id, o))))
                         "Order is already paid"), w))
  /\ (IOrder.status o = created ->
      exists w1,
        orderService.payOrder lib orderId userId isAdmin w
        = (Ok (OrderResult.mk
                 (Some (Found (orderRepository.populate (db w)
                                 (id, set_status paid o))))
                 "Payment successful"), w1)
        /\ status_of w1 id = Some paid
        /\ products (db w1) = products (db w)
        /\ orderService.payOrder lib orderId userId isAdmin w1
           = (Ok (OrderResult.mk
                    (Some (Found (orderRepository.populate (db w)
                                    (id, set_status paid o))))
                    "Order is already paid"), w1)).
Proof.
  intros Hid Ho Hacc. split; intros Hs.
  - rewrite payOrder_run, Hid, Ho. simpl. rewrite Hacc, Hs. reflexivity.
  - eexists. split; [rewrite payOrder_run, Hid, Ho; simpl;
                     rewrite Hacc, Hs; reflexivity|].
    split; [unfold status_of; simpl; by rewrite lookup_insert_eq|].
    split; [reflexivity|].
    rewrite payOrder_run, Hid. simpl. rewrite lookup_insert_eq.
    unfold orderService.access_denied in *. simpl in *. rewrite Hacc.
    reflexivity.
Qed.

Lemma payOrder_paid_is_noop_witness :
  orderService.payOrder lib0 order1_id (Some userB_id) (Some true)
                        (world_with paid)
  = (Ok (OrderResult.mk
           (Some (Found (orderRepository.populate (db (world_with paid))
                           (order1,
                            IOrder.mk userA [IOrderItem.mk itemA 3 500] 1500
                                      paid))))
           "Order is already paid"), world_with paid).
Proof.
  exact (proj1 (payOrder_paid_is_noop lib0 order1_id order1 (Some userB_id)
                  (Some true) (world_with paid)
                  (IOrder.mk userA [IOrderItem.mk itemA 3 500] 1500 paid)
                  eq_refl eq_refl eq_refl) eq_refl).
Defined.

(** X27. For a caller whom the access check lets through, paying a
    [cancelled] order fails with the [ConflictError]
    [Cannot pay for a cancelled order] and leaves the world, orders and
    stock, as it was, however many times it is tried. *)
Theorem payOrder_cancelled_is_conflict lib orderId id userId isAdmin w o n :
  new_ObjectId orderId = Some id ->
  orders (db w) !! id = Some o ->
  IOrder.status o = cancelled ->
  orderService.access_denied lib (orderRepository.populate (db w) (id, o))
                             userId isAdmin = false ->
  retry_pay lib orderId userId isAdmin n w = w
  /\ orderService.payOrder lib orderId userId isAdmin
       (retry_pay lib orderId userId isAdmin n w)
     = (Throw (new_ConflictError "Cannot pay for a cancelled order"),
        retry_pay lib orderId userId isAdmin n w).
Proof.
  intros Hid Ho Hs Hacc.
  assert (Hpay : orderService.payOrder lib orderId userId isAdmin w
                 = (Throw (new_ConflictError "Cannot pay for a cancelled order"),
                    w)).
  { rewrite payOrder_run, Hid, Ho. simpl. rewrite Hacc, Hs. reflexivity. }
  assert (Hn : retry_pay lib orderId userId isAdmin n w = w).
  { unfold retry_pay. induction n as [|n IH]; simpl; [done|].
    by rewrite IH, Hpay. }
  by rewrite Hn.
Qed.

Lemma payOrder_cancelled_is_conflict_witness :
  retry_pay lib0 order1_id (Some userB_id) (Some true) 3 (world_with cancelled)
  = world_with cancelled
  /\ orderService.payOrder lib0 order1_id (Some userB_id) (Some true)
       (retry_pay lib0 order1_id (Some userB_id) (Some true) 3
                  (world_with cancelled))
     = (Throw (new_ConflictError "Cannot pay for a cancelled order"),
        retry_pay lib0 order1_id (Some userB_id) (Some true) 3
                  (world_with cancelled)).
Proof.
  exact (payOrder_cancelled_is_conflict lib0 order1_id order1 (Some userB_id)
           (Some true) (world_with cancelled)
           (IOrder.mk userA [IOrderItem.mk itemA 3 500] 1500 cancelled) 3
           eq_refl eq_refl eq_refl eq_refl).
Defined.

(** ** Reading an order *)




(** X2. For a string that is an ObjectId, in any spelling, and names no
    order, [payOrder] and [cancelOrder] fail with the [ApiError]
    [Order not found] of status 404 and [getOrderById] returns [null]; for a
    string that is no ObjectId all three fail with the [CastError] of the
    query.  None of the three writes anything. *)
Theorem order_not_found lib orderId userId isAdmin w :
  (forall id, new_ObjectId orderId = Some id -> orders (db w) !! id = None ->
     orderService.payOrder lib orderId userId isAdmin w
     = (Throw (new_ApiError "Order not found" 404), w)
     /\ orderService.cancelOrder lib orderId userId isAdmin w
        = (Throw (new_ApiError "Order not found" 404), w)
     /\ orderService.getOrderById lib orderId userId isAdmin w = (Ok None, w))
  /\ (new_ObjectId orderId = None ->
      orderService.payOrder lib orderId userId isAdmin w
      = (Throw (new_CastError lib "Order" orderId), w)
      /\ orderService.cancelOrder lib orderId userId isAdmin w
         = (Throw (new_CastError lib "Order" orderId), w)
      /\ orderService.getOrderById lib orderId userId isAdmin w
         = (Throw (new_CastError lib "Order" orderId), w)).
Proof.
  rewrite payOrder_run, cancelOrder_run, getOrderById_run. split.
  - intros id Hid Ho. by rewrite Hid, Ho.
  - intros Hid. by rewrite Hid.
Qed.

Lemma order_not_found_witness :
  (orderService.payOrder lib0 order1_id (Some userA_id) (Some true) world0
   = (Throw (new_ApiError "Order not found" 404), world0)
   /\ orderService.cancelOrder lib0 order1_id (Some userA_id) (Some true) world0
      = (Throw (new_ApiError "Order not found" 404), world0)
   /\ orderService.getOrderById lib0 order1_id (Some userA_id) (Some true) world0
      = (Ok None, world0))
  /\ orderService.payOrder lib0 not_an_id (Some userA_id) (Some true) world0
     = (Throw (new_CastError lib0 "Order" not_an_id), world0).
Proof.
  split.
  - exact (proj1 (order_not_found lib0 order1_id (Some userA_id) (Some true)
                    world0) order1 eq_refl eq_refl).
  - exact (proj1 (proj2 (order_not_found lib0 not_an_id (Some userA_id)
                           (Some true) world0) eq_refl)).
Defined.

(** ** Cancelling twice, paying without stock *)

(** X3. [cancelOrder] succeeds only for an order that is cancelled already
    or has no line, and it is idempotent: after a cancellation that
    succeeded, the same call succeeds again, returns the same cancelled
    order with the message [Order is already cancelled], and leaves the
    world as the first call left it.  A cancellation that succeeds moves no
    stock. *)
Theorem cancelOrder_idempotent lib orderId userId isAdmin w r w1 :
  orderService.cancelOrder lib orderId userId isAdmin w = (Ok r, w1) ->
  (exists id o,
     new_ObjectId orderId = Some id
     /\ orders (db w) !! id = Some o
     /\ (IOrder.status o = cancelled \/ IOrder.items o = []))
  /\ exists order,
       OrderResult.order r = Some (Found order)
       /\ Populated.status order = cancelled
       /\ products (db w1) = products (db w)
       /\ orderService.cancelOrder lib orderId userId isAdmin w1
          = (Ok (OrderResult.mk (Some (Found order))
                                "Order is already cancelled"),
             w1).
Proof.
  rewrite cancelOrder_run.
  destruct (new_ObjectId orderId) as [id|] eqn:Hid; [|discriminate].
  destruct (orders (db w) !! id) as [o|] eqn:Ho; [|discriminate]. simpl.
  destruct (orderService.access_denied lib _ userId isAdmin) eqn:Hacc;
    [discriminate|].
  intros Hrun. split.
  { exists id, o. split; [done|]. split; [done|].
    destruct (IOrder.status o); [| |by left];
      (destruct (IOrder.items o); [by right|discriminate]). }
  revert Hrun.
  assert (Hnew : IOrder.items o = [] -> forall w2,
            db w2 = mkDb (products (db w))
                         (<[id := set_status cancelled o]> (orders (db w))) ->
            orderService.cancelOrder lib orderId userId isAdmin w2
            = (Ok (OrderResult.mk
                     (Some (Found (orderRepository.populate (db w)
                                     (id, set_status cancelled o))))
                     "Order is already cancelled"), w2)).
  { intros Hitems w2 Hw2. rewrite cancelOrder_run, Hid, Hw2. simpl.
    rewrite lookup_insert_eq.
    unfold orderService.access_denied in *. simpl in *. rewrite Hacc.
    unfold orderRepository.populate. simpl. by rewrite Hitems. }
  destruct (IOrder.status o) eqn:Hs.
  - destruct (IOrder.items o) as [|item rest] eqn:Hitems; [|discriminate].
    intros [= <- <-]. eexists. split; [done|]. split; [done|]. split; [done|].
    by apply Hnew.
  - destruct (IOrder.items o) as [|item rest] eqn:Hitems; [|discriminate].
    intros [= <- <-]. eexists. split; [done|]. split; [done|]. split; [done|].
    by apply Hnew.
  - intros [= <- <-]. eexists. split; [done|]. split; [done|]. split; [done|].
    rewrite cancelOrder_run, Hid, Ho. simpl. by rewrite Hacc, Hs.
Qed.

Lemma cancelOrder_idempotent_witness :
  exists r,
    orderService.cancelOrder lib0 order1_id (Some userB_id) (Some true)
                             (world_with cancelled)
    = (Ok r, world_with cancelled)
    /\ OrderResult.message r = "Order is already cancelled"
    /\ stock_of (world_with cancelled) itemA = Some 10.
Proof.
  destruct (orderService.cancelOrder lib0 order1_id (Some userB_id) (Some true)
              (world_with cancelled)) as [[r|e] w1] eqn:E;
    [|vm_compute in E; discriminate].
  destruct (cancelOrder_idempotent _ _ _ _ _ _ _ E)
    as (_ & order & _ & _ & _ & H2).
  assert (Hw : w1 = world_with cancelled)
    by (vm_compute in E; by injection E as _ <-).
  subst w1. exists r. split; [reflexivity|]. split; [|reflexivity].
  rewrite E in H2. by injection H2 as ->.
Defined.

(** X4. [payOrder] moves no stock and touches no other order: when it
    succeeds the order is [paid] in the new world, the products are those of
    the old one and so is every other order; when it fails the world is the
    old one. *)
Theorem payOrder_moves_no_stock lib orderId userId isAdmin w out w' :
  orderService.payOrder lib orderId userId isAdmin w = (out, w') ->
  products (db w') = products (db w)
  /\ (forall id, new_ObjectId orderId <> Some id ->
                 orders (db w') !! id = orders (db w) !! id)
  /\ match out with
     | Ok _ => exists id, new_ObjectId orderId = Some id
                          /\ status_of w' id = Some paid
     | Throw _ => w' = w
     end.
Proof.
  rewrite payOrder_run.
  destruct (new_ObjectId orderId) as [id|] eqn:Hid; [|by intros [= <- <-]].
  destruct (orders (db w) !! id) as [o|] eqn:Ho; [|by intros [= <- <-]]. simpl.
  destruct (orderService.access_denied _ _ _ _); [by intros [= <- <-]|].
  destruct (IOrder.status o) eqn:Hs; intros [= <- <-]; simpl.
  - split; [done|]. split.
    + intros id' Hne. rewrite lookup_insert_ne; [done|congruence].
    + exists id. split; [done|]. unfold status_of. simpl.
      by rewrite lookup_insert_eq.
  - split; [done|]. split; [done|]. exists id. split; [done|].
    unfold status_of. by rewrite Ho, <- Hs.
  - done.
Qed.

Lemma payOrder_moves_no_stock_witness :
  products (db (orderService.payOrder lib0 order1_id (Some userB_id) (Some true)
                  (world_with created)).2)
  = products (db (world_with created))
  /\ status_of (orderService.payOrder lib0 order1_id (Some userB_id) (Some true)
                  (world_with created)).2 order1 = Some paid.
Proof.
  destruct (orderService.payOrder lib0 order1_id (Some userB_id) (Some true)
              (world_with created)) as [out w'] eqn:E.
  destruct (payOrder_moves_no_stock _ _ _ _ _ _ _ E) as (Hp & _ & Hs).
  split; [exact Hp|]. destruct out as [r|e]; [|vm_compute in E; discriminate].
  destruct Hs as (id & Hid & Hst).
  assert (id = order1) as -> by (vm_compute in Hid; by injection Hid as <-).
  exact Hst.
Defined.

(** ** The lifecycle over any sequence of requests *)

Lemma set_status_same o : set_status (IOrder.status o) o = o.
Proof. by destruct o. Qed.

Lemma serve_all_cons lib r rs w :
  serve_all lib (r :: rs) w = serve_all lib rs (serve lib r w).2.
Proof. reflexivity. Qed.

(** One request leaves a stored order stored, with its owner, lines and
    total, and moves its status forward if at all. *)
Lemma serve_order lib r w id o :
  orders (db w) !! id = Some o ->
  exists s, orders (db (serve lib r w).2) !! id = Some (set_status s o)
            /\ (status_rank (IOrder.status o) <= status_rank s)%nat.
Proof.
  intros Ho.
  destruct (serve_step lib r w)
    as [->|[(userId & items & u & _ & _ & _ & ->)
           |(id' & o' & s & Ho' & Hs & Hcase & ->)]]; simpl.
  - exists (IOrder.status o). by rewrite set_status_same.
  - exists (IOrder.status o). rewrite set_status_same. split; [|done].
    rewrite lookup_insert_ne; [done|].
    intros Heq. rewrite <- Heq, fresh_order_id in Ho. discriminate.
  - destruct (decide (id' = id)) as [->|Hne].
    + exists s. rewrite lookup_insert_eq. simplify_eq. split; [done|].
      destruct Hcase as [[-> ->]|[-> _]]; simpl; [lia|].
      destruct (IOrder.status o); simpl; lia.
    + exists (IOrder.status o). rewrite set_status_same.
      by rewrite lookup_insert_ne.
Qed.

(** X5. Whatever requests follow, a stored order stays stored with its
    owner, its lines and its total, and its status only moves forward along
    [created], [paid], [cancelled]: a paid order is never [created] again and
    a cancelled order stays cancelled. *)
Theorem order_status_only_advances lib rs w id o :
  orders (db w) !! id = Some o ->
  exists s,
    orders (db (serve_all lib rs w)) !! id = Some (set_status s o)
    /\ (status_rank (IOrder.status o) <= status_rank s)%nat
    /\ (IOrder.status o = cancelled -> s = cancelled).
Proof.
  revert w o. induction rs as [|r rs IH]; intros w o Ho.
  - exists (IOrder.status o). rewrite set_status_same. done.
  - rewrite serve_all_cons.
    destruct (serve_order lib r w id o Ho) as (s1 & H1 & Hr1).
    destruct (IH _ _ H1) as (s & Hs & Hr & _).
    exists s. split; [exact Hs|]. simpl in Hr. split; [lia|].
    intros Hc. rewrite Hc in Hr1. simpl in Hr1.
    destruct s1, s; simpl in *; try lia; done.
Qed.

Lemma order_status_only_advances_witness :
  status_of (serve_all lib0 [Pay order1_id (Some userB_id) (Some true);
                             Cancel order1_id (Some userB_id) (Some true);
                             Pay order1_upper (Some userA_id) None;
                             Create userB_id [Item.mk itemA_id 1]]
                       (world_with cancelled)) order1
  = Some cancelled.
Proof.
  destruct (order_status_only_advances lib0
              [Pay order1_id (Some userB_id) (Some true);
               Cancel order1_id (Some userB_id) (Some true);
               Pay order1_upper (Some userA_id) None;
               Create userB_id [Item.mk itemA_id 1]]
              (world_with cancelled) order1
              (IOrder.mk userA [IOrderItem.mk itemA 3 500] 1500 cancelled)
              eq_refl) as (s & Hs & _ & Hc).
  unfold status_of. rewrite Hs. simpl. by rewrite (Hc eq_refl).
Defined.

(** One request leaves the catalogue what it was, stock apart. *)
Lemma serve_listing lib r w p :
  listing <$> products (db (serve lib r w).2) !! p
  = listing <$> products (db w) !! p.
Proof.
  destruct (serve_step lib r w)
    as [->|[(userId & items & u & _ & _ & _ & ->)
           |(id' & o' & s & _ & _ & _ & ->)]]; simpl; [done| |done].
  rewrite adjust_stock_lookup. by destruct (products (db w) !! p).
Qed.

(** X6. No sequence of order requests adds a product to the catalogue,
    removes one, or changes a name or a price: only stock moves. *)
Theorem catalogue_unchanged_by_orders lib rs w p :
  listing <$> products (db (serve_all lib rs w)) !! p
  = listing <$> products (db w) !! p.
Proof.
  revert w. induction rs as [|r rs IH]; intros w; [done|].
  rewrite serve_all_cons, IH. apply serve_listing.
Qed.

Lemma catalogue_unchanged_by_orders_witness :
  listing <$> products (db (serve_all lib0
                              [Create userA_id [Item.mk itemA_id 3];
                               Pay order0_id (Some userB_id) (Some true);
                               Cancel order0_id (Some userB_id) (Some true)]
                              world0)) !! itemA
  = Some ("A", 500)
  /\ listing <$> products (db (serve_all lib0
                                 [Create userA_id [Item.mk itemA_id 3];
                                  Pay order0_id (Some userB_id) (Some true);
                                  Cancel order0_id (Some userB_id) (Some true)]
                                 world0)) !! itemZ
     = None.
Proof.
  split.
  - exact (catalogue_unchanged_by_orders lib0 _ world0 itemA).
  - exact (catalogue_unchanged_by_orders lib0 _ world0 itemZ).
Defined.

(** ** Conservation of stock *)

Lemma reserved_fold_insert p (m : gmap ObjectId IOrder.t) id o :
  m !! id = None ->
  map_fold (fun _ o acc => acc + held p o) 0 (<[id := o]> m)
  = map_fold (fun _ o acc => acc + held p o) 0 m + held p o.
Proof.
  intros Hid. rewrite map_fold_insert_L; [done| |done].
  intros. lia.
Qed.

Lemma reserved_fold_replace p (m : gmap ObjectId IOrder.t) id o o' :
  m !! id = Some o ->
  map_fold (fun _ o acc => acc + held p o) 0 (<[id := o']> m)
  = map_fold (fun _ o acc => acc + held p o) 0 m - held p o + held p o'.
Proof.
  intros Hid.
  rewrite <- (insert_delete_eq m id o'),
    reserved_fold_insert by apply lookup_delete_eq.
  rewrite (map_fold_delete_L _ _ id o m); [lia| |done].
  intros. lia.
Qed.

Lemma stored_lines_request_lines m items :
  order_lines (stored_lines m items) = request_lines items.
Proof.
  unfold order_lines, stored_lines, request_lines.
  induction items as [|x l IH]; [done|]. cbn [omap list_omap].
  destruct (new_ObjectId (Item.productId x)) as [id|]; simpl; [|exact IH].
  f_equal. exact IH.
Qed.

(** One request keeps, for every product, stock plus held quantity. *)
Lemma serve_conserves lib r w p prod :
  products (db w) !! p = Some prod ->
  exists prod',
    products (db (serve lib r w).2) !! p = Some prod'
    /\ IProduct.stock prod' + reserved p (db (serve lib r w).2)
       = IProduct.stock prod + reserved p (db w).
Proof.
  intros Hp.
  destruct (serve_step lib r w)
    as [->|[(userId & items & u & _ & _ & _ & ->)
           |(id & o & s & Ho & Hs & Hcase & ->)]]; simpl.
  - eauto.
  - eexists. rewrite adjust_stock_lookup, Hp. simpl. split; [done|].
    unfold reserved. simpl. rewrite reserved_fold_insert by apply fresh_order_id.
    unfold held at 2. simpl.
    rewrite stored_lines_request_lines, quantity_for_taken. lia.
  - exists prod. split; [done|]. unfold reserved. simpl.
    rewrite (reserved_fold_replace _ _ _ _ _ Ho).
    unfold held. simpl. rewrite (bool_decide_eq_false_2 _ Hs).
    destruct Hcase as [[-> _]|[-> Hitems]].
    + rewrite bool_decide_eq_false_2 by done. lia.
    + rewrite bool_decide_eq_true_2 by done. rewrite Hitems. simpl. lia.
Qed.

(** X7. Stock is conserved.  For every product, its stock plus the quantity
    held for it by the orders that are not cancelled is the same after any
    sequence of requests as before: creating an order moves quantity from the
    stock to the order, and nothing else moves any. *)
Theorem stock_conserved lib rs w p prod :
  products (db w) !! p = Some prod ->
  exists prod',
    products (db (serve_all lib rs w)) !! p = Some prod'
    /\ IProduct.stock prod' + reserved p (db (serve_all lib rs w))
       = IProduct.stock prod + reserved p (db w).
Proof.
  revert w prod. induction rs as [|r rs IH]; intros w prod Hp; [eauto|].
  rewrite serve_all_cons.
  destruct (serve_conserves lib r w p prod Hp) as (prod1 & Hp1 & H1).
  destruct (IH _ _ Hp1) as (prod' & Hp' & H').
  exists prod'. split; [done|]. lia.
Qed.

Lemma stock_conserved_witness :
  products (db world0) !! itemA = Some (IProduct.mk "A" 500 10)
  /\ exists prod',
       products (db (serve_all lib0
                       [Create userA_id [Item.mk itemA_id 4];
                        Create userB_id [Item.mk itemA_id 5; Item.mk itemB_id 2];
                        Pay order0_id (Some userB_id) (Some true);
                        Cancel order0_id (Some userB_id) (Some true)] world0))
         !! itemA = Some prod'
       /\ IProduct.stock prod'
          + reserved itemA
              (db (serve_all lib0
                     [Create userA_id [Item.mk itemA_id 4];
                      Create userB_id [Item.mk itemA_id 5; Item.mk itemB_id 2];
                      Pay order0_id (Some userB_id) (Some true);
                      Cancel order0_id (Some userB_id) (Some true)] world0))
          = 10 + reserved itemA (db world0).
Proof.
  split; [reflexivity|].
  exact (stock_conserved lib0
           [Create userA_id [Item.mk itemA_id 4];
            Create userB_id [Item.mk itemA_id 5; Item.mk itemB_id 2];
            Pay order0_id (Some userB_id) (Some true);
            Cancel order0_id (Some userB_id) (Some true)] world0 itemA
           (IProduct.mk "A" 500 10) eq_refl).
Defined.

(** Ten of item A: after an order for four, an order for five, the payment
    of the first and its cancellation, which fails, one is in stock and nine
    are held. *)
Example scenario_conserved :
  let w := serve_all lib0
             [Create userA_id [Item.mk itemA_id 4];
              Create userB_id [Item.mk itemA_id 5; Item.mk itemB_id 2];
              Pay order0_id (Some userB_id) (Some true);
              Cancel order0_id (Some userB_id) (Some true)] world0 in
  stock_of world0 itemA = Some 10 /\ reserved itemA (db world0) = 0
  /\ stock_of w itemA = Some 1 /\ reserved itemA (db w) = 9.
Proof. vm_compute. done. Qed.

(** * Further properties of the repositories *)

(** ** The catalogue lookup, in full *)

Lemma ObjectIds_of_run lib ids w :
  (exists objectIds,
     mapM new_ObjectId ids = Some objectIds
     /\ map_of ids (ObjectId_of lib) w = (Ok objectIds, w))
  \/ (mapM new_ObjectId ids = None
      /\ exists id, id ∈ ids /\ new_ObjectId id = None
                    /\ map_of ids (ObjectId_of lib) w
                       = (Throw (new_BSONError lib id), w)).
Proof.
  induction ids as [|x l IH]; [left; by exists []|].
  assert (Hhead : map_of (x :: l) (ObjectId_of lib) w
            = match new_ObjectId x with
              | Some id =>
                  match map_of l (ObjectId_of lib) w with
                  | (Ok ys, w') => (Ok (id :: ys), w')
                  | (Throw e, w') => (Throw e, w')
                  end
              | None => (Throw (new_BSONError lib x), w)
              end).
  { cbn [map_of]. unfold bind. rewrite ObjectId_of_run.
    destruct (new_ObjectId x); [|done].
    by destruct (map_of l (ObjectId_of lib) w) as [[ys|e] w']. }
  rewrite Hhead. clear Hhead.
  destruct (new_ObjectId x) as [id|] eqn:Hx.
  - destruct IH as [(oids & Hm & Hrun)|(Hm & y & Hy & Hnone & Hrun)].
    + left. exists (id :: oids). split.
      * rewrite mapM_Some in Hm |- *. by constructor.
      * by rewrite Hrun.
    + right. split.
      * destruct (mapM new_ObjectId (x :: l)) as [k|] eqn:Hk; [|done].
        apply mapM_Some in Hk. inversion Hk as [|? z ? ks ? Hrest]; subst.
        apply mapM_Some in Hrest. congruence.
      * exists y. split; [by right|]. split; [done|]. by rewrite Hrun.
  - right. split.
    + destruct (mapM new_ObjectId (x :: l)) as [k|] eqn:Hk; [|done].
      apply mapM_Some in Hk. inversion Hk; subst. congruence.
    + exists x. split; [by left|]. done.
Qed.

(** X8. [findByIds] casts the strings it is given: for strings that are
    ObjectIds, in any spelling, it returns each product that is asked for and
    exists, once, and nothing else; it returns as many documents as strings
    were given exactly when the identities are pairwise distinct and every
    one of them names a product.  For a string that is no ObjectId it fails
    with the [BSONError] of the cast.  It never writes. *)
Theorem findByIds_exact lib ids w :
  (forall objectIds, mapM new_ObjectId ids = Some objectIds ->
     exists found,
       productRepository.findByIds lib ids w = (Ok found, w)
       /\ NoDup found.*1
       /\ (forall id p, (id, p) ∈ found
                        <-> id ∈ objectIds /\ products (db w) !! id = Some p)
       /\ (length found <= length ids)%nat
       /\ (length found = length ids
           <-> NoDup objectIds
               /\ forall id, id ∈ objectIds -> is_Some (products (db w) !! id)))
  /\ (mapM new_ObjectId ids = None ->
      exists id, id ∈ ids /\ new_ObjectId id = None
                 /\ productRepository.findByIds lib ids w
                    = (Throw (new_BSONError lib id), w)).
Proof.
  unfold productRepository.findByIds.
  destruct (ObjectIds_of_run lib ids w)
    as [(oids & Hm & Hrun)|(Hm & y & Hy & Hnone & Hrun)].
  - split; [|congruence]. intros objectIds Hm'.
    assert (objectIds = oids) as -> by congruence.
    assert (Hlen : length oids = length ids).
    { apply mapM_Some, Forall2_length in Hm. done. }
    unfold bind at 1. rewrite Hrun.
    eexists. split; [reflexivity|].
    set (found := map_to_list (filter (fun kv : ObjectId * IProduct.t =>
                                         kv.1 ∈ oids) (products (db w)))).
    assert (Hnd : NoDup found.*1) by apply NoDup_fst_map_to_list.
    assert (Hsub : found.*1 ⊆+ oids).
    { apply NoDup_submseteq; [done|]. intros k Hk.
      by apply found_keys in Hk as [? _]. }
    split; [done|]. split; [|split].
    + intros id p. unfold found. rewrite elem_of_map_to_list.
      rewrite map_lookup_filter_Some. simpl. tauto.
    + apply submseteq_length in Hsub. rewrite length_fmap in Hsub.
      etrans; [exact Hsub|]. apply Nat.eq_le_incl. exact Hlen.
    + rewrite <- Hlen. split; [apply found_all|].
      intros [Hids Hall]. by apply found_all_length.
  - split; [congruence|]. intros _. exists y. split; [done|]. split; [done|].
    unfold bind at 1. by rewrite Hrun.
Qed.

Lemma findByIds_exact_witness :
  (exists found,
     productRepository.findByIds lib0 [itemA_upper; itemB_id; itemZ_id] world0
     = (Ok found, world0)
     /\ found.*1 ≡ₚ [itemA; itemB])
  /\ exists id, id ∈ [itemA_id; not_an_id]
                /\ productRepository.findByIds lib0 [itemA_id; not_an_id] world0
                   = (Throw (new_BSONError lib0 id), world0).
Proof.
  split.
  - destruct (proj1 (findByIds_exact lib0 [itemA_upper; itemB_id; itemZ_id]
                       world0) [itemA; itemB; itemZ] eq_refl)
      as (found & Hf & _).
    exists found. split; [exact Hf|].
    vm_compute in Hf. injection Hf as <-.
    apply (bool_decide_unpack _). vm_compute. exact I.
  - destruct (proj2 (findByIds_exact lib0 [itemA_id; not_an_id] world0) eq_refl)
      as (id & Hid & _ & Hf).
    exists id. done.
Defined.

(** ** Stock updates compose *)

Lemma write_view session d w : view session (write session d w) = d.
Proof. unfold view, write. by destruct session, (txn w). Qed.

Lemma write_write session d d' w :
  write session d' (write session d w) = write session d' w.
Proof. unfold write. by destruct session, (txn w). Qed.

Lemma write_same session w : write session (view session w) w = w.
Proof. unfold write, view. destruct w as [d [[d1 d2]|]], session; done. Qed.

(** X9. Two stock updates of a product, issued in the same scope, amount to
    one update by the sum of the two changes; so an update followed by the
    opposite update leaves the world as it was.  The product may be named in
    any spelling of its identity. *)
Theorem updateStock_composes lib productId id a b session w p :
  new_ObjectId productId = Some id ->
  products (view session w) !! id = Some p ->
  let w1 := (productRepository.updateStock lib productId a session w).2 in
  productRepository.updateStock lib productId b session w1
  = productRepository.updateStock lib productId (a + b) session w
  /\ (b = - a ->
      productRepository.updateStock lib productId b session w1
      = (Ok (Some (id, p)), w)).
Proof.
  intros Hid Hp w1.
  assert (H1 : productRepository.updateStock lib productId b session w1
               = productRepository.updateStock lib productId (a + b) session w).
  { unfold w1, productRepository.updateStock. rewrite Hid, Hp. simpl.
    rewrite write_view. simpl. rewrite lookup_insert_eq, write_write. simpl.
    rewrite insert_insert_eq. by rewrite Z.add_assoc. }
  split; [exact H1|]. intros ->. rewrite H1.
  unfold productRepository.updateStock. rewrite Hid, Hp.
  replace (a + - a) with 0 by lia.
  change (IProduct.mk (IProduct.name p) (IProduct.price p)
                      (IProduct.stock p + 0)) with (add_stock 0 p).
  rewrite add_stock_0, (insert_id _ _ _ Hp).
  replace (mkDb (products (view session w)) (orders (view session w)))
    with (view session w) by by destruct (view session w).
  by rewrite write_same.
Qed.

Lemma updateStock_composes_witness :
  productRepository.updateStock lib0 itemA_id 3
    None (productRepository.updateStock lib0 itemA_id (-3) None world0).2
  = (Ok (Some (itemA, IProduct.mk "A" 500 10)), world0).
Proof.
  destruct (updateStock_composes lib0 itemA_id itemA (-3) 3 None world0
              (IProduct.mk "A" 500 10) eq_refl eq_refl) as [_ H].
  exact (H eq_refl).
Defined.

(** ** Storing and finding an order *)

Lemma cast_lines_throw lib items e :
  cast_lines lib items = Throw e -> cls e = BSONError.
Proof.
  induction items as [|x l IH]; simpl; [done|].
  destruct (new_ObjectId _); [|by intros [= <-]].
  destruct (cast_lines lib l); [done|]. intros [= <-]. by apply IH.
Qed.

(** X10. [create] stores only what the order schema admits.  When it
    succeeds, the owner and the products of the lines are the identities the
    strings spell, the order passes the validators, is in status [created],
    has as total the sum over its lines, and sits under an identity that
    named no order before, so that no stored order is overwritten; written
    without a session it is what [findById] then returns.  When it fails,
    the failure is the [BSONError] of a string that is no ObjectId or the
    validation failure of [save], and nothing is written. *)
Theorem create_stores_valid_orders lib data session w :
  match orderRepository.create lib data session w with
  | (Ok (id, o), w') =>
      orderRepository.valid o = true
      /\ IOrder.status o = created
      /\ new_ObjectId (CreateOrderDto.userId data) = Some (IOrder.userId o)
      /\ cast_lines lib (CreateOrderDto.items data) = Ok (IOrder.items o)
      /\ IOrder.total o = sum_lines (IOrder.items o)
      /\ orders (view session w) !! id = None
      /\ view session w'
         = mkDb (products (view session w))
                (<[id := o]> (orders (view session w)))
      /\ (session = None ->
          forall s, new_ObjectId s = Some id ->
            orderRepository.findById lib s w'
            = (Ok (Some (orderRepository.populate (db w') (id, o))), w'))
      /\ (session = None ->
          forall s id' o', new_ObjectId s = Some id' ->
            orders (db w) !! id' = Some o' ->
            orderRepository.findById lib s w'
            = (Ok (Some (orderRepository.populate (db w') (id', o'))), w'))
  | (Throw e, w') =>
      w' = w
      /\ (cls e = BSONError /\ new_Order lib data = Throw e
          \/ exists o, new_Order lib data = Ok o
                       /\ orderRepository.valid o = false
                       /\ e = new_MongooseValidationError lib o)
  end.
Proof.
  rewrite create_run.
  destruct (new_Order lib data) as [o|e] eqn:Hnew.
  2:{ split; [done|]. left. split; [|done].
      unfold new_Order in Hnew.
      destruct (new_ObjectId (CreateOrderDto.userId data)); [|by injection Hnew as <-].
      destruct (cast_lines lib (CreateOrderDto.items data)) eqn:Hc; [done|].
      injection Hnew as <-. by apply cast_lines_throw in Hc. }
  destruct (orderRepository.valid o) eqn:Hvalid; [|split; [done|right; eauto]].
  unfold new_Order in Hnew.
  destruct (new_ObjectId (CreateOrderDto.userId data)) as [u|] eqn:Hu; [|done].
  destruct (cast_lines lib (CreateOrderDto.items data)) as [ls|] eqn:Hls; [|done].
  injection Hnew as <-. simpl.
  split; [done|]. split; [done|]. split; [done|]. split; [done|].
  split; [exact (order_total_sum lib _ _ Hls)|].
  split; [apply fresh_order_id|]. split; [by rewrite write_view|].
  split.
  - intros -> s Hs. unfold orderRepository.findById, view, write. simpl.
    by rewrite Hs, lookup_insert_eq.
  - intros -> s id' o' Hs Ho'. unfold orderRepository.findById, view, write.
    simpl. rewrite Hs, lookup_insert_ne; [by rewrite Ho'|].
    intros Heq. unfold view in Heq. simpl in Heq.
    rewrite <- Heq, fresh_order_id in Ho'. discriminate.
Qed.

Lemma create_stores_valid_orders_witness :
  cls <$> (match (orderRepository.create lib0
                    (CreateOrderDto.mk userA_id
                       [CreateOrderItemDto.mk itemA_id 0 500]) None world0).1 with
           | Throw e => Some e
           | Ok _ => None
           end) = Some MongooseValidationError
  /\ exists id o w',
       orderRepository.create lib0
         (CreateOrderDto.mk userA_id [CreateOrderItemDto.mk itemA_upper 2 500])
         None (world_with paid) = (Ok (id, o), w')
       /\ IOrder.total o = 1000
       /\ IOrder.items o = [IOrderItem.mk itemA 2 500].
Proof.
  split; [reflexivity|].
  pose proof (create_stores_valid_orders lib0
                (CreateOrderDto.mk userA_id
                   [CreateOrderItemDto.mk itemA_upper 2 500]) None
                (world_with paid)) as H.
  destruct (orderRepository.create _ _ None (world_with paid))
    as [[[id o]|e] w'] eqn:E; [|vm_compute in E; discriminate].
  destruct H as (_ & _ & _ & _ & Ht & _).
  exists id, o, w'. split; [reflexivity|].
  vm_compute in E. injection E as Hid Ho Hw. subst id o w'.
  split; [rewrite Ht|]; reflexivity.
Defined.

(** X11. [findById] carries no session: it reads the committed data.  A
    status written with the session of an open transaction is not what
    [findById] returns until the transaction commits, and it is from then
    on. *)
Theorem findById_reads_committed lib orderId id s d o :
  new_ObjectId orderId = Some id ->
  orders d !! id = Some o ->
  let w1 := (orderRepository.updateStatus lib orderId s (Some Session)
               (mkWorld d (Some (mkTransaction d d)))).2 in
  orderRepository.findById lib orderId w1
  = (Ok (Some (orderRepository.populate d (id, o))), w1)
  /\ (orderRepository.findById lib orderId (commitTransaction Session w1).2).1
     = Ok (Some (orderRepository.populate d (id, set_status s o)))
  /\ (orderRepository.findById lib orderId (abortTransaction Session w1).2).1
     = Ok (Some (orderRepository.populate d (id, o))).
Proof.
  intros Hid Ho w1.
  assert (Hw1 : w1 = mkWorld d
                       (Some (mkTransaction d
                                (mkDb (products d)
                                      (<[id := set_status s o]> (orders d)))))).
  { unfold w1, orderRepository.updateStatus, view, write.
    rewrite Hid. simpl. by rewrite Ho. }
  rewrite Hw1.
  unfold orderRepository.findById, commitTransaction, abortTransaction,
    committed.
  rewrite Hid. cbn [fst snd db txn]. rewrite publish_initial. cbn [orders].
  by rewrite Ho, lookup_insert_eq.
Qed.

Lemma findById_reads_committed_witness :
  let w1 := (orderRepository.updateStatus lib0 order1_id cancelled (Some Session)
               (mkWorld (db (world_with paid))
                  (Some (mkTransaction (db (world_with paid))
                                       (db (world_with paid)))))).2 in
  (orderRepository.findById lib0 order1_id w1).1
  = Ok (Some (orderRepository.populate (db (world_with paid))
                (order1, IOrder.mk userA [IOrderItem.mk itemA 3 500] 1500 paid))).
Proof.
  intros w1.
  destruct (findById_reads_committed lib0 order1_id order1 cancelled
              (db (world_with paid))
              (IOrder.mk userA [IOrderItem.mk itemA 3 500] 1500 paid)
              eq_refl eq_refl)
    as [H _].
  fold w1 in H. by rewrite H.
Defined.
(** * Listings *)

Lemma or_default_pos x d : (0 < d -> 0 < or_default x d)%nat.
Proof. destruct x as [[|n]|]; simpl; lia. Qed.

(** ** The product listing *)

(** X12. [findAll] of the product repository, in whatever order the store
    hands out the documents, writes nothing and returns a page of stored
    products that all satisfy the price bounds and the stock filter asked
    for, no product twice, at most [limit] of them (20 when no limit or 0 is
    given); [total] is the number of all stored products that satisfy the
    filters, and [page] is at least 1. *)
Theorem product_findAll_sound position options w :
  exists r,
    productRepository.findAll position options w = (Ok r, w)
    /\ (forall id p, (id, p) ∈ Paginated.docs r ->
          products (db w) !! id = Some p
          /\ productRepository.query options p = true)
    /\ NoDup (Paginated.docs r).*1
    /\ (length (Paginated.docs r)
        <= or_default (options ≫= ProductFilters.limit) 20)%nat
    /\ Paginated.total r
       = size (filter (fun kv : ObjectId * IProduct.t =>
                         productRepository.query options kv.2)
                      (products (db w)))
    /\ (1 <= Paginated.page r)%nat.
Proof.
  eexists. split; [reflexivity|]. simpl.
  split; [|split; [|split; [|split]]].
  - intros id p Hin. apply subseteq_take, subseteq_drop in Hin.
    rewrite merge_sort_Permutation in Hin.
    apply elem_of_map_to_list, map_lookup_filter_Some in Hin as [? ?].
    split; [done|]. by apply Is_true_true.
  - eapply (sublist_NoDup _ (merge_sort _ (map_to_list _)).*1).
    + rewrite merge_sort_Permutation. apply NoDup_fst_map_to_list.
    + apply fmap_sublist. etrans; [apply sublist_take|apply sublist_drop].
  - rewrite length_take. lia.
  - apply length_map_to_list.
  - apply or_default_pos. lia.
Qed.

(** ** The order listings *)

Section order_listings.
Variable createdAt : ObjectId -> Z.

Local Instance newest_first_total : Total (orderRepository.newest_first createdAt).
Proof. intros a b. unfold orderRepository.newest_first. lia. Qed.

Local Instance newest_first_trans :
  Transitive (orderRepository.newest_first createdAt).
Proof. intros a b c. unfold orderRepository.newest_first. lia. Qed.

Lemma sorted_page (l : list (Doc IOrder.t)) skip limit :
  StronglySorted (orderRepository.newest_first createdAt)
    (take limit (drop skip
       (merge_sort (orderRepository.newest_first createdAt) l))).
Proof.
  pose proof (StronglySorted_merge_sort
                (orderRepository.newest_first createdAt) l) as Hs.
  rewrite <- (take_drop skip (merge_sort _ l)) in Hs.
  apply StronglySorted_app_1_r in Hs.
  rewrite <- (take_drop limit (drop skip _)) in Hs.
  by apply StronglySorted_app_1_l in Hs.
Qed.

Lemma elem_of_page (l : list (Doc IOrder.t)) skip limit x :
  x ∈ take limit (drop skip
        (merge_sort (orderRepository.newest_first createdAt) l)) ->
  x ∈ l.
Proof.
  intros Hin. apply subseteq_take, subseteq_drop in Hin.
  by rewrite merge_sort_Permutation in Hin.
Qed.

Lemma first_page_all (l : list (Doc IOrder.t)) limit x :
  (length l <= limit)%nat -> x ∈ l ->
  x ∈ take limit (drop ((1 - 1) * limit)
        (merge_sort (orderRepository.newest_first createdAt) l)).
Proof.
  intros Hlen Hin. simpl. rewrite take_ge.
  - by rewrite merge_sort_Permutation.
  - by rewrite merge_sort_Permutation.
Qed.

Lemma admin_options_status (filters : option OrderFilters.t) :
  ((fun f => OrderOptions.mk (OrderFilters.page f) (OrderFilters.limit f)
                             (OrderFilters.status f) None) <$> filters)
    ≫= OrderOptions.status
  = filters ≫= OrderFilters.status.
Proof. by destruct filters. Qed.

Lemma admin_options_userId (filters : option OrderFilters.t) :
  ((fun f => OrderOptions.mk (OrderFilters.page f) (OrderFilters.limit f)
                             (OrderFilters.status f) None) <$> filters)
    ≫= OrderOptions.userId
  = None.
Proof. by destruct filters. Qed.

(** X14. A caller who is not an administrator lists their own orders only.
    For a caller whose string is an ObjectId, in any spelling,
    [getUserOrders] writes nothing; every order on the page it returns is a
    stored order whose owner is the caller and whose status is the one asked
    for, if one is; [total] is the number of such orders; and when they fit
    on the first page, every one of them is on it. *)
Theorem getUserOrders_own_orders_only lib userId caller filters isAdmin w :
  new_ObjectId userId = Some caller ->
  truthy isAdmin = false ->
  let mine := fun kv : ObjectId * IOrder.t =>
    bool_decide (IOrder.userId kv.2 = caller)
    && orderRepository.by_status (filters ≫= OrderFilters.status) kv.2 in
  exists r,
    orderService.getUserOrders createdAt lib userId filters isAdmin w
    = (Ok r, w)
    /\ (forall id o, (id, o) ∈ Paginated.docs r ->
          orders (db w) !! id = Some o
          /\ IOrder.userId o = caller
          /\ orderRepository.by_status (filters ≫= OrderFilters.status) o = true)
    /\ Paginated.total r = size (filter mine (orders (db w)))
    /\ ((Paginated.total r <= or_default (filters ≫= OrderFilters.limit) 20)%nat ->
        Paginated.page r = 1%nat ->
        forall id o, orders (db w) !! id = Some o -> mine (id, o) = true ->
                     (id, o) ∈ Paginated.docs r).
Proof.
  intros Hcaller Hadmin mine. unfold orderService.getUserOrders.
  rewrite Hadmin. unfold orderRepository.findByUserId, bind.
  rewrite ObjectId_of_run, Hcaller.
  eexists. split; [reflexivity|]. simpl. split; [|split].
  - intros id o Hin. apply elem_of_page in Hin.
    apply elem_of_map_to_list, map_lookup_filter_Some in Hin as [Ho Hq].
    simpl in Hq. apply Is_true_true, andb_true_iff in Hq as [Hu Hs].
    apply bool_decide_eq_true in Hu. done.
  - apply length_map_to_list.
  - intros Hfit Hpage id o Ho Hmine. rewrite Hpage.
    apply first_page_all; [exact Hfit|].
    apply elem_of_map_to_list, map_lookup_filter_Some. split; [done|].
    by apply Is_true_true.
Qed.

(** X15. An administrator lists the orders of everyone: the identity passed
    to [getUserOrders] plays no part, every order on the page is a stored
    order with the status asked for, and [total] counts the stored orders
    with that status whoever owns them. *)
Theorem getUserOrders_admin_all_orders lib userId filters isAdmin w :
  truthy isAdmin = true ->
  exists r,
    orderService.getUserOrders createdAt lib userId filters isAdmin w
    = (Ok r, w)
    /\ (forall other,
          orderService.getUserOrders createdAt lib other filters isAdmin w
          = (Ok r, w))
    /\ (forall id o, (id, o) ∈ Paginated.docs r ->
          orders (db w) !! id = Some o
          /\ orderRepository.by_status (filters ≫= OrderFilters.status) o = true)
    /\ Paginated.total r
       = size (filter (fun kv : ObjectId * IOrder.t =>
                         orderRepository.by_status
                           (filters ≫= OrderFilters.status) kv.2)
                      (orders (db w))).
Proof.
  intros Hadmin. unfold orderService.getUserOrders. rewrite Hadmin.
  unfold orderRepository.findAll, bind. rewrite admin_options_userId.
  cbn [orderRepository.owner_of ret].
  eexists. split; [reflexivity|]. split; [done|].
  simpl. rewrite admin_options_status.
  assert (Hq : forall o : IOrder.t,
            orderRepository.by_status (filters ≫= OrderFilters.status) o && true
            = orderRepository.by_status (filters ≫= OrderFilters.status) o)
    by (intros; apply andb_true_r).
  split.
  - intros id o Hin. apply elem_of_page in Hin.
    apply elem_of_map_to_list, map_lookup_filter_Some in Hin as [Ho Hs].
    simpl in Hs. rewrite Hq in Hs. split; [done|]. by apply Is_true_true.
  - rewrite length_map_to_list. f_equal. apply map_filter_ext.
    intros id o _. simpl. by rewrite Hq.
Qed.

(** X16. Both listings of orders are sorted, newest first, and hold at most
    [limit] orders (20 when no limit or 0 is given), whoever asks: an
    administrator, or a caller whose string is an ObjectId.  For any other
    caller who is no administrator the listing fails with the [BSONError] of
    the cast. *)
Theorem getUserOrders_newest_first lib userId filters isAdmin w :
  (truthy isAdmin = true \/ is_Some (new_ObjectId userId) ->
   exists r,
     orderService.getUserOrders createdAt lib userId filters isAdmin w
     = (Ok r, w)
     /\ StronglySorted (fun a b => createdAt b.1 <= createdAt a.1)
                       (Paginated.docs r)
     /\ (length (Paginated.docs r)
         <= or_default (filters ≫= OrderFilters.limit) 20)%nat)
  /\ (truthy isAdmin = false -> new_ObjectId userId = None ->
      orderService.getUserOrders createdAt lib userId filters isAdmin w
      = (Throw (new_BSONError lib userId), w)).
Proof.
  unfold orderService.getUserOrders. split.
  - intros Hok. destruct (truthy isAdmin).
    + unfold orderRepository.findAll, bind. rewrite admin_options_userId.
      cbn [orderRepository.owner_of ret].
      eexists. split; [reflexivity|]. simpl.
      split; [apply sorted_page|]. rewrite length_take.
      destruct filters; apply Nat.le_min_l.
    + destruct Hok as [|[u Hu]]; [done|].
      unfold orderRepository.findByUserId, bind.
      rewrite ObjectId_of_run, Hu.
      eexists. split; [reflexivity|]. simpl.
      split; [apply sorted_page|]. rewrite length_take. apply Nat.le_min_l.
  - intros -> Hnone. unfold orderRepository.findByUserId, bind.
    by rewrite ObjectId_of_run, Hnone.
Qed.

End order_listings.

Lemma getUserOrders_own_orders_only_witness :
  (exists r,
     orderService.getUserOrders (fun _ => 0) lib0 userB_id None (Some false)
                                (world_with paid) = (Ok r, world_with paid)
     /\ Paginated.docs r = [] /\ Paginated.total r = 0%nat)
  /\ exists r,
       orderService.getUserOrders (fun _ => 0) lib0 userA_id None None
                                  (world_with paid) = (Ok r, world_with paid)
       /\ Paginated.docs r
          = [(order1, IOrder.mk userA [IOrderItem.mk itemA 3 500] 1500 paid)].
Proof.
  split.
  - destruct (getUserOrders_own_orders_only (fun _ => 0) lib0 userB_id userB
                None (Some false) (world_with paid) eq_refl eq_refl)
      as (r & Hr & _ & Ht & _).
    exists r. split; [exact Hr|].
    vm_compute in Hr. injection Hr as <-. split; reflexivity.
  - destruct (getUserOrders_own_orders_only (fun _ => 0) lib0 userA_id userA
                None None (world_with paid) eq_refl eq_refl)
      as (r & Hr & _).
    exists r. split; [exact Hr|].
    vm_compute in Hr. injection Hr as <-. reflexivity.
Defined.

Lemma getUserOrders_admin_all_orders_witness :
  exists r,
    orderService.getUserOrders (fun _ => 0) lib0 userB_id None (Some true)
                               (world_with paid) = (Ok r, world_with paid)
    /\ Paginated.docs r
       = [(order1, IOrder.mk userA [IOrderItem.mk itemA 3 500] 1500 paid)].
Proof.
  destruct (getUserOrders_admin_all_orders (fun _ => 0) lib0 userB_id None
              (Some true) (world_with paid) eq_refl) as (r & Hr & _).
  exists r. split; [exact Hr|].
  vm_compute in Hr. injection Hr as <-. reflexivity.
Defined.

Lemma getUserOrders_newest_first_witness :
  (exists r,
     orderService.getUserOrders (fun _ => 0) lib0 userA_id None None
                                (world_with paid) = (Ok r, world_with paid)
     /\ length (Paginated.docs r) = 1%nat)
  /\ orderService.getUserOrders (fun _ => 0) lib0 not_an_id None None
                                (world_with paid)
     = (Throw (new_BSONError lib0 not_an_id), world_with paid).
Proof.
  split.
  - destruct (proj1 (getUserOrders_newest_first (fun _ => 0) lib0 userA_id
                       None None (world_with paid)))
      as (r & Hr & _); [right; by eexists|].
    exists r. split; [exact Hr|].
    vm_compute in Hr. injection Hr as <-. reflexivity.
  - exact (proj2 (getUserOrders_newest_first (fun _ => 0) lib0 not_an_id
                    None None (world_with paid)) eq_refl eq_refl).
Defined.

(** * The HTTP layer *)

(** ** The error handler *)

(** X17. The error handler never shows a stack for a client error, and in
    production it shows nothing of a server error.  Whatever the environment,
    a response with a status below 500 carries no stack; in production a
    response with status 500 or more carries the fixed message
    [Internal Server Error] and no stack; an error without a status code, or
    with 0, is answered with 500, and one with an HTTP status code with that
    code. *)
Theorem errorHandler_no_leak nodeEnv err stack :
  let r := errorHandler nodeEnv err stack in
  (Response.status r < 500 ->
   exists m, Response.body r = Failed m None
             /\ (message err <> EmptyString -> m = message err))
  /\ (nodeEnv = Some "production" -> 500 <= Response.status r ->
      Response.body r = Failed "Internal Server Error" None)
  /\ (statusCode err = None \/ statusCode err = Some 0 ->
      Response.status r = 500)
  /\ (forall c, statusCode err = Some c -> 100 <= c <= 999 ->
      Response.status r = c).
Proof.
  unfold errorHandler. simpl.
  set (code := match statusCode err with
               | Some 0 | None => 500
               | Some c => c
               end).
  split; [|split; [|split]].
  - intros Hlt. rewrite (proj2 (Z.leb_gt 500 code)) by lia. simpl.
    eexists. split; [reflexivity|]. intros Hm.
    by rewrite bool_decide_eq_false_2.
  - intros -> Hge. rewrite (proj2 (Z.leb_le 500 code)) by lia. reflexivity.
  - unfold code. by intros [-> | ->].
  - unfold code. intros c -> Hc. destruct c; [lia|done|lia].
Qed.

Lemma errorHandler_no_leak_witness :
  errorHandler (Some "production") (mkError TypeError "secret detail" None)
               (Some "at createOrder (order.service.ts:56)")
  = Response.mk 500 (Failed "Internal Server Error" None)
  /\ errorHandler (Some "development") (new_ConflictError "Cannot pay")
                  (Some "at payOrder (order.service.ts:149)")
     = Response.mk 409 (Failed "Cannot pay" None).
Proof.
  split.
  - destruct (errorHandler_no_leak (Some "production")
                (mkError TypeError "secret detail" None)
                (Some "at createOrder (order.service.ts:56)"))
      as (_ & Hprod & Hcode & _).
    specialize (Hcode (or_introl eq_refl)).
    destruct (errorHandler _ _ _) as [st body]. simpl in *. subst st.
    by rewrite (Hprod eq_refl ltac:(lia)).
  - destruct (errorHandler_no_leak (Some "development")
                (new_ConflictError "Cannot pay")
                (Some "at payOrder (order.service.ts:149)"))
      as (Hclient & _ & _ & Hcode).
    specialize (Hcode 409 eq_refl ltac:(lia)).
    destruct (errorHandler _ _ _) as [st body]. simpl in *. subst st.
    destruct (Hclient ltac:(lia)) as (m & -> & Hm).
    by rewrite (Hm ltac:(discriminate)).
Defined.

(** ** Authentication *)

Lemma js_split_nonempty sep s : js_split sep s <> [].
Proof.
  destruct s as [|c s]; simpl; [done|].
  case_bool_decide; [done|]. by destruct (js_split sep s).
Qed.

(** The first part of a split has no separator, and what follows it in the
    string is a separator and the string of the other parts. *)
Lemma js_split_cons_inv sep s p ps :
  js_split sep s = p :: ps ->
  contains sep p = false
  /\ (ps = [] /\ s = p
      \/ exists s', s = p +:+ String sep s' /\ js_split sep s' = ps).
Proof.
  revert p ps. induction s as [|c s IH]; intros p ps; simpl.
  - intros [= <- <-]. split; [done|]. by left.
  - case_bool_decide as Hc.
    + intros [= <- <-]. split; [done|]. right. exists s. by subst c.
    + destruct (js_split sep s) as [|p' ps'] eqn:Hs;
        [by apply js_split_nonempty in Hs|].
      intros [= <- <-]. destruct (IH p' ps' eq_refl) as [Hfree Hrest].
      split; [simpl; by rewrite bool_decide_eq_false_2|].
      destruct Hrest as [[-> ->]|(s' & -> & Hs')]; [by left|].
      right. exists s'. done.
Qed.

Lemma js_split_free sep s : contains sep s = false -> js_split sep s = [s].
Proof.
  induction s as [|c s IH]; simpl; [done|].
  intros [Hc Hs]%orb_false_iff. rewrite Hc, (IH Hs). done.
Qed.

Lemma js_split_app sep a s :
  contains sep a = false ->
  js_split sep (a +:+ String sep s) = a :: js_split sep s.
Proof.
  induction a as [|c a IH]; simpl.
  - intros _. by rewrite bool_decide_eq_true_2.
  - intros [Hc Ha]%orb_false_iff. rewrite Hc, (IH Ha). done.
Qed.

(** The headers that split into [Bearer] and one more part. *)
Lemma bearer_parts header token :
  js_split " " header = ["Bearer"; token]
  <-> header = "Bearer " +:+ token /\ contains " " token = false.
Proof.
  split.
  - intros Hs. apply js_split_cons_inv in Hs as [_ [[? _]|(s' & -> & Hs')]];
      [done|].
    apply js_split_cons_inv in Hs' as [Hfree [[_ ->]|(s'' & _ & Hnil)]];
      [done|].
    by apply js_split_nonempty in Hnil.
  - intros [-> Hfree].
    change ("Bearer " +:+ token) with ("Bearer" +:+ String " " token).
    rewrite js_split_app by done. by rewrite js_split_free.
Qed.

(** When [authenticate] lets a request through. *)
Lemma authenticate_through verify header u :
  authMiddleware.authenticate verify header = Through u
  <-> exists token user,
        header = Some ("Bearer " +:+ token)
        /\ contains " " token = false
        /\ verify token = Decoded user
        /\ u = Some user.
Proof.
  unfold authMiddleware.authenticate. split.
  - destruct header as [h|]; [|done].
    destruct (decide (h = EmptyString)) as [->|Hne]; [done|].
    assert (nonempty_or (Some h) None = Some h) as -> by (by destruct h).
    cbv zeta. destruct (js_split " " h) as [|p0 [|token [|]]] eqn:Hparts;
      try (by intros [=]).
    destruct (bool_decide (length [p0; token] ≠ 2%nat)
              || bool_decide ([p0; token] !! 0%nat ≠ Some "Bearer")) eqn:Hcond;
      [by intros [=]|].
    apply orb_false_iff in Hcond as [_ Hb].
    apply bool_decide_eq_false, dec_stable in Hb. simpl in Hb.
    injection Hb as ->. simpl.
    destruct (verify token) as [user| | |] eqn:Hv; try (by intros [=]).
    intros [= <-]. exists token, user.
    apply bearer_parts in Hparts as [-> Hfree]. done.
  - intros (token & user & -> & Hfree & Hv & ->).
    assert (Hnonempty : nonempty_or (Some ("Bearer " +:+ token)) None
                        = Some ("Bearer " +:+ token)) by done.
    rewrite Hnonempty.
    rewrite (proj2 (bearer_parts _ token) (conj eq_refl Hfree)).
    simpl. by rewrite Hv.
Qed.

Lemma authenticate_refused verify header e :
  authMiddleware.authenticate verify header = Refused e ->
  cls e = UnauthorizedError /\ statusCode e = Some 401.
Proof.
  unfold authMiddleware.authenticate.
  destruct (nonempty_or header None) as [h|]; [|by intros [= <-]].
  destruct (_ || _); [by intros [= <-]|].
  destruct (js_split " " h !! 1%nat) as [token|]; [|by intros [= <-]].
  destruct (verify token); intros [= <-]; done.
Qed.

(** X21. [authenticate] lets a request through exactly when its
    [Authorization] header is [Bearer], one space, and a token without a space
    that [jwt.verify] accepts; [req.user] is then what the token decodes to.
    Every other request, without a header, with another scheme, with more
    spaces, or with a token that is expired or invalid, is refused with an
    [UnauthorizedError] of status 401. *)
Theorem authenticate_bearer_only verify header :
  (forall user,
     authMiddleware.authenticate verify header = Through (Some user)
     <-> exists token,
           header = Some ("Bearer " +:+ token)
           /\ contains " " token = false
           /\ verify token = Decoded user)
  /\ authMiddleware.authenticate verify header <> Through None
  /\ (forall e, authMiddleware.authenticate verify header = Refused e ->
        cls e = UnauthorizedError /\ statusCode e = Some 401).
Proof.
  split; [|split].
  - intros user. rewrite authenticate_through. split.
    + intros (token & user' & ? & ? & ? & [= ->]). eauto.
    + intros (token & ? & ? & ?). eauto 10.
  - intros H. apply authenticate_through in H as (? & ? & _ & _ & _ & ?).
    discriminate.
  - apply authenticate_refused.
Qed.

(** X22. The routes that change the catalogue let a request through exactly
    when it carries a bearer token that decodes to an administrator.  A
    request whose token decodes to a customer is refused with status 403, and
    every other refusal has status 401. *)
Theorem admin_only_routes verify header :
  (forall u,
     productRoutes.admin_only verify header = Through u
     <-> exists token user,
           header = Some ("Bearer " +:+ token)
           /\ contains " " token = false
           /\ verify token = Decoded user
           /\ User.role user = admin
           /\ u = Some user)
  /\ (forall e,
        productRoutes.admin_only verify header = Refused e ->
        statusCode e = Some 401
        \/ statusCode e = Some 403
           /\ exists user,
                authMiddleware.authenticate verify header = Through (Some user)
                /\ User.role user = customer).
Proof.
  unfold productRoutes.admin_only. split.
  - intros u. split.
    + destruct (authMiddleware.authenticate verify header) as [u'|e] eqn:Ha;
        [|done].
      apply authenticate_through in Ha as (token & user & -> & Hf & Hv & ->).
      simpl. case_bool_decide as Hr; [done|]. intros [= <-].
      exists token, user. repeat split; try done.
      destruct (User.role user); [done|].
      by apply list_elem_of_singleton in Hr.
    + intros (token & user & Hh & Hf & Hv & Hr & ->).
      rewrite (proj2 (authenticate_through verify header (Some user)))
        by eauto 10.
      simpl. rewrite Hr. reflexivity.
  - intros e.
    destruct (authMiddleware.authenticate verify header) as [[user|]|e'] eqn:Ha.
    + simpl. case_bool_decide as Hr; [|done]. intros [= <-]. right.
      split; [done|]. exists user. split; [done|].
      destruct (User.role user); [|done]. exfalso. apply Hr.
      by apply list_elem_of_singleton.
    + simpl. intros [= <-]. by left.
    + intros [= <-]. left. by apply authenticate_refused in Ha as [_ ?].
Qed.

(** * The catalogue *)

(** ** In stock and out of stock *)

Lemma query_stock_filter inStock options p :
  productRepository.query (product_stock_filter inStock options) p
  = productRepository.query (product_stock_filter None options) p
    && match inStock with
       | Some true => (0 <? IProduct.stock p)%Z
       | Some false => (IProduct.stock p =? 0)%Z
       | None => true
       end.
Proof.
  unfold productRepository.query, product_stock_filter. simpl.
  by rewrite andb_true_r.
Qed.

(** X23. The stock filter of the product listing splits the catalogue in
    two.  While no stock is negative, the number of products listed as in
    stock and the number listed as out of stock add up to the number listed
    without the filter, under the same price bounds. *)
Theorem product_stock_filter_splits position options w :
  stock_nonneg (db w) ->
  exists r_in r_out r_all,
    productRepository.findAll position
      (product_stock_filter (Some true) options) w
    = (Ok r_in, w)
    /\ productRepository.findAll position
         (product_stock_filter (Some false) options) w
       = (Ok r_out, w)
    /\ productRepository.findAll position
         (product_stock_filter None options) w
       = (Ok r_all, w)
    /\ (Paginated.total r_in + Paginated.total r_out = Paginated.total r_all)%nat.
Proof.
  intros Hstock. eexists _, _, _.
  split; [reflexivity|]. split; [reflexivity|]. split; [reflexivity|]. simpl.
  rewrite !length_map_to_list.
  set (all := filter (fun kv : ObjectId * IProduct.t =>
                        productRepository.query
                          (product_stock_filter None options) kv.2)
                     (products (db w))).
  set (P := fun kv : ObjectId * IProduct.t => 0 < IProduct.stock kv.2).
  assert (Hin : filter (fun kv : ObjectId * IProduct.t =>
                          productRepository.query
                            (product_stock_filter (Some true) options) kv.2)
                       (products (db w))
                = filter P all).
  { unfold all. rewrite map_filter_filter. apply map_filter_ext.
    intros i x _. unfold P. simpl. rewrite query_stock_filter.
    rewrite andb_True, (Is_true_true (0 <? _)%Z), Z.ltb_lt. tauto. }
  assert (Hout : filter (fun kv : ObjectId * IProduct.t =>
                           productRepository.query
                             (product_stock_filter (Some false) options) kv.2)
                        (products (db w))
                 = filter (fun kv => ~ P kv) all).
  { unfold all. rewrite map_filter_filter. apply map_filter_ext.
    intros i x Hx. unfold P. simpl. rewrite query_stock_filter.
    rewrite andb_True, (Is_true_true (_ =? 0)%Z), Z.eqb_eq.
    pose proof (Hstock i x Hx) as Hx0. simpl in Hx0.
    split; intros [? ?]; split; (done || lia). }
  rewrite Hin, Hout.
  rewrite <- map_size_disj_union by apply map_disjoint_filter_complement.
  by rewrite map_filter_union_complement.
Qed.

Lemma product_stock_filter_splits_witness :
  exists r_in r_out r_all,
    productRepository.findAll (fun _ => 0)
      (product_stock_filter (Some true) None)
      (serve_all lib0 [Create userA_id [Item.mk itemB_id 2]] world0)
    = (Ok r_in, serve_all lib0 [Create userA_id [Item.mk itemB_id 2]] world0)
    /\ productRepository.findAll (fun _ => 0)
         (product_stock_filter (Some false) None)
         (serve_all lib0 [Create userA_id [Item.mk itemB_id 2]] world0)
       = (Ok r_out, serve_all lib0 [Create userA_id [Item.mk itemB_id 2]] world0)
    /\ productRepository.findAll (fun _ => 0)
         (product_stock_filter None None)
         (serve_all lib0 [Create userA_id [Item.mk itemB_id 2]] world0)
       = (Ok r_all, serve_all lib0 [Create userA_id [Item.mk itemB_id 2]] world0)
    /\ (Paginated.total r_in + Paginated.total r_out = Paginated.total r_all)%nat.
Proof.
  apply product_stock_filter_splits.
  apply (bool_decide_unpack _). vm_compute. exact I.
Defined.


(** ** Deleting a product *)



(** * Instances of the properties above *)

Lemma product_findAll_sound_witness :
  exists r,
    productRepository.findAll (fun _ => 0) None world0 = (Ok r, world0)
    /\ Paginated.total r = 2%nat
    /\ (length (Paginated.docs r) <= 20)%nat.
Proof.
  destruct (product_findAll_sound (fun _ => 0) None world0)
    as (r & Hr & _ & _ & Hlen & Ht & _).
  exists r. split; [exact Hr|]. split; [|exact Hlen].
  rewrite Ht. vm_compute. reflexivity.
Defined.

Lemma authenticate_bearer_only_witness :
  authMiddleware.authenticate verify0 (Some "Bearer buyer-token")
  = Through (Some buyer)
  /\ forall e,
       authMiddleware.authenticate verify0 (Some "Bearer old-token") = Refused e ->
       statusCode e = Some 401.
Proof.
  split.
  - apply (proj1 (authenticate_bearer_only verify0 (Some "Bearer buyer-token"))).
    exists "buyer-token". split; [reflexivity|]. split; reflexivity.
  - intros e He.
    exact (proj2 (proj2 (proj2 (authenticate_bearer_only verify0
                                  (Some "Bearer old-token"))) e He)).
Defined.

Lemma admin_only_routes_witness :
  productRoutes.admin_only verify0 (Some "Bearer root-token")
  = Through (Some root)
  /\ forall e,
       productRoutes.admin_only verify0 (Some "Bearer buyer-token") = Refused e ->
       statusCode e = Some 403.
Proof.
  split.
  - apply (proj1 (admin_only_routes verify0 (Some "Bearer root-token"))).
    exists "root-token", root. repeat split; reflexivity.
  - intros e He.
    destruct (proj2 (admin_only_routes verify0 (Some "Bearer buyer-token")) e He)
      as [H401|[H403 _]]; [|exact H403].
    vm_compute in He. injection He as <-. discriminate.
Defined.

(** Headers that are refused, one by one. *)
Example authenticate_examples :
  authMiddleware.authenticate verify0 None
  = Refused (new_UnauthorizedError "No authorization header provided")
  /\ authMiddleware.authenticate verify0 (Some EmptyString)
     = Refused (new_UnauthorizedError "No authorization header provided")
  /\ authMiddleware.authenticate verify0 (Some "Basic root-token")
     = Refused (new_UnauthorizedError "Invalid authorization header format")
  /\ authMiddleware.authenticate verify0 (Some "Bearer  root-token")
     = Refused (new_UnauthorizedError "Invalid authorization header format")
  /\ authMiddleware.authenticate verify0 (Some "Bearer old-token")
     = Refused (new_UnauthorizedError "Token has expired")
  /\ authMiddleware.authenticate verify0 (Some "Bearer ")
     = Refused (new_UnauthorizedError "Invalid token").
Proof. vm_compute. done. Qed.

(** Two rankings of the catalogue, and the two orders in which the store
    then lists it. *)
Example findAll_store_order :
  (listed (productRepository.findAll (fun id => Z.of_N id) None world0)).*1
  = [itemA; itemB]
  /\ (listed (productRepository.findAll (fun id => - Z.of_N id) None
                world0)).*1
     = [itemB; itemA].
Proof. vm_compute. done. Qed.
